(** * Weight boosting (sklearn/ensemble/weight_boosting.py)

    A shallow embedding of [BaseWeightBoosting], [AdaBoostClassifier] and
    [AdaBoostRegressor], and the properties of the boosting loop and of the
    ensemble predictors.

    Numbers.  numpy's float64 arrays are modelled by lists of exact rationals
    [Q]: rounding is not modelled, and an array division by zero (numpy gives
    inf or nan) is Q's [x / 0 = 0]; no statement below depends on such a
    division.  [feature_importances_], which [fit] divides by a sum of
    estimator weights that can be zero, holds [np_float] entries, which
    have the infinities and nan.  Divisions of Python scalars by a zero Python int
    raise [ZeroDivisionError] as in the source.  [np.log], [np.exp] and
    [np.power] are parameters of the development.

    Shapes.  Vectors are lists and matrices lists of rows; an elementwise
    operation pairs the entries of its operands position by position, which
    is numpy's result whenever the shapes agree, as they do for arrays that
    come from the same training set and the same kind of weak learner.

    Objects.  The estimator object [self] is a record that every method
    threads explicitly; an exception leaves the record as mutated so far.
    A generator is the list of the values it yields together with the
    exception that ends it, if any. *)

From Stdlib Require Import String.
From Stdlib Require Import QArith Qabs ZArith List Bool Lia Lqa.
Import ListNotations.

Set Implicit Arguments.
Open Scope Q_scope.

(** ** Exceptions and results *)

(** The Python exceptions the module raises or lets through.  The
    specification calls [ValueError]/[TypeError] "InvalidArgument",
    [RuntimeError] "NotFitted" and [AttributeError] "UnsupportedCapability".
    [LearnerError] stands for whatever a weak learner raises itself. *)
Inductive exn : Type :=
| ValueError
| TypeError
| AttributeError
| RuntimeError
| IndexError
| ZeroDivisionError
| LearnerError (code : nat).

Inductive result (A : Type) : Type :=
| Ok (a : A)
| Raise (e : exn).
Arguments Ok {A} a.
Arguments Raise {A} e.

Definition rbind {A B} (r : result A) (k : A -> result B) : result B :=
  match r with
  | Ok a => k a
  | Raise e => Raise e
  end.

Fixpoint rmap {A B} (f : A -> result B) (l : list A) : result (list B) :=
  match l with
  | [] => Ok []
  | a :: l' =>
      rbind (f a) (fun b => rbind (rmap f l') (fun bs => Ok (b :: bs)))
  end.

(** State and exception monad over the object [self]. *)
Definition M (S A : Type) : Type := S -> S * result A.

Definition ret {S A} (a : A) : M S A := fun s => (s, Ok a).
Definition raise {S A} (e : exn) : M S A := fun s => (s, Raise e).
Definition bind {S A B} (m : M S A) (k : A -> M S B) : M S B :=
  fun s =>
    match m s with
    | (s', Ok a) => k a s'
    | (s', Raise e) => (s', Raise e)
    end.
Definition get {S} : M S S := fun s => (s, Ok s).
Definition modify {S} (f : S -> S) : M S unit := fun s => (f s, Ok tt).
Definition lift {S A} (r : result A) : M S A := fun s => (s, r).

Declare Scope boost_scope.
Delimit Scope boost_scope with boost.
Notation "x <- c1 ;; c2" := (bind c1 (fun x => c2))
  (at level 100, c1 at next level, right associativity) : boost_scope.
Notation "c1 ;;; c2" := (bind c1 (fun _ => c2))
  (at level 100, right associativity) : boost_scope.
Notation "x <~ c1 ;; c2" := (rbind c1 (fun x => c2))
  (at level 100, c1 at next level, right associativity) : boost_scope.

(** ** Arrays *)

Definition qsum (l : list Q) : Q := fold_right Qplus 0 l.

Fixpoint map2 {A B C} (f : A -> B -> C) (l : list A) (l' : list B) : list C :=
  match l, l' with
  | a :: t, b :: t' => f a b :: map2 f t t'
  | _, _ => []
  end.

Definition dot (u v : list Q) : Q := qsum (map2 Qmult u v).

Definition b2q (b : bool) : Q := if b then 1 else 0.

Definition Qltb (a b : Q) : bool := negb (Qle_bool b a).

(** A float64 entry of an array that was divided by a scalar: numpy divides
    by zero without raising, and gives nan for [0 / 0] and the infinity of
    the numerator's sign otherwise. *)
Inductive np_float : Type :=
| Finite (q : Q)
| PosInf
| NegInf
| NaN.

(** [x / d] on float64 entries. *)
Definition np_divide (x d : Q) : np_float :=
  if Qeq_bool d 0 then
    if Qeq_bool x 0 then NaN
    else if Qltb 0 x then PosInf else NegInf
  else Finite (x / d).

(** [a[i] = v] on an array: Python raises [IndexError] out of range. *)
Fixpoint set_item {A} (l : list A) (i : nat) (v : A) : result (list A) :=
  match l, i with
  | [], _ => Raise IndexError
  | _ :: t, O => Ok (v :: t)
  | a :: t, S j => rbind (set_item t j v) (fun t' => Ok (a :: t'))
  end.

(** [a.take(idx)] / [a[idx]] with an index array. *)
Definition take {A} (l : list A) (idx : list nat) : result (list A) :=
  rmap (fun i => match nth_error l i with
                 | Some a => Ok a
                 | None => Raise IndexError
                 end) idx.

(** [np.argmax] of a row: the first position of the greatest entry (0 on
    the running maximum's ties, as numpy keeps the first). *)
Fixpoint argmax_from (best : Q) (besti i : nat) (l : list Q) : nat :=
  match l with
  | [] => besti
  | x :: t =>
      if Qltb best x then argmax_from x i (S i) t
      else argmax_from best besti (S i) t
  end.

Definition argmax (l : list Q) : nat :=
  match l with
  | [] => O
  | x :: t => argmax_from x O 1%nat t
  end.

(** ** The weak-learner contract *)

(** What the module uses of a base estimator.  [clone] is the fresh copy
    [_make_estimator] takes of [base_estimator]; [est_fit] is
    [estimator.fit(X, y, sample_weight=...)] ([None] when the regressor
    passes no weights), which trains the object in place and may raise;
    [est_predict_proba] raises when the capability is missing. *)
Class WeakLearner (Sample Target Estimator : Type) : Type := {
  clone : Estimator -> Estimator;
  est_fit : Estimator -> list Sample -> list Target -> option (list Q) ->
            result Estimator;
  est_predict : Estimator -> list Sample -> list Target;
  est_predict_proba : Estimator -> list Sample -> result (list (list Q));
  est_classes : Estimator -> option (list Target);
  est_feature_importances : Estimator -> option (list Q);
  is_classifier : Estimator -> bool;
  is_regressor : Estimator -> bool;
  has_predict_proba : Estimator -> bool;
  set_compute_importances : Estimator -> Estimator
}.

(** ** The estimator object *)

(** The attributes of [self].  [None] in an option field is Python's [None]
    or an attribute that is not set yet ([classes_], [n_classes_] exist only
    after the first boost). *)
Record adaboost (Target Estimator : Type) : Type := mkAdaBoost {
  base_estimator : Estimator;
  n_estimators : nat;
  learning_rate : Q;
  compute_importances : bool;
  algorithm : string;
  loss : string;
  estimators_ : list Estimator;
  estimator_weights_ : option (list Q);
  estimator_errors_ : option (list Q);
  feature_importances_ : option (list np_float);
  classes_ : option (list Target);
  n_classes_ : option nat
}.

Section Setters.
Context {Target Estimator : Type}.
Abbreviation self_t := (adaboost Target Estimator).

Definition set_base_estimator (b : Estimator) (s : self_t) : self_t :=
  mkAdaBoost b (n_estimators s) (learning_rate s) (compute_importances s)
    (algorithm s) (loss s) (estimators_ s) (estimator_weights_ s)
    (estimator_errors_ s) (feature_importances_ s) (classes_ s)
    (n_classes_ s).

Definition set_estimators (es : list Estimator) (s : self_t) : self_t :=
  mkAdaBoost (base_estimator s) (n_estimators s) (learning_rate s)
    (compute_importances s) (algorithm s) (loss s) es
    (estimator_weights_ s) (estimator_errors_ s) (feature_importances_ s)
    (classes_ s) (n_classes_ s).

Definition set_estimator_weights (w : option (list Q)) (s : self_t)
  : self_t :=
  mkAdaBoost (base_estimator s) (n_estimators s) (learning_rate s)
    (compute_importances s) (algorithm s) (loss s) (estimators_ s) w
    (estimator_errors_ s) (feature_importances_ s) (classes_ s)
    (n_classes_ s).

Definition set_estimator_errors (e : option (list Q)) (s : self_t)
  : self_t :=
  mkAdaBoost (base_estimator s) (n_estimators s) (learning_rate s)
    (compute_importances s) (algorithm s) (loss s) (estimators_ s)
    (estimator_weights_ s) e (feature_importances_ s) (classes_ s)
    (n_classes_ s).

Definition set_feature_importances (f : option (list np_float))
    (s : self_t) : self_t :=
  mkAdaBoost (base_estimator s) (n_estimators s) (learning_rate s)
    (compute_importances s) (algorithm s) (loss s) (estimators_ s)
    (estimator_weights_ s) (estimator_errors_ s) f (classes_ s)
    (n_classes_ s).

Definition set_classes (c : option (list Target)) (s : self_t) : self_t :=
  mkAdaBoost (base_estimator s) (n_estimators s) (learning_rate s)
    (compute_importances s) (algorithm s) (loss s) (estimators_ s)
    (estimator_weights_ s) (estimator_errors_ s) (feature_importances_ s)
    c (n_classes_ s).

Definition set_n_classes (k : option nat) (s : self_t) : self_t :=
  mkAdaBoost (base_estimator s) (n_estimators s) (learning_rate s)
    (compute_importances s) (algorithm s) (loss s) (estimators_ s)
    (estimator_weights_ s) (estimator_errors_ s) (feature_importances_ s)
    (classes_ s) k.

Definition set_algorithm (a : string) (s : self_t) : self_t :=
  mkAdaBoost (base_estimator s) (n_estimators s) (learning_rate s)
    (compute_importances s) a (loss s) (estimators_ s)
    (estimator_weights_ s) (estimator_errors_ s) (feature_importances_ s)
    (classes_ s) (n_classes_ s).
End Setters.

(** ** BaseWeightBoosting *)

(** How the boosting loop of [fit] ended.  Python's [fit] returns [self];
    the model returns, next to the updated object, which exit the loop took
    and at which iteration index. *)
Inductive loop_exit : Type :=
| Exhausted
| Sentinel (iboost : nat)
| ZeroError (iboost : nat)
| NonPositiveSum (iboost : nat).

(** The outcome of one pass through the loop body: go on with the given
    sample weights, or [break]. *)
Inductive step : Type :=
| Next (sample_weight : list Q)
| Stop (why : loop_exit).

(** Python's builtin [sum] over arrays starts from the int [0]; with no
    array to add, the scalar is held as a one-element vector. *)
Definition py_sum (vs : list (list Q)) : list Q :=
  match vs with
  | [] => [0]
  | v :: t => fold_left (map2 Qplus) t v
  end.

Section BaseWeightBoosting.
Context {Sample Target Estimator : Type}.
Context {WL : WeakLearner Sample Target Estimator}.
Abbreviation self_t := (adaboost Target Estimator).

(** The abstract method [_boost]: [None] is the triple
    [(None, None, None)]. *)
Variable _boost : nat -> list Sample -> list Target -> list Q ->
                  M self_t (option (list Q * Q * Q)).

(** Modelled from the spec: [BaseEnsemble._make_estimator]
    (sklearn/ensemble/base.py, not under src/): the booster records the
    member it is about to fit in the member sequence, so that a rejected
    iteration has to discard it again.  A copy of [base_estimator] is
    appended to [estimators_] and returned. *)
Definition _make_estimator : M self_t Estimator :=
  fun s =>
    let e := clone (base_estimator s) in
    (set_estimators (estimators_ s ++ [e]) s, Ok e).

(** [estimator.fit(...)] on the object [_make_estimator] returned: that
    object is the last element of [estimators_], so training it changes
    the list's last element too; when [fit] raises the copy stays there. *)
Definition train (e : Estimator) (X : list Sample) (y : list Target)
    (w : option (list Q)) : M self_t Estimator :=
  fun s =>
    match est_fit e X y w with
    | Ok e' => (set_estimators (removelast (estimators_ s) ++ [e']) s, Ok e')
    | Raise ex => (s, Raise ex)
    end.

(** Lines 98-110: the weights the loop starts from. *)
Definition initial_sample_weight (X : list Sample)
    (sample_weight : option (list Q)) : result (list Q) :=
  match sample_weight with
  | None =>
      let n := length X in
      if (n =? 0)%nat then Raise ZeroDivisionError
      else Ok (repeat (1 / inject_Z (Z.of_nat n)) n)
  | Some sw =>
      let sw' := map (fun w => w / qsum sw) sw in
      if Qle_bool (qsum sw') 0 then Raise ValueError else Ok sw'
  end.

(** Lines 112-115. *)
Definition clear_fit (s : self_t) : self_t :=
  set_estimator_errors (Some (repeat 1 (n_estimators s)))
    (set_estimator_weights (Some (repeat 0 (n_estimators s)))
       (set_estimators [] s)).

Definition store_weight (iboost : nat) (v : Q) : M self_t unit :=
  fun s =>
    match estimator_weights_ s with
    | None => (s, Raise TypeError)
    | Some w =>
        match set_item w iboost v with
        | Ok w' => (set_estimator_weights (Some w') s, Ok tt)
        | Raise e => (s, Raise e)
        end
    end.

Definition store_error (iboost : nat) (v : Q) : M self_t unit :=
  fun s =>
    match estimator_errors_ s with
    | None => (s, Raise TypeError)
    | Some w =>
        match set_item w iboost v with
        | Ok w' => (set_estimator_errors (Some w') s, Ok tt)
        | Raise e => (s, Raise e)
        end
    end.

(** Lines 118-143: the body of the loop. *)
Definition fit_iteration (iboost : nat) (X : list Sample)
    (y : list Target) (sample_weight : list Q) : M self_t step :=
  (r <- _boost iboost X y sample_weight ;;
   match r with
   | None => ret (Stop (Sentinel iboost))
   | Some (sample_weight, estimator_weight, estimator_error) =>
       (store_weight iboost estimator_weight ;;;
        store_error iboost estimator_error ;;;
        if Qeq_bool estimator_error 0 then ret (Stop (ZeroError iboost))
        else
          let sample_weight_sum := qsum sample_weight in
          if Qle_bool sample_weight_sum 0
          then ret (Stop (NonPositiveSum iboost))
          else
            (s <- get ;;
             if (iboost <? n_estimators s - 1)%nat
             then ret (Next (map (fun w => w / sample_weight_sum)
                                 sample_weight))
             else ret (Next sample_weight)))
   end)%boost.

(** [for iboost in xrange(self.n_estimators)], by recursion on the number
    of iterations left. *)
Fixpoint fit_loop (remaining iboost : nat) (X : list Sample)
    (y : list Target) (sample_weight : list Q) : M self_t loop_exit :=
  match remaining with
  | O => ret Exhausted
  | S remaining' =>
      (st <- fit_iteration iboost X y sample_weight ;;
       match st with
       | Next sample_weight' =>
           fit_loop remaining' (S iboost) X y sample_weight'
       | Stop why => ret why
       end)%boost
  end.

(** Lines 145-158. *)
Definition sum_importances : M self_t unit :=
  fun s =>
    if compute_importances s then
      match estimator_weights_ s with
      | None => (s, Raise AttributeError)
      | Some w =>
          let norm := qsum w in
          match rmap (fun wc : Q * Estimator =>
                        match est_feature_importances (snd wc) with
                        | Some fi => Ok (map (Qmult (fst wc)) fi)
                        | None => Raise AttributeError
                        end) (combine w (estimators_ s)) with
          | Ok vs =>
              (set_feature_importances
                 (Some (map (fun v => np_divide v norm) (py_sum vs))) s,
               Ok tt)
          | Raise e => (s, Raise e)
          end
      end
    else (s, Ok tt).

(** Lines 92-93. *)
Definition enable_importances (s : self_t) : self_t :=
  if compute_importances s
  then set_base_estimator (set_compute_importances (base_estimator s)) s
  else s.

(** [BaseWeightBoosting.fit].  [check_arrays] (sklearn/utils) is taken to
    accept [X] and [y] as they are. *)
Definition base_fit (X : list Sample) (y : list Target)
    (sample_weight : option (list Q)) : M self_t loop_exit :=
  (s <- get ;;
   if Qle_bool (learning_rate s) 0 then raise ValueError
   else
     (modify enable_importances ;;;
      sample_weight <- lift (initial_sample_weight X sample_weight) ;;
      modify clear_fit ;;;
      why <- fit_loop (n_estimators s) 0 X y sample_weight ;;
      sum_importances ;;;
      ret why))%boost.
End BaseWeightBoosting.

(** ** What the loop hands to the booster *)

Section LoopInputs.
Context {Sample Target Estimator : Type}.
Context {WL : WeakLearner Sample Target Estimator}.
Variable _boost : nat -> list Sample -> list Target -> list Q ->
                  M (adaboost Target Estimator) (option (list Q * Q * Q)).

(** The sample weights of the successive calls [self._boost(iboost, X, y,
    sample_weight)] (line 119) of a run of the loop, in order. *)
Fixpoint boost_inputs (remaining iboost : nat) (X : list Sample)
    (y : list Target) (sample_weight : list Q)
    (s : adaboost Target Estimator) : list (list Q) :=
  match remaining with
  | O => []
  | S remaining' =>
      sample_weight ::
      match fit_iteration _boost iboost X y sample_weight s with
      | (s', Ok (Next sample_weight')) =>
          boost_inputs remaining' (S iboost) X y sample_weight' s'
      | _ => []
      end
  end.
End LoopInputs.

(** Two states of the object with the same configuration. *)
Definition same_config {Target Estimator}
    (s s' : adaboost Target Estimator) : Prop :=
  base_estimator s' = base_estimator s
  /\ n_estimators s' = n_estimators s
  /\ learning_rate s' = learning_rate s
  /\ compute_importances s' = compute_importances s
  /\ algorithm s' = algorithm s
  /\ loss s' = loss s.

(** ** Generators *)

(** A generator run to its end: the values it yielded, and the exception
    that ended it, if one did. *)
Definition gen (A : Type) : Type := (list A * option exn)%type.

Definition gyield {A} (a : A) (g : gen A) : gen A := (a :: fst g, snd g).

(** Consuming a generator whose loop body may raise after the value
    arrived: [for v in g: yield f v]. *)
Fixpoint gfor_list {A B} (f : A -> result B) (l : list A) (e : option exn)
  : gen B :=
  match l with
  | [] => ([], e)
  | a :: l' =>
      match f a with
      | Ok b => gyield b (gfor_list f l' e)
      | Raise ex => ([], Some ex)
      end
  end.

Definition gfor {A B} (f : A -> result B) (g : gen A) : gen B :=
  gfor_list f (fst g) (snd g).

(** The last value of a sequence, if it has one. *)
Fixpoint final {A} (l : list A) : option A :=
  match l with
  | [] => None
  | a :: l' => match l' with [] => Some a | _ :: _ => final l' end
  end.

(** An object whose two recording arrays are there and hold [n] entries
    each. *)
Definition recorded_arrays {Target Estimator} (n : nat)
    (s : adaboost Target Estimator) : Prop :=
  exists w er,
    estimator_weights_ s = Some w /\ estimator_errors_ s = Some er
    /\ List.length w = n /\ List.length er = n.

(** An object whose recording arrays still hold, in every slot from [i] up
    to [n], the values lines 113-115 put there. *)
Definition untouched_from {Target Estimator} (n i : nat)
    (s : adaboost Target Estimator) : Prop :=
  exists w er,
    estimator_weights_ s = Some w /\ estimator_errors_ s = Some er
    /\ forall j, (i <= j < n)%nat ->
                 nth_error w j = Some 0 /\ nth_error er j = Some 1.

(** ** AdaBoostClassifier *)

Definition matrix : Type := list (list Q).

(** What [decision_function] returns: an array of shape [n_samples] in the
    binary case, of shape [n_samples, n_classes] otherwise. *)
Inductive score : Type :=
| Vec (v : list Q)
| Mat (m : matrix).

Definition mat_add (a b : matrix) : matrix := map2 (map2 Qplus) a b.
Definition mat_div (a : matrix) (d : Q) : matrix :=
  map (map (fun p => p / d)) a.

(** [a[:, 0] *= -1]. *)
Definition neg_col0 (a : matrix) : result matrix :=
  rmap (fun row : list Q =>
          match row with
          | [] => Raise IndexError
          | x :: t => Ok (x * -1 :: t)
          end) a.

(** [np.average(a, weights=w, axis=0)] of vectors. *)
Definition average (a w : list Q) : result Q :=
  if Qeq_bool (qsum w) 0 then Raise ZeroDivisionError
  else Ok (dot a w / qsum w).

Definition Qnat (n : nat) : Q := inject_Z (Z.of_nat n).

Definition floor_proba : Q := 1 # 100000.

Section Classifier.
Context {Sample Estimator : Type}.
Context {WL : WeakLearner Sample Z Estimator}.
Variables ln exp : Q -> Q.
Abbreviation clf_t := (adaboost Z Estimator).

Definition displace (proba : matrix) : matrix :=
  map (map (fun p => if Qle_bool p 0 then floor_proba else p)) proba.

(** [_samme_proba] (lines 225-243). *)
Definition _samme_proba (estimator : Estimator) (n_classes : nat)
    (X : list Sample) : result matrix :=
  (proba <~ est_predict_proba estimator X ;;
   let proba := displace proba in
   let log_proba := map (map ln) proba in
   if (n_classes =? 0)%nat then Raise ZeroDivisionError
   else
     Ok (map (fun row =>
                map (fun lp => (Qnat n_classes - 1)
                               * (lp - (1 / Qnat n_classes) * qsum row))
                    row)
             log_proba))%boost.

Definition read_n_classes : M clf_t nat :=
  fun s =>
    match n_classes_ s with
    | Some k => (s, Ok k)
    | None => (s, Raise AttributeError)
    end.

Definition read_classes : M clf_t (list Z) :=
  fun s =>
    match classes_ s with
    | Some c => (s, Ok c)
    | None => (s, Raise AttributeError)
    end.

(** [if iboost == 0: self.classes_ = getattr(estimator, 'classes_', None);
    self.n_classes_ = len(self.classes_)]. *)
Definition set_classes_from (iboost : nat) (estimator : Estimator)
  : M clf_t unit :=
  if (iboost =? 0)%nat then
    fun s =>
      let s1 := set_classes (est_classes estimator) s in
      match est_classes estimator with
      | Some c => (set_n_classes (Some (List.length c)) s1, Ok tt)
      | None => (s1, Raise TypeError)
      end
  else ret tt.

Definition incorrect_of (y_predict y : list Z) : list bool :=
  map2 (fun p t => negb (Z.eqb p t)) y_predict y.

(** [self.estimators_.pop(-1)]. *)
Definition pop_last : M clf_t unit :=
  modify (fun s : clf_t => set_estimators (removelast (estimators_ s)) s).

(** Lines 474-488 of [_boost_discrete]: the member is made and trained,
    and its weighted error computed. *)
Definition discrete_member (iboost : nat) (X : list Sample) (y : list Z)
    (sample_weight : list Q) : M clf_t (list bool * Q) :=
  (estimator <- _make_estimator ;;
   estimator <- train estimator X y (Some sample_weight) ;;
   let y_predict := est_predict estimator X in
   set_classes_from iboost estimator ;;;
   let incorrect := incorrect_of y_predict y in
   estimator_error <- lift (average (map b2q incorrect) sample_weight) ;;
   ret (incorrect, estimator_error))%boost.

(** [_boost_discrete] (lines 472-513). *)
Definition _boost_discrete (iboost : nat) (X : list Sample) (y : list Z)
    (sample_weight : list Q) : M clf_t (option (list Q * Q * Q)) :=
  (member <- discrete_member iboost X y sample_weight ;;
   let incorrect := fst member in
   let estimator_error := snd member in
   if Qle_bool estimator_error 0 then ret (Some (sample_weight, 1, 0))
   else
     (n_classes <- read_n_classes ;;
      if (n_classes =? 0)%nat then raise ZeroDivisionError
      else if Qle_bool (1 - 1 / Qnat n_classes) estimator_error
      then (pop_last ;;; ret None)
      else
        (s <- get ;;
         let estimator_weight :=
           learning_rate s
           * (ln ((1 - estimator_error) / estimator_error)
              + ln (Qnat n_classes - 1)) in
         let sample_weight :=
           if negb (iboost =? n_estimators s - 1)%nat
           then map2 (fun w inc =>
                        w * exp (estimator_weight * b2q inc
                                 * b2q (Qltb 0 w
                                        || Qltb estimator_weight 0)))
                     sample_weight incorrect
           else sample_weight in
         ret (Some (sample_weight, estimator_weight, estimator_error)))))
  %boost.

(** [_boost_real] (lines 416-470). *)
Definition _boost_real (iboost : nat) (X : list Sample) (y : list Z)
    (sample_weight : list Q) : M clf_t (option (list Q * Q * Q)) :=
  (estimator <- _make_estimator ;;
   estimator <- train estimator X y (Some sample_weight) ;;
   y_predict_proba <- lift (est_predict_proba estimator X) ;;
   set_classes_from iboost estimator ;;;
   classes <- read_classes ;;
   y_predict <- lift (take classes (map argmax y_predict_proba)) ;;
   let incorrect := incorrect_of y_predict y in
   estimator_error <- lift (average (map b2q incorrect) sample_weight) ;;
   if Qle_bool estimator_error 0 then ret (Some (sample_weight, 1, 0))
   else
     (n_classes <- read_n_classes ;;
      classes <- read_classes ;;
      if (n_classes =? 1)%nat then raise ZeroDivisionError
      else
        let y_coding :=
          map (fun yj =>
                 map (fun c => if Z.eqb c yj then 1
                               else -1 / (Qnat n_classes - 1))
                     classes) y in
        let y_predict_proba := displace y_predict_proba in
        if (n_classes =? 0)%nat then raise ZeroDivisionError
        else
          (s <- get ;;
           let estimator_weight :=
             map2 (fun code p =>
                     -1 * learning_rate s
                     * (((Qnat n_classes - 1) / Qnat n_classes)
                        * dot code (map ln p)))
                  y_coding y_predict_proba in
           let sample_weight :=
             if negb (iboost =? n_estimators s - 1)%nat
             then map2 (fun w ew =>
                          w * exp (ew * b2q (Qltb 0 w || Qltb ew 0)))
                       sample_weight estimator_weight
             else sample_weight in
           ret (Some (sample_weight, 1, estimator_error)))))%boost.

(** [AdaBoostClassifier._boost] (lines 410-414). *)
Definition clf_boost (iboost : nat) (X : list Sample) (y : list Z)
    (sample_weight : list Q) : M clf_t (option (list Q * Q * Q)) :=
  fun s =>
    if String.eqb (algorithm s) "SAMME.R"
    then _boost_real iboost X y sample_weight s
    else _boost_discrete iboost X y sample_weight s.

(** [AdaBoostClassifier.fit] (lines 353-373). *)
Definition clf_fit (X : list Sample) (y : list Z)
    (sample_weight : option (list Q)) : M clf_t loop_exit :=
  (s <- get ;;
   if negb (is_classifier (base_estimator s)) then raise TypeError
   else if negb (String.eqb (algorithm s) "SAMME")
           && negb (String.eqb (algorithm s) "SAMME.R")
   then raise ValueError
   else if String.eqb (algorithm s) "SAMME.R"
           && negb (has_predict_proba (base_estimator s))
   then raise TypeError
   else base_fit clf_boost X y sample_weight)%boost.

(** [zip(self.estimator_weights_, self.estimators_)]. *)
Definition zip_members (s : clf_t) : result (list (Q * Estimator)) :=
  match estimator_weights_ s with
  | None => Raise TypeError
  | Some w => Ok (combine w (estimators_ s))
  end.

Definition attr_n_classes (s : clf_t) : result nat :=
  match n_classes_ s with
  | Some k => Ok k
  | None => Raise AttributeError
  end.

Definition attr_classes (s : clf_t) : result (list Z) :=
  match classes_ s with
  | Some c => Ok c
  | None => Raise AttributeError
  end.

(** Lines 600-611 and 652-663: one member's contribution added to the
    running [pred] and [norm]. *)
Definition accumulate (s : clf_t) (n_classes : nat) (classes : list Z)
    (X : list Sample) (pred : option matrix) (norm : Q)
    (weight : Q) (estimator : Estimator) : result (matrix * Q) :=
  (let norm := norm + weight in
   current_pred <~
     (if String.eqb (algorithm s) "SAMME.R"
      then _samme_proba estimator n_classes X
      else
        let current_pred := est_predict estimator X in
        Ok (map (fun p => map (fun c => b2q (Z.eqb p c) * weight) classes)
                current_pred)) ;;
   match pred with
   | None => Ok (current_pred, norm)
   | Some pred => Ok (mat_add pred current_pred, norm)
   end)%boost.

Fixpoint decision_loop (s : clf_t) (n_classes : nat) (classes : list Z)
    (X : list Sample) (members : list (Q * Estimator))
    (pred : option matrix) (norm : Q) : result (option matrix * Q) :=
  match members with
  | [] => Ok (pred, norm)
  | (weight, estimator) :: members' =>
      (pn <~ accumulate s n_classes classes X pred norm weight estimator ;;
       decision_loop s n_classes classes X members'
         (Some (fst pn)) (snd pn))%boost
  end.

(** [decision_function] (lines 587-617). *)
Definition decision_function (s : clf_t) (X : list Sample) : result score :=
  match estimators_ s with
  | [] => Raise RuntimeError
  | _ :: _ =>
      (n_classes <~ attr_n_classes s ;;
       classes <~ attr_classes s ;;
       members <~ zip_members s ;;
       pn <~ decision_loop s n_classes classes X members None 0 ;;
       match fst pn with
       | None => Raise TypeError
       | Some pred =>
           let pred := mat_div pred (snd pn) in
           if (n_classes =? 2)%nat
           then (pred <~ neg_col0 pred ;; Ok (Vec (map qsum pred)))
           else Ok (Mat pred)
       end)%boost
  end.

Fixpoint staged_decision_loop (s : clf_t) (n_classes : nat)
    (classes : list Z) (X : list Sample) (members : list (Q * Estimator))
    (pred : option matrix) (norm : Q) : gen score :=
  match members with
  | [] => ([], None)
  | (weight, estimator) :: members' =>
      match accumulate s n_classes classes X pred norm weight estimator with
      | Raise e => ([], Some e)
      | Ok (pred, norm) =>
          let rest :=
            staged_decision_loop s n_classes classes X members'
              (Some pred) norm in
          if (n_classes =? 2)%nat then
            match neg_col0 pred with
            | Raise e => ([], Some e)
            | Ok tmp_pred =>
                gyield (Vec (map qsum (mat_div tmp_pred norm))) rest
            end
          else gyield (Mat (mat_div pred norm)) rest
      end
  end.

(** [staged_decision_function] (lines 639-670). *)
Definition staged_decision_function (s : clf_t) (X : list Sample)
  : gen score :=
  match estimators_ s with
  | [] => ([], Some RuntimeError)
  | _ :: _ =>
      match (n_classes <~ attr_n_classes s ;;
             classes <~ attr_classes s ;;
             members <~ zip_members s ;;
             Ok (n_classes, classes, members))%boost with
      | Raise e => ([], Some e)
      | Ok (n_classes, classes, members) =>
          staged_decision_loop s n_classes classes X members None 0
      end
  end.

(** [classes.take(pred > 0, axis=0)] when [binary], else
    [classes.take(np.argmax(pred, axis=1), axis=0)].  [np.argmax] with
    [axis=1] refuses a vector; a matrix never reaches the binary branch,
    since [decision_function] returns a vector exactly when
    [n_classes_ == 2]. *)
Definition labels_of (binary : bool) (classes : list Z) (pred : score)
  : result (list Z) :=
  if binary then
    match pred with
    | Vec v => take classes (map (fun p => if Qltb 0 p then 1%nat else O) v)
    | Mat _ => Raise ValueError
    end
  else
    match pred with
    | Mat m => take classes (map argmax m)
    | Vec _ => Raise ValueError
    end.

(** [predict] (lines 531-536). *)
Definition clf_predict (s : clf_t) (X : list Sample) : result (list Z) :=
  (pred <~ decision_function s X ;;
   n_classes <~ attr_n_classes s ;;
   classes <~ attr_classes s ;;
   labels_of (n_classes =? 2)%nat classes pred)%boost.

(** [staged_predict] (lines 558-568). *)
Definition clf_staged_predict (s : clf_t) (X : list Sample)
  : gen (list Z) :=
  match (n_classes <~ attr_n_classes s ;;
         classes <~ attr_classes s ;;
         Ok (n_classes, classes))%boost with
  | Raise e => ([], Some e)
  | Ok (n_classes, classes) =>
      gfor (labels_of (n_classes =? 2)%nat classes)
           (staged_decision_function s X)
  end.

(** Lines 703-706 and 746-749: from accumulated scores to probabilities. *)
Definition to_proba (n_classes : nat) (proba : option matrix)
  : result matrix :=
  if (n_classes =? 1)%nat then Raise ZeroDivisionError
  else
    match proba with
    | None => Raise TypeError
    | Some proba =>
        let proba :=
          map (map (fun p => exp ((1 / (Qnat n_classes - 1)) * p))) proba in
        Ok (map (fun row =>
                   let normalizer := qsum row in
                   let normalizer :=
                     if Qeq_bool normalizer 0 then 1 else normalizer in
                   map (fun p => p / normalizer) row)
                proba)
    end.

Definition add_proba (proba : option matrix) (current_proba : matrix)
  : matrix :=
  match proba with
  | None => current_proba
  | Some proba => mat_add proba current_proba
  end.

Fixpoint proba_loop (n_classes : nat) (X : list Sample)
    (members : list (Q * Estimator)) (proba : option matrix)
  : result (option matrix) :=
  match members with
  | [] => Ok proba
  | (weight, estimator) :: members' =>
      (current_proba <~ _samme_proba estimator n_classes X ;;
       proba_loop n_classes X members'
         (Some (add_proba proba current_proba)))%boost
  end.

(** [predict_proba] (lines 690-708). *)
Definition predict_proba (s : clf_t) (X : list Sample) : result matrix :=
  (n_classes <~ attr_n_classes s ;;
   members <~ zip_members s ;;
   proba <~ proba_loop n_classes X members None ;;
   to_proba n_classes proba)%boost.

Fixpoint staged_proba_loop (n_classes : nat) (X : list Sample)
    (members : list (Q * Estimator)) (proba : option matrix)
  : gen matrix :=
  match members with
  | [] => ([], None)
  | (weight, estimator) :: members' =>
      match _samme_proba estimator n_classes X with
      | Raise e => ([], Some e)
      | Ok current_proba =>
          let proba := add_proba proba current_proba in
          match to_proba n_classes (Some proba) with
          | Raise e => ([], Some e)
          | Ok real_proba =>
              gyield real_proba
                (staged_proba_loop n_classes X members' (Some proba))
          end
      end
  end.

(** [staged_predict_proba] (lines 733-751). *)
Definition staged_predict_proba (s : clf_t) (X : list Sample)
  : gen matrix :=
  match (n_classes <~ attr_n_classes s ;;
         members <~ zip_members s ;;
         Ok (n_classes, members))%boost with
  | Raise e => ([], Some e)
  | Ok (n_classes, members) => staged_proba_loop n_classes X members None
  end.
End Classifier.

(** ** AdaBoostRegressor *)

Fixpoint cumsum_from (acc : Q) (l : list Q) : list Q :=
  match l with
  | [] => []
  | x :: t => (acc + x) :: cumsum_from (acc + x) t
  end.

(** [a.cumsum()]. *)
Definition cumsum (l : list Q) : list Q := cumsum_from 0 l.

(** [a[i]] for one index. *)
Definition item {A} (l : list A) (i : nat) : result A :=
  match nth_error l i with
  | Some a => Ok a
  | None => Raise IndexError
  end.

(** [a[-1]]. *)
Definition last_item {A} (l : list A) : result A :=
  match rev l with
  | a :: _ => Ok a
  | [] => Raise IndexError
  end.

(** [cdf.searchsorted(v, side='right')] on a nondecreasing [cdf]: the number
    of entries that are [<= v]. *)
Fixpoint searchsorted_right (cdf : list Q) (v : Q) : nat :=
  match cdf with
  | [] => O
  | c :: t => if Qle_bool c v then S (searchsorted_right t v) else O
  end.

(** [a.max()]: numpy refuses an empty array. *)
Definition qmax (l : list Q) : result Q :=
  match l with
  | [] => Raise ValueError
  | x :: t => Ok (fold_left (fun m v => if Qltb m v then v else m) t x)
  end.

(** Sorting (value, payload) pairs by value, keeping the order of equal
    values. *)
Fixpoint insert_by_value {A} (x : Q * A) (l : list (Q * A)) : list (Q * A) :=
  match l with
  | [] => [x]
  | h :: t =>
      if Qle_bool (fst x) (fst h) then x :: h :: t
      else h :: insert_by_value x t
  end.

Definition sort_by_value {A} (l : list (Q * A)) : list (Q * A) :=
  fold_right insert_by_value [] l.

(** A change of the payloads of such pairs. *)
Definition relabel {A B} (g : A -> B) (p : Q * A) : Q * B :=
  (fst p, g (snd p)).

(** [np.argsort(row)]: the positions of the row in nondecreasing order of
    their values.  numpy promises no order among equal values; here they
    keep their original order, as in numpy's insertion sort of short rows. *)
Definition argsort (row : list Q) : list nat :=
  map snd (sort_by_value (combine row (seq 0 (List.length row)))).

(** [b.argmax()] of a boolean row: the first [True], 0 when there is none. *)
Fixpoint first_true (l : list bool) : option nat :=
  match l with
  | [] => None
  | b :: t => if b then Some O else option_map S (first_true t)
  end.

Definition argmax_bool (l : list bool) : nat :=
  match first_true l with
  | Some i => i
  | None => O
  end.

Section Regressor.
Context {Sample Estimator : Type}.
Context {WL : WeakLearner Sample Q Estimator}.
Variables ln exp : Q -> Q.
Variable power : Q -> Q -> Q.
(** [check_random_state(self.random_state).random_sample(n)] at boost
    [iboost]: the uniform draws in [0, 1) are given from outside. *)
Variable random_sample : nat -> nat -> list Q.
Abbreviation reg_t := (adaboost Q Estimator).

(** Lines 943-952: the loss of each sample. *)
Definition loss_vect (loss : string) (y_predict y : list Q)
  : result (list Q) :=
  (let error_vect := map2 (fun p t => Qabs (p - t)) y_predict y in
   error_max <~ qmax error_vect ;;
   let error_vect :=
     if negb (Qeq_bool error_max 0)
     then map (fun e => e / error_max) error_vect
     else error_vect in
   Ok (if String.eqb loss "square" then map (fun e => e * e) error_vect
       else if String.eqb loss "exponential"
       then map (fun e => 1 - exp (- e)) error_vect
       else error_vect))%boost.

(** Lines 931-936: weighted sampling with replacement. *)
Definition bootstrap (iboost n : nat) (sample_weight : list Q)
  : result (list nat) :=
  (let cdf := cumsum sample_weight in
   total <~ last_item cdf ;;
   let cdf := map (fun c => c / total) cdf in
   let uniform_samples := random_sample iboost n in
   Ok (map (searchsorted_right cdf) uniform_samples))%boost.

(** Lines 961-965. *)
Definition discard_unless_only : M reg_t unit :=
  fun s =>
    if (1 <? List.length (estimators_ s))%nat
    then (set_estimators (removelast (estimators_ s)) s, Ok tt)
    else (s, Ok tt).

(** Lines 925-955 of [_boost]: the member is made and trained on the
    bootstrap sample, and its average loss computed. *)
Definition reg_member (iboost : nat) (X : list Sample) (y : list Q)
    (sample_weight : list Q) : M reg_t (list Q * Q) :=
  (estimator <- _make_estimator ;;
   bootstrap_idx <- lift (bootstrap iboost (List.length X) sample_weight) ;;
   Xb <- lift (take X bootstrap_idx) ;;
   yb <- lift (take y bootstrap_idx) ;;
   estimator <- train estimator Xb yb None ;;
   let y_predict := est_predict estimator X in
   s <- get ;;
   error_vect <- lift (loss_vect (loss s) y_predict y) ;;
   let estimator_error := qsum (map2 Qmult sample_weight error_vect) in
   ret (error_vect, estimator_error))%boost.

(** [AdaBoostRegressor._boost] (lines 925-977). *)
Definition reg_boost (iboost : nat) (X : list Sample) (y : list Q)
    (sample_weight : list Q) : M reg_t (option (list Q * Q * Q)) :=
  (member <- reg_member iboost X y sample_weight ;;
   let error_vect := fst member in
   let estimator_error := snd member in
   if Qle_bool estimator_error 0 then ret (Some (sample_weight, 1, 0))
   else if Qle_bool (1 # 2) estimator_error
   then (discard_unless_only ;;; ret None)
   else
     (s <- get ;;
      let beta := estimator_error / (1 - estimator_error) in
      let estimator_weight := learning_rate s * ln (1 / beta) in
      let sample_weight :=
        if negb (iboost =? n_estimators s - 1)%nat
        then map2 (fun w e => w * power beta ((1 - e) * learning_rate s))
                  sample_weight error_vect
        else sample_weight in
      ret (Some (sample_weight, estimator_weight, estimator_error))))%boost.

(** [AdaBoostRegressor.fit] (lines 878-888). *)
Definition reg_fit (X : list Sample) (y : list Q)
    (sample_weight : option (list Q)) : M reg_t loop_exit :=
  (s <- get ;;
   if negb (is_regressor (base_estimator s)) then raise TypeError
   else if negb (String.eqb (loss s) "linear"
                 || String.eqb (loss s) "square"
                 || String.eqb (loss s) "exponential")
   then raise ValueError
   else base_fit reg_boost X y sample_weight)%boost.

(** Lines 994-1003 for one sample: [row] holds the members' predictions
    for it. *)
Definition median_row (estimator_weights : list Q) (row : list Q)
  : result Q :=
  (let sorted_idx := argsort row in
   weights <~ take estimator_weights sorted_idx ;;
   let weight_cdf := cumsum weights in
   total <~ last_item weight_cdf ;;
   let median_or_above :=
     map (fun c => Qle_bool ((1 # 2) * total) c) weight_cdf in
   let median_idx := argmax_bool median_or_above in
   median_estimator <~ item sorted_idx median_idx ;;
   item row median_estimator)%boost.

(** [np.array([est.predict(X) for est in ...]).T]: one row per sample;
    every [est.predict(X)] has one entry per sample. *)
Definition predictions_of (members : list Estimator) (X : list Sample)
  : matrix :=
  let columns := map (fun est => est_predict est X) members in
  map (fun j => map (fun col => nth j col 0) columns)
      (seq 0 (List.length X)).

(** [_get_median_predict] (lines 979-1003). *)
Definition _get_median_predict (s : reg_t) (X : list Sample) (limit : Z)
  : result (list Q) :=
  match estimators_ s with
  | [] => Raise RuntimeError
  | _ :: _ =>
      let limit :=
        if (limit <? 1)%Z then List.length (estimators_ s)
        else Z.to_nat limit in
      let predictions := predictions_of (firstn limit (estimators_ s)) X in
      match estimator_weights_ s with
      | None => Raise TypeError
      | Some estimator_weights =>
          rmap (median_row estimator_weights) predictions
      end
  end.

(** [predict] (line 1021). *)
Definition reg_predict (s : reg_t) (X : list Sample) : result (list Q) :=
  _get_median_predict s X (-1).

(** [staged_predict] (lines 1043-1044). *)
Fixpoint reg_staged_loop (s : reg_t) (X : list Sample) (stages : list nat)
  : gen (list Q) :=
  match stages with
  | [] => ([], None)
  | i :: stages' =>
      match _get_median_predict s X (Z.of_nat i + 1) with
      | Ok p => gyield p (reg_staged_loop s X stages')
      | Raise e => ([], Some e)
      end
  end.

Definition reg_staged_predict (s : reg_t) (X : list Sample)
  : gen (list Q) :=
  reg_staged_loop s X (seq 0 (List.length (estimators_ s))).
End Regressor.

(** ** staged_score and predict_log_proba *)

Section Scores.
Context {Sample Estimator : Type}.
Variables ln exp : Q -> Q.

(** [staged_score] (lines 218-222) on a classifier: [accuracy_score]
    (sklearn/metrics, not under src/) is a parameter; it may raise. *)
Definition clf_staged_score {WL : WeakLearner Sample Z Estimator}
    (accuracy_score : list Z -> list Z -> result Q)
    (s : adaboost Z Estimator) (X : list Sample) (y : list Z) : gen Q :=
  gfor (fun y_pred => accuracy_score y y_pred) (clf_staged_predict ln s X).

(** [staged_score] on a regressor, with [r2_score] as a parameter. *)
Definition reg_staged_score {WL : WeakLearner Sample Q Estimator}
    (r2_score : list Q -> list Q -> result Q)
    (s : adaboost Q Estimator) (X : list Sample) (y : list Q) : gen Q :=
  gfor (fun y_pred => r2_score y y_pred) (reg_staged_predict s X).

(** [predict_log_proba] (line 771). *)
Definition predict_log_proba {WL : WeakLearner Sample Z Estimator}
    (s : adaboost Z Estimator) (X : list Sample) : result matrix :=
  (proba <~ predict_proba ln exp s X ;; Ok (map (map ln) proba))%boost.
End Scores.

(** ** The SAMME.R transform of the specification *)

(** The per-class log-probability transform of SAMME.R, in the words of
    the specification (4.3, 4.4) and of the reference the docstring of
    [_samme_proba] names (Zhu et al., algorithm 4, step 2, equation c), for
    the class probabilities of one sample: a probability that is not
    positive is set to the floor 1e-5, and class [k] gets
    [(K - 1) * (log p_k - (1 / K) * sum_j log p_j)]. *)
Definition log_probability_transform_spec (ln : Q -> Q) (K : nat)
    (proba_row : list Q) : list Q :=
  let floored :=
    map (fun p => if Qle_bool p 0 then 1 # 100000 else p) proba_row in
  let logs := map ln floored in
  map (fun log_p => (Qnat K - 1) * (log_p - (1 / Qnat K) * qsum logs)) logs.

(** The members' contributions added up entry by entry, each counted once
    and none multiplied by a weight; there is no sum without a member. *)
Definition sum_of_contributions (contributions : list matrix)
  : option matrix :=
  match contributions with
  | [] => None
  | first :: others => Some (fold_left mat_add others first)
  end.

(** ** The weighted median of the specification *)

(** The specification's weighted median, in its words (4.4 and glossary):
    sort the members' predictions, take the cumulative member-weight mass
    along that sorted order, and select the prediction at the smallest index
    where the cumulative mass reaches half the total weight mass.  There is
    none when no index reaches it. *)
Definition weighted_median_spec (predictions weights : list Q) : option Q :=
  let members := combine predictions weights in
  let total := qsum (map snd members) in
  let sorted := sort_by_value members in
  let mass := cumsum (map snd sorted) in
  match first_true (map (fun m => Qle_bool ((1 # 2) * total) m) mass) with
  | Some k => nth_error (map fst sorted) k
  | None => None
  end.

(** ** Small weak learners for concrete runs *)

(** A classifier that answers one fixed label and one fixed row of class
    probabilities whatever it is trained on; it can lack [predict_proba] or
    [feature_importances_], and its [fit] can raise. *)
Record stump : Type := mkStump {
  stump_label : Z;
  stump_classes : list Z;
  stump_proba : option (list Q);
  stump_importances : option (list Q);
  stump_fit_raises : bool
}.

#[global] Instance stump_learner : WeakLearner (list Q) Z stump := {
  clone := fun e => e;
  est_fit := fun e _ _ _ =>
    if stump_fit_raises e then Raise (LearnerError 0) else Ok e;
  est_predict := fun e X => map (fun _ => stump_label e) X;
  est_predict_proba := fun e X =>
    match stump_proba e with
    | Some row => Ok (map (fun _ => row) X)
    | None => Raise AttributeError
    end;
  est_classes := fun e => Some (stump_classes e);
  est_feature_importances := stump_importances;
  is_classifier := fun _ => true;
  is_regressor := fun _ => false;
  has_predict_proba := fun e =>
    match stump_proba e with Some _ => true | None => false end;
  set_compute_importances := fun e => e
}.

(** A regressor that answers one fixed value. *)
Record const_reg : Type := mkConstReg { const_value : Q }.

#[global] Instance const_learner : WeakLearner (list Q) Q const_reg := {
  clone := fun e => e;
  est_fit := fun e _ _ _ => Ok e;
  est_predict := fun e X => map (fun _ => const_value e) X;
  est_predict_proba := fun _ _ => Raise AttributeError;
  est_classes := fun _ => None;
  est_feature_importances := fun _ => None;
  is_classifier := fun _ => false;
  is_regressor := fun _ => true;
  has_predict_proba := fun _ => false;
  set_compute_importances := fun e => e
}.

(** A freshly constructed estimator (lines 56-65 and [BaseEnsemble]'s empty
    [estimators_]). *)
Definition new_adaboost {Target Estimator} (base : Estimator)
    (n : nat) (rate : Q) (importances : bool) (alg lss : string)
  : adaboost Target Estimator :=
  mkAdaBoost base n rate importances alg lss [] None None None None None.

(** Stand-ins for [np.log], [np.exp], [np.power] and the random draws in
    concrete runs; the theorems hold for every choice. *)
Definition toy_ln (x : Q) : Q := 1 - x.
Definition toy_exp (x : Q) : Q := 1 + x * x.
Definition toy_power (b e : Q) : Q := 1 + b * e * e.
Definition toy_draws (iboost n : nat) : list Q := repeat (1 # 3) n.

(** ** Concrete inputs *)

Definition two_class_stump (label : Z) : stump :=
  mkStump label [0%Z; 1%Z] (Some [1 # 2; 1 # 2]) None false.

Definition X3 : list (list Q) := [[0]; [1]; [2]].
Definition y3 : list Z := [0%Z; 0%Z; 1%Z].

Definition samme3 : adaboost Z stump :=
  new_adaboost (two_class_stump 0) 3 1 false "SAMME" "linear".



(** A run on data of one class only. *)
Definition one_class_stump : stump :=
  mkStump 0 [0%Z] (Some [1]) None false.

Definition samme_one_class : adaboost Z stump :=
  new_adaboost one_class_stump 3 1 false "SAMME" "linear".

Definition y_one_class : list Z := [0%Z; 0%Z; 0%Z].

(** A run in which the stump is wrong on every sample. *)
Definition y_all_wrong : list Z := [1%Z; 1%Z; 1%Z].

Definition thirds : list Q := repeat (1 / inject_Z 3) 3.

(** A regressor run of one iteration whose member is poor: the constant 0
    on targets 1 and 5. *)
Definition r2_one : adaboost Q const_reg :=
  new_adaboost (mkConstReg 0) 1 1 false "" "linear".

Definition X2 : list (list Q) := [[0]; [1]].
Definition y2 : list Q := [1; 5].
Definition halves : list Q := repeat (1 / inject_Z 2) 2.

(** A fitted SAMME ensemble of two members and a fitted regression ensemble
    of three. *)
Definition samme_fitted : adaboost Z stump :=
  mkAdaBoost (two_class_stump 0) 2 1 false "SAMME" "linear"
    [two_class_stump 0; two_class_stump 1] (Some [1; 2]) (Some [1 # 3; 1 # 4])
    None (Some [0%Z; 1%Z]) (Some 2%nat).

Definition r2_fitted : adaboost Q const_reg :=
  mkAdaBoost (mkConstReg 0) 3 1 false "" "linear"
    [mkConstReg 1; mkConstReg 2; mkConstReg 3]
    (Some [2 # 10; 3 # 10; 5 # 10]) (Some [1 # 3; 1 # 3; 1 # 3])
    None None None.

Definition X1 : list (list Q) := [[0]].

(** Sample weights whose sum is negative. *)
Definition negative_weights : list Q := [-1; -1; -1].

(** A fitted ensemble that is fitted again with feature importances asked
    of stumps that have none, and one whose base estimator cannot be
    trained. *)
Definition samme_refit_importances : adaboost Z stump :=
  mkAdaBoost (two_class_stump 0) 2 1 true "SAMME" "linear"
    [two_class_stump 0; two_class_stump 1] (Some [1; 2]) (Some [1 # 3; 1 # 4])
    None (Some [0%Z; 1%Z]) (Some 2%nat).

Definition broken_stump : stump :=
  mkStump 0 [0%Z; 1%Z] (Some [1 # 2; 1 # 2]) None true.

Definition samme_refit_broken : adaboost Z stump :=
  mkAdaBoost broken_stump 2 1 false "SAMME" "linear"
    [two_class_stump 0; two_class_stump 1] (Some [1; 2]) (Some [1 # 3; 1 # 4])
    None (Some [0%Z; 1%Z]) (Some 2%nat).

(** The object with the results of an earlier fit put in place. *)
Definition with_previous_fit {Target Estimator}
    (members : list Estimator) (weights errors : option (list Q))
    (s : adaboost Target Estimator) : adaboost Target Estimator :=
  set_estimators members
    (set_estimator_weights weights (set_estimator_errors errors s)).

(** Estimators on which [fit] was never called, and a classifier whose fit
    rejected its only member. *)
Definition fresh_regressor : adaboost Q const_reg :=
  new_adaboost (mkConstReg 0) 3 1 false "" "linear".

Definition fresh_classifier : adaboost Z stump :=
  new_adaboost (two_class_stump 0) 3 1 false "SAMME.R" "linear".

Definition samme_emptied : adaboost Z stump :=
  fst (clf_fit toy_ln toy_exp X3 y_all_wrong None samme3).

(** A SAMME ensemble whose member has no [predict_proba]. *)
Definition hard_stump : stump := mkStump 0 [0%Z; 1%Z] None None false.

Definition samme_hard : adaboost Z stump :=
  mkAdaBoost hard_stump 1 1 false "SAMME" "linear"
    [hard_stump] (Some [1]) (Some [1 # 3]) None (Some [0%Z; 1%Z])
    (Some 2%nat).

(** Targets the constant regressor 0 fits exactly, and a SAMME.R
    configuration over a stump without [predict_proba]. *)
Definition y2_zero : list Q := [0; 0].

Definition samme_r_hard : adaboost Z stump :=
  set_algorithm "SAMME.R" samme_hard.

(** A one-member regression ensemble whose member was never given a
    weight, and metrics for concrete staged scores. *)
Definition r2_sole : adaboost Q const_reg :=
  mkAdaBoost (mkConstReg 0) 1 1 false "" "linear" [mkConstReg 7]
    (Some [0]) (Some [1]) None None None.

Definition toy_accuracy (y y_pred : list Z) : result Q :=
  Ok (qsum (map2 (fun a b => b2q (Z.eqb a b)) y y_pred)).

Definition toy_r2 (y y_pred : list Q) : result Q :=
  Ok (qsum (map2 (fun a b => (a - b) * (a - b)) y y_pred)).

(** Sample weights and draws for a concrete bootstrap. *)
Definition quarters : list Q := [1 # 4; 1 # 2; 1 # 4].

Definition spread_draws (iboost n : nat) : list Q := [0; 1 # 2; 9 # 10].

(** A SAMME.R configuration over the stump. *)
Definition samme_r3 : adaboost Z stump :=
  new_adaboost (two_class_stump 0) 3 1 false "SAMME.R" "linear".

(** A fitted ensemble of stumps that expose feature importances. *)
Definition important_stump (label : Z) (importances : list Q) : stump :=
  mkStump label [0%Z; 1%Z] (Some [1 # 2; 1 # 2]) (Some importances) false.

Definition samme_important : adaboost Z stump :=
  mkAdaBoost (important_stump 0 [1; 0]) 3 1 true "SAMME" "linear"
    [important_stump 0 [1; 0]; important_stump 1 [1 # 4; 3 # 4]]
    (Some [1; 3; 0]) (Some [1 # 3; 1 # 4; 1]) None (Some [0%Z; 1%Z])
    (Some 2%nat).

(** * Properties *)

Unset Implicit Arguments.

(** ** Sums *)

Lemma qsum_div (l : list Q) (d : Q) :
  qsum (map (fun w => w / d) l) == qsum l / d.
Proof.
  induction l as [|x l IH]; simpl.
  - unfold Qdiv. ring.
  - rewrite IH. unfold Qdiv. ring.
Qed.

Lemma qsum_normalized (l : list Q) :
  ~ qsum l == 0 -> qsum (map (fun w => w / qsum l) l) == 1.
Proof.
  intro Hnz. rewrite qsum_div. field. exact Hnz.
Qed.

Lemma Qle_bool_false_lt (a b : Q) : Qle_bool a b = false -> b < a.
Proof.
  intro H. apply Qnot_le_lt. intro Hle.
  apply Qle_bool_iff in Hle. congruence.
Qed.

(** ** The boosting loop *)

Section LoopFacts.
Context {Sample Target Estimator : Type}.
Context {WL : WeakLearner Sample Target Estimator}.
Variable _boost : nat -> list Sample -> list Target -> list Q ->
                  M (adaboost Target Estimator) (option (list Q * Q * Q)).

Lemma store_weight_fields (i : nat) (v : Q) (s s' : adaboost Target Estimator)
    (r : result unit) :
  store_weight i v s = (s', r) ->
  n_estimators s' = n_estimators s /\ estimators_ s' = estimators_ s
  /\ estimator_errors_ s' = estimator_errors_ s.
Proof.
  unfold store_weight. intro H.
  destruct (estimator_weights_ s) as [w|]; [|inversion H; subst; auto].
  destruct (set_item w i v); inversion H; subst; auto.
Qed.

Lemma store_error_fields (i : nat) (v : Q) (s s' : adaboost Target Estimator)
    (r : result unit) :
  store_error i v s = (s', r) ->
  n_estimators s' = n_estimators s /\ estimators_ s' = estimators_ s
  /\ estimator_weights_ s' = estimator_weights_ s.
Proof.
  unfold store_error. intro H.
  destruct (estimator_errors_ s) as [w|]; [|inversion H; subst; auto].
  destruct (set_item w i v); inversion H; subst; auto.
Qed.

(** What a pass that goes on to the next iteration has done. *)
Lemma fit_iteration_next (iboost : nat) (X : list Sample) (y : list Target)
    (sw sw' : list Q) (s s' : adaboost Target Estimator) :
  fit_iteration _boost iboost X y sw s = (s', Ok (Next sw')) ->
  exists s1 sw1 ew ee,
    _boost iboost X y sw s = (s1, Ok (Some (sw1, ew, ee)))
    /\ n_estimators s' = n_estimators s1
    /\ estimators_ s' = estimators_ s1
    /\ 0 < qsum sw1
    /\ sw' = if (iboost <? n_estimators s' - 1)%nat
             then map (fun w => w / qsum sw1) sw1 else sw1.
Proof.
  unfold fit_iteration, bind. intro H.
  destruct (_boost iboost X y sw s) as [s1 [[[[sw1 ew] ee]|]|e]];
    try discriminate.
  destruct (store_weight iboost ew s1) as [s2 [[]|e]] eqn:Hw;
    try discriminate.
  destruct (store_error iboost ee s2) as [s3 [[]|e]] eqn:He;
    try discriminate.
  apply store_weight_fields in Hw. apply store_error_fields in He.
  destruct Hw as (Hn2 & He2 & _), He as (Hn3 & He3 & _).
  destruct (Qeq_bool ee 0); [discriminate|].
  destruct (Qle_bool (qsum sw1) 0) eqn:Hs; [discriminate|].
  apply Qle_bool_false_lt in Hs.
  unfold get, ret in H.
  exists s1, sw1, ew, ee.
  destruct (iboost <? n_estimators s3 - 1)%nat eqn:Hlt;
    inversion H; subst; rewrite Hlt;
    repeat split; try congruence; auto.
Qed.
End LoopFacts.



(** ** Members recorded by a boosting step *)

Section MemberFacts.
Context {Sample Target Estimator : Type}.
Context {WL : WeakLearner Sample Target Estimator}.

Lemma make_then_train (X : list Sample) (y : list Target)
    (w : option (list Q)) (s s1 s2 : adaboost Target Estimator)
    (e e' : Estimator) (r : result Estimator) :
  _make_estimator s = (s1, Ok e) ->
  train e X y w s1 = (s2, r) ->
  n_estimators s2 = n_estimators s
  /\ estimator_weights_ s2 = estimator_weights_ s
  /\ estimator_errors_ s2 = estimator_errors_ s
  /\ exists e2, estimators_ s2 = estimators_ s ++ [e2]
                /\ (r = Ok e' -> e2 = e').
Proof.
  unfold _make_estimator, train. intros Hm Ht.
  inversion Hm; subst; clear Hm.
  destruct (est_fit _ X y w) as [e2|ex]; inversion Ht; subst; simpl.
  - rewrite removelast_last. repeat split; eauto.
    exists e2. split; [reflexivity|]. intro H. now inversion H.
  - repeat split; eauto. eexists. split; [reflexivity|]. discriminate.
Qed.
End MemberFacts.

Section DiscreteFacts.
Context {Sample Estimator : Type}.
Context {WL : WeakLearner Sample Z Estimator}.
Variables ln exp : Q -> Q.

Lemma set_classes_from_fields (iboost : nat) (e : Estimator)
    (s s' : adaboost Z Estimator) (r : result unit) :
  set_classes_from iboost e s = (s', r) ->
  n_estimators s' = n_estimators s /\ estimators_ s' = estimators_ s
  /\ estimator_weights_ s' = estimator_weights_ s
  /\ estimator_errors_ s' = estimator_errors_ s.
Proof.
  unfold set_classes_from. intro H.
  destruct (iboost =? 0)%nat.
  - destruct (est_classes e); inversion H; subst; simpl; auto.
  - inversion H; subst; auto.
Qed.

(** Whatever [discrete_member] returns or raises, it has appended exactly
    one member and left the recorded weights and errors alone. *)
Lemma discrete_member_fields (iboost : nat) (X : list (Sample))
    (y : list Z) (sw : list Q) (s s1 : adaboost Z Estimator)
    (r : result (list bool * Q)) :
  discrete_member iboost X y sw s = (s1, r) ->
  n_estimators s1 = n_estimators s
  /\ estimator_weights_ s1 = estimator_weights_ s
  /\ estimator_errors_ s1 = estimator_errors_ s
  /\ exists e, estimators_ s1 = estimators_ s ++ [e].
Proof.
  unfold discrete_member, bind. intro H.
  destruct (_make_estimator s) as [sa [e|ex]] eqn:Hm;
    [|unfold _make_estimator in Hm; discriminate].
  destruct (train e X y (Some sw) sa) as [sb rb] eqn:Ht.
  destruct (make_then_train _ _ _ _ _ _ _ e _ Hm Ht)
    as (Hn & Hw & He & e2 & Hes & _).
  destruct rb as [e'|ex].
  - destruct (set_classes_from iboost e' sb) as [sc rc] eqn:Hc.
    apply set_classes_from_fields in Hc.
    destruct Hc as (Hn' & Hes' & Hw' & He').
    assert (Hgoal : n_estimators sc = n_estimators s
                    /\ estimator_weights_ sc = estimator_weights_ s
                    /\ estimator_errors_ sc = estimator_errors_ s
                    /\ exists e, estimators_ sc = estimators_ s ++ [e]).
    { repeat split; try congruence. exists e2. congruence. }
    destruct rc as [[]|ex].
    + unfold lift, ret in H.
      destruct (average _ sw); inversion H; subst; exact Hgoal.
    + inversion H; subst; exact Hgoal.
  - inversion H; subst. repeat split; try congruence. eauto.
Qed.
End DiscreteFacts.

(** ** Comparisons *)

Lemma Qle_bool_true (a b : Q) : a <= b -> Qle_bool a b = true.
Proof. intro H. now apply Qle_bool_iff. Qed.

Lemma Qle_bool_false (a b : Q) : b < a -> Qle_bool a b = false.
Proof.
  intro H. destruct (Qle_bool a b) eqn:E; [|reflexivity].
  apply Qle_bool_iff in E. exfalso. exact (Qlt_not_le _ _ H E).
Qed.

(** ** Regression: an average loss of one half or more *)

Section RegressionFacts.
Context {Sample Estimator : Type}.
Context {WL : WeakLearner Sample Q Estimator}.
Variables ln exp : Q -> Q.
Variable power : Q -> Q -> Q.
Variable random_sample : nat -> nat -> list Q.

(** Whatever [reg_member] returns or raises, it has appended exactly one
    member and left the recorded weights and errors alone. *)
Lemma reg_member_fields (iboost : nat) (X : list Sample) (y : list Q)
    (sw : list Q) (s s1 : adaboost Q Estimator) (r : result (list Q * Q)) :
  reg_member exp random_sample iboost X y sw s = (s1, r) ->
  n_estimators s1 = n_estimators s
  /\ estimator_weights_ s1 = estimator_weights_ s
  /\ estimator_errors_ s1 = estimator_errors_ s
  /\ exists e, estimators_ s1 = estimators_ s ++ [e].
Proof.
  unfold reg_member, bind, lift. intro H.
  destruct (_make_estimator s) as [sa [e|ex]] eqn:Hm;
    [|unfold _make_estimator in Hm; discriminate].
  assert (Hsa : n_estimators sa = n_estimators s
                /\ estimator_weights_ sa = estimator_weights_ s
                /\ estimator_errors_ sa = estimator_errors_ s
                /\ exists e, estimators_ sa = estimators_ s ++ [e]).
  { unfold _make_estimator in Hm. inversion Hm; subst; simpl.
    repeat split; eauto. }
  destruct (bootstrap random_sample iboost (List.length X) sw) as [idx|ex];
    [|inversion H; subst; exact Hsa].
  destruct (take X idx) as [Xb|ex]; [|inversion H; subst; exact Hsa].
  destruct (take y idx) as [yb|ex]; [|inversion H; subst; exact Hsa].
  destruct (train e Xb yb None sa) as [sb rb] eqn:Ht.
  destruct (make_then_train _ _ _ _ _ _ _ e _ Hm Ht)
    as (Hn & Hw & He & e2 & Hes & _).
  assert (Hsb : n_estimators sb = n_estimators s
                /\ estimator_weights_ sb = estimator_weights_ s
                /\ estimator_errors_ sb = estimator_errors_ s
                /\ exists e, estimators_ sb = estimators_ s ++ [e])
    by (repeat split; eauto).
  destruct rb as [e'|ex]; [|inversion H; subst; exact Hsb].
  unfold get, ret in H.
  destruct (loss_vect exp (loss sb) (est_predict e' X) y);
    inversion H; subst; exact Hsb.
Qed.

Lemma discard_unless_only_fields (s s' : adaboost Q Estimator)
    (r : result unit) :
  discard_unless_only s = (s', r) ->
  r = Ok tt
  /\ n_estimators s' = n_estimators s
  /\ estimator_weights_ s' = estimator_weights_ s
  /\ estimator_errors_ s' = estimator_errors_ s
  /\ estimators_ s' = (if (1 <? List.length (estimators_ s))%nat
                       then removelast (estimators_ s) else estimators_ s).
Proof.
  unfold discard_unless_only. intro H.
  destruct (1 <? List.length (estimators_ s))%nat;
    inversion H; subst; simpl; auto.
Qed.

(** A pass of the regression loop whose average loss is one half or more. *)
Lemma reg_poor_pass (remaining iboost : nat) (X : list Sample) (y : list Q)
    (sw : list Q) (s s1 : adaboost Q Estimator) (error_vect : list Q)
    (estimator_error : Q) :
  reg_member exp random_sample iboost X y sw s
    = (s1, Ok (error_vect, estimator_error)) ->
  1 # 2 <= estimator_error ->
  exists s' e,
    fit_loop (reg_boost ln exp power random_sample) (S remaining) iboost
      X y sw s = (s', Ok (Sentinel iboost))
    /\ estimators_ s1 = estimators_ s ++ [e]
    /\ estimators_ s' = match estimators_ s with
                        | [] => [e]
                        | _ :: _ => estimators_ s
                        end
    /\ estimator_weights_ s' = estimator_weights_ s
    /\ estimator_errors_ s' = estimator_errors_ s.
Proof.
  intros Hmember Hpoor.
  destruct (reg_member_fields _ _ _ _ _ _ _ Hmember)
    as (_ & Hw & He & e & Hes).
  destruct (discard_unless_only s1) as [s' r] eqn:Hd.
  destruct (discard_unless_only_fields _ _ _ Hd)
    as (-> & _ & Hw' & He' & Hes').
  exists s', e. split; [|split; [exact Hes|split; [|split; congruence]]].
  - simpl. unfold fit_iteration, bind, reg_boost, bind.
    rewrite Hmember. simpl.
    assert (Hpos : 0 < estimator_error)
      by (eapply Qlt_le_trans; [|exact Hpoor]; reflexivity).
    rewrite (Qle_bool_false _ _ Hpos), (Qle_bool_true _ _ Hpoor).
    rewrite Hd. reflexivity.
  - rewrite Hes', Hes. destruct (estimators_ s) as [|a l].
    + reflexivity.
    + assert (Hlen : (1 <? List.length ((a :: l) ++ [e]))%nat = true)
        by (apply Nat.ltb_lt; rewrite length_app; simpl; lia).
      rewrite Hlen. apply removelast_last.
Qed.
End RegressionFacts.

(** ** Members kept by a whole run *)

Section LoopMembers.
Context {Sample Target Estimator : Type}.
Context {WL : WeakLearner Sample Target Estimator}.
Variable _boost : nat -> list Sample -> list Target -> list Q ->
                  M (adaboost Target Estimator) (option (list Q * Q * Q)).

(** The loop body touches [estimators_] through [_boost] only. *)
Lemma fit_iteration_estimators (iboost : nat) (X : list Sample)
    (y : list Target) (sw : list Q) (s s' : adaboost Target Estimator)
    (r : result step) :
  fit_iteration _boost iboost X y sw s = (s', r) ->
  exists s1 rb,
    _boost iboost X y sw s = (s1, rb) /\ estimators_ s' = estimators_ s1.
Proof.
  unfold fit_iteration, bind. intro H.
  destruct (_boost iboost X y sw s) as [s1 rb] eqn:Hb.
  exists s1, rb. split; [reflexivity|].
  destruct rb as [[[[sw1 ew] ee]|]|e];
    [|inversion H; subst; reflexivity..].
  destruct (store_weight iboost ew s1) as [s2 r2] eqn:Hw.
  apply store_weight_fields in Hw. destruct Hw as (_ & Hw & _).
  destruct r2 as [[]|e]; [|inversion H; subst; exact Hw].
  destruct (store_error iboost ee s2) as [s3 r3] eqn:He.
  apply store_error_fields in He. destruct He as (_ & He & _).
  destruct r3 as [[]|e]; [|inversion H; subst; congruence].
  unfold get, ret in H.
  destruct (Qeq_bool ee 0); [inversion H; subst; congruence|].
  destruct (Qle_bool (qsum sw1) 0); [inversion H; subst; congruence|].
  destruct (iboost <? n_estimators s3 - 1)%nat;
    inversion H; subst; congruence.
Qed.

Hypothesis boost_keeps_a_member :
  forall iboost X y sw s s1 rb,
    _boost iboost X y sw s = (s1, rb) -> estimators_ s1 <> [].

Lemma fit_loop_keeps_a_member (remaining iboost : nat) (X : list Sample)
    (y : list Target) (sw : list Q) (s s' : adaboost Target Estimator)
    (r : result loop_exit) :
  fit_loop _boost (S remaining) iboost X y sw s = (s', r) ->
  estimators_ s' <> [].
Proof.
  revert iboost sw s.
  induction remaining as [|remaining IH]; intros iboost sw s H;
    cbn [fit_loop] in H; unfold bind in H;
    destruct (fit_iteration _boost iboost X y sw s) as [s2 r2] eqn:Hit;
    destruct (fit_iteration_estimators _ _ _ _ _ _ _ Hit)
      as (s1 & rb & Hb & Hes);
    apply boost_keeps_a_member in Hb; rewrite <- Hes in Hb.
  - destruct r2 as [[sw'|why]|e]; inversion H; subst; exact Hb.
  - destruct r2 as [[sw'|why]|e]; [|inversion H; subst; exact Hb..].
    apply (IH _ _ _ H).
Qed.
End LoopMembers.

Section BaseFitFacts.
Context {Sample Target Estimator : Type}.
Context {WL : WeakLearner Sample Target Estimator}.

Lemma sum_importances_fields (s s' : adaboost Target Estimator)
    (r : result unit) :
  sum_importances s = (s', r) ->
  estimators_ s' = estimators_ s
  /\ estimator_weights_ s' = estimator_weights_ s
  /\ estimator_errors_ s' = estimator_errors_ s.
Proof.
  unfold sum_importances. intro H.
  destruct (compute_importances s); [|inversion H; subst; auto].
  destruct (estimator_weights_ s) as [w|] eqn:Hw;
    [|inversion H; subst; auto].
  destruct (rmap _ _); inversion H; subst; simpl; auto.
Qed.

(** A run of [base_fit] that gets past the checks of its arguments ends
    with the members, weights and errors its loop, started from the cleared
    object, has left. *)
Lemma base_fit_fields
    (_boost : nat -> list Sample -> list Target -> list Q ->
              M (adaboost Target Estimator) (option (list Q * Q * Q)))
    (X : list Sample) (y : list Target) (sample_weight : option (list Q))
    (sw0 : list Q) (s sf : adaboost Target Estimator)
    (r : result loop_exit) :
  0 < learning_rate s ->
  initial_sample_weight X sample_weight = Ok sw0 ->
  base_fit _boost X y sample_weight s = (sf, r) ->
  exists sl rl,
    fit_loop _boost (n_estimators s) 0 X y sw0
      (clear_fit (enable_importances s)) = (sl, rl)
    /\ estimators_ sf = estimators_ sl
    /\ estimator_weights_ sf = estimator_weights_ sl
    /\ estimator_errors_ sf = estimator_errors_ sl
    /\ (forall why, r = Ok why -> rl = Ok why).
Proof.
  intros Hrate Hsw. unfold base_fit, bind, get.
  rewrite (Qle_bool_false _ _ Hrate).
  unfold modify, lift. rewrite Hsw.
  destruct (fit_loop _boost (n_estimators s) 0 X y sw0
              (clear_fit (enable_importances s))) as [sl [why|e]] eqn:Hloop;
    intro H.
  - exists sl, (Ok why). split; [reflexivity|].
    destruct (sum_importances sl) as [s2 r2] eqn:Hsum.
    apply sum_importances_fields in Hsum.
    destruct Hsum as (He & Hw & Hr).
    destruct r2 as [[]|e]; unfold ret in H; inversion H; subst;
      repeat split; auto; discriminate.
  - exists sl, (Raise e). inversion H; subst.
    repeat split; auto; discriminate.
Qed.
End BaseFitFacts.

Section RegressionRuns.
Context {Sample Estimator : Type}.
Context {WL : WeakLearner Sample Q Estimator}.
Variables ln exp : Q -> Q.
Variable power : Q -> Q -> Q.
Variable random_sample : nat -> nat -> list Q.

Lemma reg_boost_keeps_a_member (iboost : nat) (X : list Sample)
    (y : list Q) (sw : list Q) (s s1 : adaboost Q Estimator)
    (rb : result (option (list Q * Q * Q))) :
  reg_boost ln exp power random_sample iboost X y sw s = (s1, rb) ->
  estimators_ s1 <> [].
Proof.
  unfold reg_boost, bind. intro H.
  destruct (reg_member exp random_sample iboost X y sw s)
    as [sa ra] eqn:Hmember.
  destruct (reg_member_fields _ _ _ _ _ _ _ _ _ Hmember)
    as (_ & _ & _ & e & Hes).
  assert (Hsa : estimators_ sa <> [])
    by (rewrite Hes; intro Hnil; apply app_eq_nil in Hnil;
        destruct Hnil; discriminate).
  destruct ra as [[ev err]|ex]; [|inversion H; subst; exact Hsa].
  simpl in H.
  destruct (Qle_bool err 0); [inversion H; subst; exact Hsa|].
  destruct (Qle_bool (1 # 2) err).
  - destruct (discard_unless_only sa) as [sb r] eqn:Hd.
    destruct (discard_unless_only_fields _ _ _ Hd)
      as (-> & _ & _ & _ & Hes').
    unfold ret in H. inversion H; subst. rewrite Hes'.
    destruct (1 <? List.length (estimators_ sa))%nat eqn:Hlen;
      [|exact Hsa].
    apply Nat.ltb_lt in Hlen. rewrite Hes in *.
    destruct (estimators_ s) as [|a l]; [simpl in Hlen; lia|].
    rewrite removelast_last. discriminate.
  - unfold get, ret in H. inversion H; subst; exact Hsa.
Qed.

Lemma enable_importances_n (s : adaboost Q Estimator) :
  n_estimators (enable_importances s) = n_estimators s.
Proof. unfold enable_importances. now destruct (compute_importances s). Qed.

(** A regression fit that returns has kept at least one member. *)
Lemma reg_fit_retains_member (X : list Sample) (y : list Q)
    (sample_weight : option (list Q)) (s sf : adaboost Q Estimator)
    (why : loop_exit) :
  (0 < n_estimators s)%nat ->
  reg_fit ln exp power random_sample X y sample_weight s = (sf, Ok why) ->
  estimators_ sf <> [].
Proof.
  intros Hn. unfold reg_fit, bind, get.
  destruct (negb (is_regressor (base_estimator s))); [discriminate|].
  destruct (negb _); [discriminate|].
  intro H.
  assert (Hrate : 0 < learning_rate s).
  { unfold base_fit, bind, get in H.
    destruct (Qle_bool (learning_rate s) 0) eqn:E; [discriminate|].
    now apply Qle_bool_false_lt. }
  assert (Hsw : exists sw0, initial_sample_weight X sample_weight = Ok sw0).
  { unfold base_fit, bind, get in H.
    rewrite (Qle_bool_false _ _ Hrate) in H. unfold modify, lift in H.
    destruct (initial_sample_weight X sample_weight); [eauto|discriminate]. }
  destruct Hsw as [sw0 Hsw].
  destruct (base_fit_fields _ _ _ _ _ _ _ _ Hrate Hsw H)
    as (sl & rl & Hloop & Hes & _).
  rewrite Hes.
  destruct (n_estimators s) as [|n'] eqn:En; [lia|].
  eapply fit_loop_keeps_a_member; [|exact Hloop].
  intros. eapply reg_boost_keeps_a_member; eassumption.
Qed.
End RegressionRuns.

(** C4.  In a regression run, a pass whose average loss is one half or more
    ends the loop at once; the member it has just fitted is removed, except
    when it is the only member, which is kept.  So the ensemble is not empty
    after the pass, and every regression fit that returns has at least one
    member. *)
Theorem regression_poor_member_discarded_unless_sole
    {Sample Estimator : Type} {WL : WeakLearner Sample Q Estimator}
    (ln exp : Q -> Q) (power : Q -> Q -> Q)
    (random_sample : nat -> nat -> list Q) (remaining iboost : nat)
    (X : list Sample) (y : list Q) (sample_weight : list Q)
    (self self1 : adaboost Q Estimator)
    (error_vect : list Q) (estimator_error : Q) :
  reg_member exp random_sample iboost X y sample_weight self
    = (self1, Ok (error_vect, estimator_error)) ->
  1 # 2 <= estimator_error ->
  (exists self' e,
     fit_loop (reg_boost ln exp power random_sample) (S remaining) iboost
       X y sample_weight self = (self', Ok (Sentinel iboost))
     /\ estimators_ self1 = estimators_ self ++ [e]
     /\ estimators_ self' = match estimators_ self with
                            | [] => [e]
                            | _ :: _ => estimators_ self
                            end
     /\ estimators_ self' <> [])
  /\ (forall sample_weight0 self0 selff why,
        (0 < n_estimators self0)%nat ->
        reg_fit ln exp power random_sample X y sample_weight0 self0
          = (selff, Ok why) ->
        estimators_ selff <> []).
Proof.
  intros Hmember Hpoor. split.
  - destruct (reg_poor_pass ln exp power random_sample remaining _ _ _ _ _ _
                _ _ Hmember Hpoor)
      as (s' & e & Hloop & Hes1 & Hes' & _).
    exists s', e. repeat split; try assumption.
    rewrite Hes'. destruct (estimators_ self); discriminate.
  - intros sw0 s0 sf why Hn Hfit.
    eapply reg_fit_retains_member; eassumption.
Qed.

Lemma regression_poor_member_discarded_unless_sole_witness :
  (exists self' e,
     fit_loop (reg_boost toy_ln toy_exp toy_power toy_draws) 1 0
       X2 y2 halves (clear_fit r2_one) = (self', Ok (Sentinel 0))
     /\ estimators_
          (fst (reg_member toy_exp toy_draws 0 X2 y2 halves
                  (clear_fit r2_one)))
        = estimators_ (clear_fit r2_one) ++ [e]
     /\ estimators_ self' = match estimators_ (clear_fit r2_one) with
                            | [] => [e]
                            | _ :: _ => estimators_ (clear_fit r2_one)
                            end
     /\ estimators_ self' <> [])
  /\ (forall sample_weight0 self0 selff why,
        (0 < n_estimators self0)%nat ->
        reg_fit toy_ln toy_exp toy_power toy_draws X2 y2 sample_weight0 self0
          = (selff, Ok why) ->
        estimators_ selff <> []).
Proof.
  apply (@regression_poor_member_discarded_unless_sole _ _ _
           toy_ln toy_exp toy_power toy_draws 0 0 X2 y2 halves
           (clear_fit r2_one)
           (fst (reg_member toy_exp toy_draws 0 X2 y2 halves
                   (clear_fit r2_one)))
           [1 # 5; 5 # 5] (60 # 100)).
  - vm_compute. reflexivity.
  - apply Qle_bool_iff. vm_compute. reflexivity.
Defined.

Lemma qsum_repeat_zero (n : nat) : qsum (repeat 0 n) == 0.
Proof.
  induction n as [|n IH]; simpl; [reflexivity|].
  rewrite IH. reflexivity.
Qed.

(** C10.  When the first pass of a regression fit has an average loss of
    one half or more, the fit ends with that one member, and nothing was
    recorded for it: every estimator weight is still 0 and every estimator
    error still 1, so the estimator weights sum to 0. *)
Theorem sole_member_exception_records_nothing
    {Sample Estimator : Type} {WL : WeakLearner Sample Q Estimator}
    (ln exp : Q -> Q) (power : Q -> Q -> Q)
    (random_sample : nat -> nat -> list Q)
    (X : list Sample) (y : list Q) (sample_weight : option (list Q))
    (sample_weight0 : list Q) (self self1 : adaboost Q Estimator)
    (error_vect : list Q) (estimator_error : Q) :
  is_regressor (base_estimator self) = true ->
  (String.eqb (loss self) "linear" || String.eqb (loss self) "square"
   || String.eqb (loss self) "exponential") = true ->
  0 < learning_rate self ->
  (0 < n_estimators self)%nat ->
  initial_sample_weight X sample_weight = Ok sample_weight0 ->
  reg_member exp random_sample 0 X y sample_weight0
    (clear_fit (enable_importances self))
    = (self1, Ok (error_vect, estimator_error)) ->
  1 # 2 <= estimator_error ->
  exists selff r e,
    reg_fit ln exp power random_sample X y sample_weight self = (selff, r)
    /\ estimators_ selff = [e]
    /\ estimator_weights_ selff = Some (repeat 0 (n_estimators self))
    /\ estimator_errors_ selff = Some (repeat 1 (n_estimators self))
    /\ qsum (repeat 0 (n_estimators self)) == 0.
Proof.
  intros Hreg Hloss Hrate Hn Hsw Hmember Hpoor.
  destruct (reg_fit ln exp power random_sample X y sample_weight self)
    as [sf r] eqn:Hfit.
  unfold reg_fit, bind, get in Hfit. rewrite Hreg, Hloss in Hfit.
  simpl in Hfit.
  destruct (base_fit_fields _ _ _ _ _ _ _ _ Hrate Hsw Hfit)
    as (sl & rl & Hloop & Hes & Hw & He & _).
  destruct (n_estimators self) as [|n'] eqn:En; [lia|].
  destruct (reg_poor_pass ln exp power random_sample n' _ _ _ _ _ _ _ _
              Hmember Hpoor)
    as (s' & e & Hloop' & _ & Hes' & Hw' & He').
  rewrite Hloop in Hloop'. inversion Hloop'; subst s' rl.
  exists sf, r, e. split; [reflexivity|].
  rewrite Hes, Hw, He, Hes', Hw', He'. simpl.
  rewrite enable_importances_n, En.
  repeat split. apply (qsum_repeat_zero (S n')).
Qed.

Lemma sole_member_exception_records_nothing_witness :
  exists selff r e,
    reg_fit toy_ln toy_exp toy_power toy_draws X2 y2 None r2_one = (selff, r)
    /\ estimators_ selff = [e]
    /\ estimator_weights_ selff = Some (repeat 0 (n_estimators r2_one))
    /\ estimator_errors_ selff = Some (repeat 1 (n_estimators r2_one))
    /\ qsum (repeat 0 (n_estimators r2_one)) == 0.
Proof.
  apply (@sole_member_exception_records_nothing _ _ _
           toy_ln toy_exp toy_power toy_draws X2 y2 None halves r2_one
           (fst (reg_member toy_exp toy_draws 0 X2 y2 halves
                   (clear_fit (enable_importances r2_one))))
           [1 # 5; 5 # 5] (60 # 100)).
  - reflexivity.
  - reflexivity.
  - reflexivity.
  - vm_compute. lia.
  - vm_compute. reflexivity.
  - vm_compute. reflexivity.
  - apply Qle_bool_iff. vm_compute. reflexivity.
Defined.

(** ** Staged predictions *)

Lemma final_cons {A} (a : A) (l : list A) (p : A) :
  final l = Some p -> final (a :: l) = Some p.
Proof. destruct l; [discriminate|auto]. Qed.

Lemma gfor_list_nil {A B} (f : A -> result B) (l : list A) (e : option exn) :
  gfor_list f l e = ([], None) -> l = [] /\ e = None.
Proof.
  destruct l as [|a l]; simpl.
  - intro H. inversion H. auto.
  - destruct (f a); unfold gyield; simpl; discriminate.
Qed.

(** The last value of [for v in g: yield f v] is [f] of the last value
    of [g]. *)
Lemma gfor_list_final {A B} (f : A -> result B) (l : list A)
    (e : option exn) (ys : list B) (p : B) :
  gfor_list f l e = (ys, None) -> final ys = Some p ->
  exists a, final l = Some a /\ f a = Ok p /\ e = None.
Proof.
  revert ys. induction l as [|a l IH]; intros ys H Hfin; simpl in H.
  - inversion H; subst. discriminate.
  - destruct (f a) as [b|ex] eqn:Hf; [|inversion H; subst; discriminate].
    destruct (gfor_list f l e) as [zs re] eqn:Hrest.
    unfold gyield in H. simpl in H. inversion H; subst.
    destruct zs as [|z zs].
    + apply gfor_list_nil in Hrest. destruct Hrest as [-> ->].
      simpl in Hfin. inversion Hfin; subst. exists a. auto.
    + destruct (IH _ eq_refl Hfin) as (a' & Hl & Hfa & He).
      exists a'. split; [now apply final_cons|auto].
Qed.

Lemma Qmult_div_opp (x n : Q) : x * -1 / n = x / n * -1.
Proof.
  unfold Qdiv. destruct x as [xn xd], (/ n) as [yn yd].
  unfold Qmult. simpl. f_equal; [ring|lia].
Qed.

Lemma neg_col0_div (pred tmp : matrix) (norm : Q) :
  neg_col0 pred = Ok tmp ->
  neg_col0 (mat_div pred norm) = Ok (mat_div tmp norm).
Proof.
  unfold neg_col0. revert tmp.
  induction pred as [|row pred IH]; intros tmp H; simpl in *.
  - inversion H. reflexivity.
  - destruct row as [|x t]; [discriminate|]. simpl in *.
    destruct (rmap _ pred) as [rest|e]; [|discriminate].
    simpl in H. inversion H; subst.
    rewrite (IH _ eq_refl). simpl. rewrite Qmult_div_opp. reflexivity.
Qed.

Section ClassifierStages.
Context {Sample Estimator : Type}.
Context {WL : WeakLearner Sample Z Estimator}.
Variable ln : Q -> Q.

Lemma staged_decision_loop_nil (s : adaboost Z Estimator) (K : nat)
    (classes : list Z) (X : list Sample) (members : list (Q * Estimator))
    (pred : option matrix) (norm : Q) :
  staged_decision_loop ln s K classes X members pred norm = ([], None) ->
  members = [].
Proof.
  destruct members as [|[w e] members]; [reflexivity|]. simpl.
  destruct (accumulate ln s K classes X pred norm w e) as [[p n]|ex];
    [|discriminate].
  destruct (K =? 2)%nat; [destruct (neg_col0 p)|];
    unfold gyield; simpl; discriminate.
Qed.

(** The score the staged loop yields last is the one [decision_function]
    builds from the whole loop. *)
Lemma staged_decision_loop_final (s : adaboost Z Estimator) (K : nat)
    (classes : list Z) (X : list Sample) (members : list (Q * Estimator))
    (pred : option matrix) (norm : Q) (ss : list score) (sc : score) :
  staged_decision_loop ln s K classes X members pred norm = (ss, None) ->
  final ss = Some sc ->
  exists pred' norm',
    decision_loop ln s K classes X members pred norm
      = Ok (Some pred', norm')
    /\ (if (K =? 2)%nat
        then rbind (neg_col0 (mat_div pred' norm'))
               (fun t => Ok (Vec (map qsum t)))
        else Ok (Mat (mat_div pred' norm'))) = Ok sc.
Proof.
  revert pred norm ss.
  induction members as [|[w e] members IH]; intros pred norm ss H Hfin;
    simpl in H.
  - inversion H; subst. discriminate.
  - simpl. destruct (accumulate ln s K classes X pred norm w e)
      as [[p n]|ex]; [|inversion H; subst; discriminate].
    simpl.
    destruct (staged_decision_loop ln s K classes X members (Some p) n)
      as [rs re] eqn:Hrest.
    assert (Hstep : exists out,
               ss = out :: rs /\ re = None
               /\ (if (K =? 2)%nat
                   then rbind (neg_col0 (mat_div p n))
                          (fun t => Ok (Vec (map qsum t)))
                   else Ok (Mat (mat_div p n))) = Ok out).
    { destruct (K =? 2)%nat.
      - destruct (neg_col0 p) as [tmp|ex] eqn:Hneg;
          [|inversion H; subst; discriminate].
        unfold gyield in H. simpl in H. inversion H; subst.
        eexists. split; [reflexivity|]. split; [reflexivity|].
        rewrite (neg_col0_div _ _ _ Hneg). reflexivity.
      - unfold gyield in H. simpl in H. inversion H; subst.
        eexists. split; [reflexivity|]. split; reflexivity. }
    destruct Hstep as (out & -> & -> & Hout).
    destruct rs as [|r rs].
    + apply staged_decision_loop_nil in Hrest. subst members. simpl.
      simpl in Hfin. inversion Hfin; subst.
      exists p, n. split; [reflexivity|exact Hout].
    + apply (IH _ _ _ Hrest Hfin).
Qed.

(** The classifier's [staged_predict] ends with what [predict] returns. *)
Lemma clf_staged_predict_final (s : adaboost Z Estimator) (X : list Sample)
    (ys : list (list Z)) (p : list Z) :
  clf_staged_predict ln s X = (ys, None) ->
  final ys = Some p ->
  clf_predict ln s X = Ok p.
Proof.
  unfold clf_staged_predict, clf_predict, gfor. intros H Hfin.
  destruct (attr_n_classes s) as [K|ex] eqn:HK;
    [|simpl in H; inversion H; subst; discriminate].
  destruct (attr_classes s) as [classes|ex] eqn:Hc;
    [|simpl in H; inversion H; subst; discriminate].
  simpl in H.
  destruct (gfor_list_final _ _ _ _ _ H Hfin) as (sc & Hsc & Hlab & Hend).
  unfold staged_decision_function, decision_function in *.
  destruct (estimators_ s) as [|e0 es]; [discriminate|].
  rewrite HK, Hc in *. simpl in *.
  destruct (zip_members s) as [members|ex]; [|discriminate].
  simpl in *.
  destruct (staged_decision_loop ln s K classes X members None 0)
    as [ss re] eqn:Hloop.
  simpl in Hsc, Hend. subst re.
  destruct (staged_decision_loop_final _ _ _ _ _ _ _ _ _ Hloop Hsc)
    as (pred' & norm' & Hdl & Hout).
  rewrite Hdl. simpl.
  destruct (K =? 2)%nat.
  - destruct (neg_col0 (mat_div pred' norm')) as [t|ex]; [|discriminate].
    simpl in *. inversion Hout; subst. exact Hlab.
  - inversion Hout; subst. simpl. exact Hlab.
Qed.
End ClassifierStages.

Section RegressorStages.
Context {Sample Estimator : Type}.
Context {WL : WeakLearner Sample Q Estimator}.

Lemma reg_staged_loop_nil (s : adaboost Q Estimator) (X : list Sample)
    (stages : list nat) :
  reg_staged_loop s X stages = ([], None) -> stages = [].
Proof.
  destruct stages as [|i stages]; [reflexivity|]. simpl.
  destruct (_get_median_predict s X (Z.of_nat i + 1));
    unfold gyield; simpl; discriminate.
Qed.

Lemma reg_staged_loop_final (s : adaboost Q Estimator) (X : list Sample)
    (stages : list nat) (ys : list (list Q)) (p : list Q) :
  reg_staged_loop s X stages = (ys, None) ->
  final ys = Some p ->
  exists i, final stages = Some i
            /\ _get_median_predict s X (Z.of_nat i + 1) = Ok p.
Proof.
  revert ys. induction stages as [|i stages IH]; intros ys H Hfin;
    simpl in H.
  - inversion H; subst. discriminate.
  - destruct (_get_median_predict s X (Z.of_nat i + 1)) as [q|ex] eqn:Hq;
      [|inversion H; subst; discriminate].
    destruct (reg_staged_loop s X stages) as [zs re] eqn:Hrest.
    unfold gyield in H. simpl in H. inversion H; subst.
    destruct zs as [|z zs].
    + apply reg_staged_loop_nil in Hrest. subst stages.
      simpl in Hfin. inversion Hfin; subst. exists i. auto.
    + destruct (IH _ eq_refl Hfin) as (i' & Hi' & Hp).
      exists i'. split; [now apply final_cons|exact Hp].
Qed.

Lemma final_seq (n : nat) (i : nat) (start : nat) :
  final (seq start n) = Some i -> (i + 1 = start + n)%nat.
Proof.
  revert start. induction n as [|n IH]; intros start H; simpl in H.
  - discriminate.
  - destruct n as [|n'].
    + simpl in H. inversion H. lia.
    + apply IH in H. lia.
Qed.

(** The stage of the full ensemble asks for the same limit as [predict]. *)
Lemma median_predict_full_limit (s : adaboost Q Estimator) (X : list Sample)
    (i : nat) :
  (i + 1 = List.length (estimators_ s))%nat ->
  _get_median_predict s X (Z.of_nat i + 1) = _get_median_predict s X (-1).
Proof.
  intro Hi. unfold _get_median_predict.
  destruct (estimators_ s) as [|e es] eqn:Hes; [reflexivity|].
  replace (Z.of_nat i + 1 <? 1)%Z with false
    by (symmetry; apply Z.ltb_ge; lia).
  replace (-1 <? 1)%Z with true by reflexivity.
  replace (Z.to_nat (Z.of_nat i + 1)) with (List.length (e :: es)) by lia.
  reflexivity.
Qed.

(** The regressor's [staged_predict] ends with what [predict] returns. *)
Lemma reg_staged_predict_final (s : adaboost Q Estimator) (X : list Sample)
    (ys : list (list Q)) (p : list Q) :
  reg_staged_predict s X = (ys, None) ->
  final ys = Some p ->
  reg_predict s X = Ok p.
Proof.
  unfold reg_staged_predict, reg_predict. intros H Hfin.
  destruct (reg_staged_loop_final _ _ _ _ _ H Hfin) as (i & Hi & Hp).
  apply final_seq in Hi. simpl in Hi.
  rewrite <- (median_predict_full_limit s X i Hi). exact Hp.
Qed.
End RegressorStages.

(** C5.  For the classifier, under SAMME and under SAMME.R (whatever
    [algorithm] holds), and for the regressor: when the staged prediction
    sequence runs to its end, its last element, the one of the full ensemble,
    is exactly what [predict] returns on the same input. *)
Theorem staged_predict_ends_with_predict :
  (forall (Sample Estimator : Type) (WL : WeakLearner Sample Z Estimator)
          (ln : Q -> Q) (self : adaboost Z Estimator) (X : list Sample)
          (stages : list (list Z)) (y : list Z),
      clf_staged_predict ln self X = (stages, None) ->
      final stages = Some y ->
      clf_predict ln self X = Ok y)
  /\ (forall (Sample Estimator : Type) (WL : WeakLearner Sample Q Estimator)
             (self : adaboost Q Estimator) (X : list Sample)
             (stages : list (list Q)) (y : list Q),
         reg_staged_predict self X = (stages, None) ->
         final stages = Some y ->
         reg_predict self X = Ok y).
Proof.
  split.
  - intros. eapply clf_staged_predict_final; eassumption.
  - intros. eapply reg_staged_predict_final; eassumption.
Qed.

Lemma staged_predict_ends_with_predict_witness :
  clf_predict toy_ln samme_fitted X3 = Ok [1%Z; 1%Z; 1%Z]
  /\ clf_predict toy_ln (set_algorithm "SAMME.R" samme_fitted) X3
     = Ok [0%Z; 0%Z; 0%Z]
  /\ reg_predict r2_fitted X1 = Ok [2].
Proof.
  split; [|split].
  - apply (proj1 staged_predict_ends_with_predict _ _ _ toy_ln samme_fitted
             X3 [[0%Z; 0%Z; 0%Z]; [1%Z; 1%Z; 1%Z]]).
    + vm_compute. reflexivity.
    + reflexivity.
  - apply (proj1 staged_predict_ends_with_predict _ _ _ toy_ln
             (set_algorithm "SAMME.R" samme_fitted)
             X3 [[0%Z; 0%Z; 0%Z]; [0%Z; 0%Z; 0%Z]]).
    + vm_compute. reflexivity.
    + reflexivity.
  - apply (proj2 staged_predict_ends_with_predict _ _ _ r2_fitted X1
             [[1]; [2]; [2]]).
    + vm_compute. reflexivity.
    + reflexivity.
Defined.

(** ** The weighted median *)

Section SortFacts.
Context {A B : Type}.
Variable g : A -> B.

Lemma insert_by_value_relabel (x : Q * A) (l : list (Q * A)) :
  map (relabel g) (insert_by_value x l)
  = insert_by_value (relabel g x) (map (relabel g) l).
Proof.
  induction l as [|h t IH]; simpl; [reflexivity|].
  destruct (Qle_bool (fst x) (fst h)); simpl; [reflexivity|].
  now rewrite IH.
Qed.

(** Sorting looks at the values only: it commutes with a change of the
    payloads. *)
Lemma sort_by_value_relabel (l : list (Q * A)) :
  map (relabel g) (sort_by_value l) = sort_by_value (map (relabel g) l).
Proof.
  induction l as [|x l IH]; simpl; [reflexivity|].
  now rewrite insert_by_value_relabel, IH.
Qed.

Lemma insert_by_value_in (x y : Q * A) (l : list (Q * A)) :
  In y (insert_by_value x l) -> y = x \/ In y l.
Proof.
  induction l as [|h t IH]; simpl.
  - intros [H|[]]; auto.
  - destruct (Qle_bool (fst x) (fst h)); simpl.
    + intros [H|[H|H]]; auto.
    + intros [H|H]; auto. destruct (IH H); auto.
Qed.

Lemma sort_by_value_in (y : Q * A) (l : list (Q * A)) :
  In y (sort_by_value l) -> In y l.
Proof.
  induction l as [|x l IH]; simpl; [auto|].
  intro H. apply insert_by_value_in in H. destruct H; auto.
Qed.

Lemma insert_by_value_length (x : Q * A) (l : list (Q * A)) :
  List.length (insert_by_value x l) = S (List.length l).
Proof.
  induction l as [|h t IH]; simpl; [reflexivity|].
  destruct (Qle_bool (fst x) (fst h)); simpl; [reflexivity|].
  now rewrite IH.
Qed.

Lemma sort_by_value_length (l : list (Q * A)) :
  List.length (sort_by_value l) = List.length l.
Proof.
  induction l as [|x l IH]; simpl; [reflexivity|].
  now rewrite insert_by_value_length, IH.
Qed.
End SortFacts.

Lemma qsum_insert_by_value (x : Q * Q) (l : list (Q * Q)) :
  qsum (map snd (insert_by_value x l)) == snd x + qsum (map snd l).
Proof.
  induction l as [|h t IH]; simpl; [reflexivity|].
  destruct (Qle_bool (fst x) (fst h)); simpl; [reflexivity|].
  rewrite IH. ring.
Qed.

(** The total mass does not depend on the order. *)
Lemma qsum_sort_by_value (l : list (Q * Q)) :
  qsum (map snd (sort_by_value l)) == qsum (map snd l).
Proof.
  induction l as [|x l IH]; simpl; [reflexivity|].
  now rewrite qsum_insert_by_value, IH.
Qed.

Lemma last_item_cons {A} (a : A) (l : list A) :
  l <> [] -> last_item (a :: l) = last_item l.
Proof.
  intro Hl. unfold last_item. simpl.
  destruct (rev l) as [|b t] eqn:Hrev; [|reflexivity].
  exfalso. apply Hl. rewrite <- (rev_involutive l), Hrev. reflexivity.
Qed.

Lemma last_item_in {A} (l : list A) (a : A) : last_item l = Ok a -> In a l.
Proof.
  unfold last_item. destruct (rev l) as [|b t] eqn:Hrev; [discriminate|].
  intro H. inversion H; subst. apply in_rev. rewrite Hrev. now left.
Qed.

(** The last cumulative mass is the total mass. *)
Lemma last_item_cumsum_from (l : list Q) (acc : Q) :
  l <> [] ->
  exists total, last_item (cumsum_from acc l) = Ok total
                /\ total == acc + qsum l.
Proof.
  revert acc. induction l as [|x l IH]; intros acc Hl; [congruence|].
  destruct l as [|x' l'].
  - exists (acc + x). split; [reflexivity|]. simpl. ring.
  - destruct (IH (acc + x)) as (total & Hlast & Htotal); [discriminate|].
    exists total. split.
    + change (cumsum_from acc (x :: x' :: l'))
        with ((acc + x) :: cumsum_from (acc + x) (x' :: l')).
      rewrite last_item_cons; [exact Hlast|simpl; discriminate].
    + rewrite Htotal. simpl. ring.
Qed.

Lemma cumsum_from_length (l : list Q) (acc : Q) :
  List.length (cumsum_from acc l) = List.length l.
Proof.
  revert acc. induction l as [|x l IH]; intro acc; simpl; [reflexivity|].
  now rewrite IH.
Qed.

Lemma first_true_some (l : list bool) :
  In true l -> exists k, first_true l = Some k /\ (k < List.length l)%nat.
Proof.
  induction l as [|b l IH]; simpl; [intros []|].
  intro H. destruct b.
  - exists O. split; [reflexivity|lia].
  - destruct H as [H|H]; [discriminate|].
    destruct (IH H) as (k & -> & Hk). exists (S k). split; [reflexivity|lia].
Qed.

(** [first_true] is the smallest index that holds [true]. *)
Lemma first_true_least (l : list bool) (k : nat) :
  first_true l = Some k ->
  nth k l false = true /\ forall j, (j < k)%nat -> nth j l false = false.
Proof.
  revert k. induction l as [|b l IH]; intros k H; simpl in H; [discriminate|].
  destruct b.
  - inversion H; subst. split; [reflexivity|]. intros j Hj. lia.
  - destruct (first_true l) as [k'|]; [|discriminate].
    inversion H; subst. destruct (IH k' eq_refl) as [Hk Hlt].
    split; [exact Hk|]. intros [|j] Hj; [reflexivity|].
    apply Hlt. lia.
Qed.

Lemma take_in_range {A} (l : list A) (idx : list nat) (d : A) :
  (forall i, In i idx -> (i < List.length l)%nat) ->
  take l idx = Ok (map (fun i => nth i l d) idx).
Proof.
  unfold take. induction idx as [|i idx IH]; intro Hidx; simpl;
    [reflexivity|].
  rewrite (nth_error_nth' l d) by (apply Hidx; now left).
  simpl. rewrite IH by (intros j Hj; apply Hidx; now right).
  reflexivity.
Qed.

(** The pairs of a row with its positions. *)
Lemma combine_seq_in (row : list Q) (start : nat) (v : Q) (i : nat) :
  In (v, i) (combine row (seq start (List.length row))) ->
  (start <= i < start + List.length row)%nat
  /\ nth_error row (i - start) = Some v.
Proof.
  revert start. induction row as [|x row IH]; intros start H; simpl in H;
    [destruct H|].
  destruct H as [H|H].
  - inversion H; subst. simpl. split; [lia|].
    now rewrite Nat.sub_diag.
  - destruct (IH _ H) as [Hr Hn]. simpl. split; [lia|].
    replace (i - start)%nat with (S (i - S start)) by lia. exact Hn.
Qed.

(** Pairing a row with the weights is pairing it with its positions and
    looking the weights up. *)
Lemma combine_weights_by_position (w row : list Q) (start : nat) :
  (start + List.length row <= List.length w)%nat ->
  combine row (skipn start w)
  = map (relabel (fun i => nth i w 0))
        (combine row (seq start (List.length row))).
Proof.
  revert start. induction row as [|x row IH]; intros start Hlen;
    [reflexivity|].
  simpl in Hlen.
  assert (Hskip : skipn start w = nth start w 0 :: skipn (S start) w).
  { clear IH. revert start Hlen.
    induction w as [|a w IHw]; intros start Hlen; simpl in Hlen; [lia|].
    destruct start as [|start]; [reflexivity|].
    simpl. apply IHw. lia. }
  rewrite Hskip. cbn [List.length seq combine map].
  unfold relabel at 1. cbn [fst snd].
  f_equal. apply IH. lia.
Qed.

(** The positions [argsort] returns are positions of the row, and each
    comes with the value the row holds there. *)
Lemma argsort_pairs (row : list Q) (v : Q) (i : nat) :
  In (v, i) (sort_by_value (combine row (seq 0 (List.length row)))) ->
  (i < List.length row)%nat /\ nth_error row i = Some v.
Proof.
  intro H. apply sort_by_value_in in H. apply combine_seq_in in H.
  rewrite Nat.sub_0_r in H. destruct H as [Hr Hn]. split; [lia|exact Hn].
Qed.

Lemma argsort_in_range (row : list Q) (i : nat) :
  In i (argsort row) -> (i < List.length row)%nat.
Proof.
  unfold argsort. intro H. apply in_map_iff in H.
  destruct H as ([v j] & Hj & Hin). simpl in Hj. subst j.
  now apply argsort_pairs in Hin.
Qed.

(** What [_get_median_predict] computes for one sample is the weighted
    median of the specification. *)
Lemma median_row_is_spec (w row : list Q) (v : Q) :
  (List.length row <= List.length w)%nat ->
  weighted_median_spec row w = Some v ->
  median_row w row = Ok v.
Proof.
  intros Hlen Hspec. unfold weighted_median_spec in Hspec.
  set (sc := sort_by_value (combine row (seq 0 (List.length row)))) in *.
  assert (Hsorted : sort_by_value (combine row w)
                    = map (relabel (fun i => nth i w 0)) sc).
  { unfold sc. rewrite sort_by_value_relabel. f_equal.
    apply (combine_weights_by_position w row 0). simpl. lia. }
  assert (Hsnd : map snd (sort_by_value (combine row w))
                 = map (fun i => nth i w 0) (argsort row)).
  { rewrite Hsorted. unfold argsort. fold sc. rewrite !map_map.
    reflexivity. }
  assert (Hfst : map fst (sort_by_value (combine row w)) = map fst sc).
  { rewrite Hsorted, map_map. reflexivity. }
  rewrite Hsnd, Hfst in Hspec.
  set (ws := map (fun i => nth i w 0) (argsort row)) in *.
  destruct (first_true _) as [k|] eqn:Hk in Hspec; [|discriminate].
  assert (Hws : ws <> []).
  { intro Hnil. rewrite Hnil in Hk. discriminate. }
  unfold median_row.
  rewrite (take_in_range w (argsort row) 0)
    by (intros i Hi; apply argsort_in_range in Hi; lia).
  fold ws. cbn [rbind]. unfold cumsum in *.
  destruct (last_item_cumsum_from ws 0 Hws) as (total & Hlast & Htotal).
  rewrite Hlast. cbn [rbind].
  assert (Hbools :
            map (fun c => Qle_bool ((1 # 2) * total) c) (cumsum_from 0 ws)
            = map (fun m => Qle_bool
                              ((1 # 2) * qsum (map snd (combine row w))) m)
                  (cumsum_from 0 ws)).
  { apply map_ext. intro c. apply Qleb_comp; [|reflexivity].
    rewrite Htotal, <- (qsum_sort_by_value (combine row w)), Hsnd.
    fold ws. ring. }
  rewrite Hbools. unfold argmax_bool. rewrite Hk.
  rewrite nth_error_map in Hspec.
  destruct (nth_error sc k) as [[v' i]|] eqn:Hnth; [|discriminate].
  simpl in Hspec. inversion Hspec; subst v'.
  unfold item, argsort. fold sc. rewrite nth_error_map, Hnth. simpl.
  apply nth_error_In in Hnth. apply argsort_pairs in Hnth.
  destruct Hnth as [_ ->]. reflexivity.
Qed.

Lemma combine_snd_firstn (row w : list Q) :
  (List.length row <= List.length w)%nat ->
  map snd (combine row w) = firstn (List.length row) w.
Proof.
  revert w. induction row as [|x row IH]; intros w Hlen; [reflexivity|].
  destruct w as [|a w]; simpl in Hlen; [lia|].
  simpl. f_equal. apply IH. lia.
Qed.

(** With a total mass that is not negative, some index reaches half of it:
    the weighted median exists. *)
Lemma weighted_median_spec_defined (w row : list Q) :
  row <> [] ->
  (List.length row <= List.length w)%nat ->
  0 <= qsum (firstn (List.length row) w) ->
  exists v, weighted_median_spec row w = Some v.
Proof.
  intros Hrow Hlen Hmass. unfold weighted_median_spec.
  rewrite <- (combine_snd_firstn row w Hlen) in Hmass.
  set (sorted := sort_by_value (combine row w)).
  assert (Hsize : List.length sorted = List.length row).
  { unfold sorted. rewrite sort_by_value_length, length_combine. lia. }
  assert (Hne : map snd sorted <> []).
  { intro Hnil. apply (f_equal (@List.length Q)) in Hnil.
    rewrite length_map, Hsize in Hnil. destruct row; [congruence|].
    discriminate. }
  destruct (last_item_cumsum_from (map snd sorted) 0 Hne)
    as (total & Hlast & Htotal).
  unfold cumsum.
  set (reaches := fun m => Qle_bool
                             ((1 # 2) * qsum (map snd (combine row w))) m).
  assert (Hin : In true (map reaches (cumsum_from 0 (map snd sorted)))).
  { apply in_map_iff. exists total. split; [|now apply last_item_in].
    unfold reaches. apply Qle_bool_iff.
    rewrite Htotal. unfold sorted. rewrite qsum_sort_by_value.
    set (T := qsum (map snd (combine row w))) in *. lra. }
  destruct (first_true_some _ Hin) as (k & Hk & Hlt).
  rewrite Hk. rewrite length_map, cumsum_from_length, length_map in Hlt.
  destruct (nth_error (map fst sorted) k) as [v|] eqn:Hv; [eauto|].
  apply nth_error_None in Hv. rewrite length_map in Hv. lia.
Qed.

Lemma rmap_forall2 {A B} (f : A -> result B) (R : A -> B -> Prop)
    (l : list A) :
  (forall a, In a l -> exists b, f a = Ok b /\ R a b) ->
  exists bs, rmap f l = Ok bs /\ Forall2 R l bs.
Proof.
  induction l as [|a l IH]; intro H; simpl.
  - exists []. split; [reflexivity|constructor].
  - destruct (H a (or_introl eq_refl)) as (b & Hb & HR).
    destruct IH as (bs & Hbs & HF); [intros; apply H; now right|].
    exists (b :: bs). rewrite Hb, Hbs. split; [reflexivity|].
    now constructor.
Qed.

Lemma predictions_of_row_length {Sample Estimator : Type}
    {WL : WeakLearner Sample Q Estimator}
    (members : list Estimator) (X : list Sample) (row : list Q) :
  In row (predictions_of members X) ->
  List.length row = List.length members.
Proof.
  unfold predictions_of. intro H. apply in_map_iff in H.
  destruct H as (j & <- & _). now rewrite !length_map.
Qed.

(** C2, as amended.  For an ensemble whose recorded weights cover its
    members and have a total mass that is not negative, regression [predict]
    returns, for every sample, the weighted median of the members'
    predictions for it: the prediction at the smallest index, in sorted
    order, where the cumulative estimator-weight mass reaches half the total.
    For three members predicting 1, 2 and 3 with weights 0.2, 0.3 and 0.5 on
    one sample, that is 2: the masses are 0.2, 0.5 and 1, and 0.5 already
    reaches the half. *)
Theorem regression_predict_is_weighted_median :
  (forall (Sample Estimator : Type) (WL : WeakLearner Sample Q Estimator)
          (self : adaboost Q Estimator) (X : list Sample)
          (estimator_weights : list Q),
      estimators_ self <> [] ->
      estimator_weights_ self = Some estimator_weights ->
      (List.length (estimators_ self) <= List.length estimator_weights)%nat ->
      0 <= qsum (firstn (List.length (estimators_ self)) estimator_weights) ->
      exists y,
        reg_predict self X = Ok y
        /\ Forall2 (fun row v =>
                      weighted_median_spec row estimator_weights = Some v)
                   (predictions_of (estimators_ self) X) y)
  /\ reg_predict r2_fitted X1 = Ok [2].
Proof.
  split; [|vm_compute; reflexivity].
  intros Sample Estimator WL self X w Hne Hw Hlen Hmass.
  unfold reg_predict, _get_median_predict.
  destruct (estimators_ self) as [|e es] eqn:Hes; [congruence|].
  replace (-1 <? 1)%Z with true by reflexivity.
  rewrite firstn_all, Hw.
  apply rmap_forall2. intros row Hrow.
  apply predictions_of_row_length in Hrow.
  destruct (weighted_median_spec_defined w row) as [v Hv].
  - intro Hnil. rewrite Hnil in Hrow. discriminate.
  - rewrite Hrow. exact Hlen.
  - rewrite Hrow. exact Hmass.
  - exists v. split; [|exact Hv].
    apply median_row_is_spec; [rewrite Hrow; exact Hlen|exact Hv].
Qed.

Lemma regression_predict_is_weighted_median_witness :
  exists y,
    reg_predict r2_fitted X1 = Ok y
    /\ Forall2 (fun row v =>
                  weighted_median_spec row [2 # 10; 3 # 10; 5 # 10] = Some v)
               (predictions_of (estimators_ r2_fitted) X1) y.
Proof.
  apply (proj1 regression_predict_is_weighted_median _ _ _ r2_fitted X1
           [2 # 10; 3 # 10; 5 # 10]).
  - discriminate.
  - reflexivity.
  - vm_compute. lia.
  - apply Qle_bool_iff. vm_compute. reflexivity.
Defined.

(** C2 as stated fails on its own example: [predict] selects 2, not 3. *)
Lemma weighted_median_example_is_not_three :
  estimators_ r2_fitted = [mkConstReg 1; mkConstReg 2; mkConstReg 3]
  /\ estimator_weights_ r2_fitted = Some [2 # 10; 3 # 10; 5 # 10]
  /\ reg_predict r2_fitted X1 = Ok [2]
  /\ ~ 2 == 3.
Proof.
  repeat split; try reflexivity. discriminate.
Qed.

(** ** The check of the supplied sample weights *)

(** The check of lines 107-110 looks at the weights after they were divided
    by their sum: whenever that sum is not zero they sum to 1, and the check
    passes. *)
Lemma initial_sample_weight_nonzero_sum {Sample : Type} (X : list Sample)
    (sample_weight : list Q) :
  ~ qsum sample_weight == 0 ->
  initial_sample_weight X (Some sample_weight)
  = Ok (map (fun w => w / qsum sample_weight) sample_weight).
Proof.
  intro Hnz. unfold initial_sample_weight.
  rewrite Qle_bool_false; [reflexivity|].
  rewrite (qsum_normalized _ Hnz). reflexivity.
Qed.

Lemma qsum_repeat (c : Q) (n : nat) : qsum (repeat c n) == Qnat n * c.
Proof.
  induction n as [|n IH].
  - simpl. unfold Qnat. simpl. ring.
  - cbn [repeat qsum fold_right]. fold (qsum (repeat c n)). rewrite IH.
    unfold Qnat. rewrite Nat2Z.inj_succ. unfold Z.succ.
    rewrite inject_Z_plus. ring.
Qed.

(** The weights the loop starts from sum to 1: the default ones always,
    supplied ones when their sum is not zero. *)
Lemma initial_sample_weight_sums_to_one {Sample : Type} (X : list Sample)
    (sample_weight : option (list Q)) (sw0 : list Q) :
  match sample_weight with
  | None => True
  | Some sw => ~ qsum sw == 0
  end ->
  initial_sample_weight X sample_weight = Ok sw0 ->
  qsum sw0 == 1.
Proof.
  destruct sample_weight as [sw|]; intros Hvalid H.
  - rewrite (initial_sample_weight_nonzero_sum X sw Hvalid) in H.
    inversion H; subst. now apply qsum_normalized.
  - unfold initial_sample_weight in H.
    destruct (List.length X =? 0)%nat eqn:Hn; [discriminate|].
    inversion H; subst. rewrite qsum_repeat.
    apply Nat.eqb_neq in Hn. unfold Qnat. field.
    intro Hz. apply Hn.
    assert (Hz' : inject_Z (Z.of_nat (List.length X)) == inject_Z 0)
      by exact Hz.
    rewrite inject_Z_injective in Hz'. lia.
Qed.

(** C6, the code at a failing input.  The supplied weights [-1, -1, -1] sum
    to -3, yet [fit] raises nothing: the weights become 1/3 each, the loop
    runs, and a member is fitted and kept. *)
Theorem fit_accepts_negative_weight_sum :
  qsum negative_weights <= 0
  /\ (exists sw, initial_sample_weight X3 (Some negative_weights) = Ok sw
                 /\ qsum sw == 1)
  /\ snd (clf_fit toy_ln toy_exp X3 y_one_class (Some negative_weights)
            samme3) = Ok (ZeroError 0)
  /\ estimators_
       (fst (clf_fit toy_ln toy_exp X3 y_one_class (Some negative_weights)
               samme3)) = [two_class_stump 0].
Proof.
  split; [vm_compute; discriminate|].
  split.
  - eexists. split; [vm_compute; reflexivity|]. vm_compute. reflexivity.
  - split; vm_compute; reflexivity.
Qed.

(** ** Fitting again *)

Section Refit.
Context {Sample Target Estimator : Type}.
Context {WL : WeakLearner Sample Target Estimator}.

Lemma clear_fit_forgets (members : list Estimator)
    (weights errors : option (list Q)) (s : adaboost Target Estimator) :
  clear_fit (enable_importances (with_previous_fit members weights errors s))
  = clear_fit (enable_importances s).
Proof.
  destruct s. unfold with_previous_fit, enable_importances, clear_fit.
  simpl. destruct compute_importances0; reflexivity.
Qed.
End Refit.

(** C7, as amended.  A fit that gets past the checks of its arguments
    starts by clearing [estimators_], [estimator_weights_] and
    [estimator_errors_] and then updates them in place: the object it
    leaves, when it returns and when it raises, is the same whatever members,
    weights and errors an earlier fit had left.  After a failure the object
    holds what the interrupted run has built so far, not the previous
    ensemble. *)
Theorem fit_discards_previous_ensemble
    {Sample Target Estimator : Type}
    {WL : WeakLearner Sample Target Estimator}
    (_boost : nat -> list Sample -> list Target -> list Q ->
              M (adaboost Target Estimator) (option (list Q * Q * Q)))
    (X : list Sample) (y : list Target) (sample_weight : option (list Q))
    (sample_weight0 : list Q) (self : adaboost Target Estimator)
    (members : list Estimator) (weights errors : option (list Q)) :
  0 < learning_rate self ->
  initial_sample_weight X sample_weight = Ok sample_weight0 ->
  base_fit _boost X y sample_weight
    (with_previous_fit members weights errors self)
  = base_fit _boost X y sample_weight self.
Proof.
  intros Hrate Hsw. unfold base_fit, bind, get, modify, lift.
  replace (learning_rate (with_previous_fit members weights errors self))
    with (learning_rate self) by (destruct self; reflexivity).
  replace (n_estimators (with_previous_fit members weights errors self))
    with (n_estimators self) by (destruct self; reflexivity).
  rewrite (Qle_bool_false _ _ Hrate), Hsw, clear_fit_forgets.
  reflexivity.
Qed.

Lemma fit_discards_previous_ensemble_witness :
  base_fit (clf_boost toy_ln toy_exp) X3 y3 None
    (with_previous_fit [two_class_stump 0; two_class_stump 1]
       (Some [1; 2]) (Some [1 # 3; 1 # 4]) samme3)
  = base_fit (clf_boost toy_ln toy_exp) X3 y3 None samme3.
Proof.
  apply (@fit_discards_previous_ensemble _ _ _ _
           (clf_boost toy_ln toy_exp) X3 y3 None thirds samme3).
  - reflexivity.
  - reflexivity.
Defined.

(** C7 as stated fails: a fit that raises after the checks of its arguments
    leaves an object that has lost the previous ensemble.  Once the feature
    importances cannot be summed, once the weak learner's [fit] raises and
    its untrained copy is the only member left. *)
Lemma failed_fit_replaces_previous_ensemble :
  estimators_ samme_refit_importances
    = [two_class_stump 0; two_class_stump 1]
  /\ snd (clf_fit toy_ln toy_exp X3 y_one_class None samme_refit_importances)
     = Raise AttributeError
  /\ estimators_
       (fst (clf_fit toy_ln toy_exp X3 y_one_class None
               samme_refit_importances)) = [two_class_stump 0]
  /\ estimators_ samme_refit_broken = [two_class_stump 0; two_class_stump 1]
  /\ snd (clf_fit toy_ln toy_exp X3 y_one_class None samme_refit_broken)
     = Raise (LearnerError 0)
  /\ estimators_
       (fst (clf_fit toy_ln toy_exp X3 y_one_class None samme_refit_broken))
     = [broken_stump]
  /\ estimator_weights_
       (fst (clf_fit toy_ln toy_exp X3 y_one_class None samme_refit_broken))
     = Some [0; 0].
Proof.
  repeat split; vm_compute; reflexivity.
Qed.

(** ** Predicting before a fit *)

(** On an empty ensemble these entry points do raise the RuntimeError. *)
Lemma checked_entry_points_raise {Sample Estimator : Type}
    {WLc : WeakLearner Sample Z Estimator} (ln : Q -> Q)
    (s : adaboost Z Estimator) (X : list Sample) :
  estimators_ s = [] ->
  decision_function ln s X = Raise RuntimeError
  /\ staged_decision_function ln s X = ([], Some RuntimeError)
  /\ clf_predict ln s X = Raise RuntimeError.
Proof.
  intro H. unfold clf_predict, decision_function, staged_decision_function.
  rewrite H. auto.
Qed.

Lemma checked_regressor_predict_raises {Sample Estimator : Type}
    {WLr : WeakLearner Sample Q Estimator}
    (s : adaboost Q Estimator) (X : list Sample) (limit : Z) :
  estimators_ s = [] ->
  _get_median_predict s X limit = Raise RuntimeError
  /\ reg_predict s X = Raise RuntimeError.
Proof.
  intro H. unfold reg_predict, _get_median_predict. rewrite H. auto.
Qed.

(** C8, the code at failing inputs.  With no member in the ensemble, the
    regressor's [staged_predict] raises nothing and yields nothing;
    [predict_proba] and the classifier's [staged_predict] raise an
    AttributeError before any fit; and after a fit that rejected its only
    member [predict_proba] raises a TypeError and [staged_predict_proba]
    yields nothing.  None of them raises the RuntimeError of the checked
    entry points. *)
Theorem unchecked_entry_points_on_empty_ensemble :
  estimators_ fresh_regressor = []
  /\ reg_staged_predict fresh_regressor X1 = ([], None)
  /\ estimators_ fresh_classifier = []
  /\ predict_proba toy_ln toy_exp fresh_classifier X1 = Raise AttributeError
  /\ staged_predict_proba toy_ln toy_exp fresh_classifier X1
     = ([], Some AttributeError)
  /\ clf_staged_predict toy_ln fresh_classifier X1
     = ([], Some AttributeError)
  /\ estimators_ samme_emptied = []
  /\ predict_proba toy_ln toy_exp samme_emptied X1 = Raise TypeError
  /\ staged_predict_proba toy_ln toy_exp samme_emptied X1 = ([], None).
Proof.
  repeat split; vm_compute; reflexivity.
Qed.

(** ** Class probabilities *)

Section ProbaFacts.
Context {Sample Estimator : Type}.
Context {WL : WeakLearner Sample Z Estimator}.
Variables ln exp : Q -> Q.

(** The loops of [predict_proba] and [staged_predict_proba] never read the
    weight they unpack. *)
Lemma proba_loop_ignores_weights (K : nat) (X : list Sample)
    (members : list Estimator) (w w' : list Q) (proba : option matrix) :
  List.length w' = List.length w ->
  proba_loop ln K X (combine w' members) proba
  = proba_loop ln K X (combine w members) proba.
Proof.
  revert w w' proba.
  induction members as [|e members IH]; intros w w' proba Hlen.
  - now rewrite !combine_nil.
  - destruct w as [|a w], w' as [|a' w']; simpl in Hlen; try lia;
      [reflexivity|].
    simpl. destruct (_samme_proba ln e K X); [|reflexivity].
    simpl. apply IH. lia.
Qed.

Lemma staged_proba_loop_ignores_weights (K : nat) (X : list Sample)
    (members : list Estimator) (w w' : list Q) (proba : option matrix) :
  List.length w' = List.length w ->
  staged_proba_loop ln exp K X (combine w' members) proba
  = staged_proba_loop ln exp K X (combine w members) proba.
Proof.
  revert w w' proba.
  induction members as [|e members IH]; intros w w' proba Hlen.
  - now rewrite !combine_nil.
  - destruct w as [|a w], w' as [|a' w']; simpl in Hlen; try lia;
      [reflexivity|].
    simpl. destruct (_samme_proba ln e K X); [|reflexivity].
    destruct (to_proba exp K _); [|reflexivity].
    f_equal. apply IH. lia.
Qed.

(** What [_samme_proba] returns for a member is the transform of the
    specification, row by row, of what the member's [predict_proba]
    returns. *)
Lemma samme_proba_is_transform (estimator : Estimator) (K : nat)
    (X : list Sample) (proba : matrix) :
  est_predict_proba estimator X = Ok proba ->
  K <> 0%nat ->
  _samme_proba ln estimator K X
  = Ok (map (log_probability_transform_spec ln K) proba).
Proof.
  intros Hproba HK. unfold _samme_proba. rewrite Hproba. cbn [rbind].
  destruct (Nat.eqb_spec K 0) as [HK0|_]; [contradiction|].
  f_equal. unfold displace. rewrite !map_map. apply map_ext.
  intro row. reflexivity.
Qed.

(** The loop of [predict_proba] adds up the transforms, each once. *)
Lemma proba_loop_sum (K : nat) (X : list Sample)
    (members : list (Q * Estimator)) (probas : list matrix) :
  K <> 0%nat ->
  Forall2 (fun member proba => est_predict_proba (snd member) X = Ok proba)
          members probas ->
  forall acc,
    proba_loop ln K X members acc
    = Ok (match acc with
          | None =>
              sum_of_contributions
                (map (map (log_probability_transform_spec ln K)) probas)
          | Some a =>
              Some (fold_left mat_add
                      (map (map (log_probability_transform_spec ln K))
                           probas) a)
          end).
Proof.
  intros HK Hall.
  induction Hall as [|[w e] proba members probas Hproba Hall IH]; intro acc.
  - destruct acc; reflexivity.
  - cbn [proba_loop]. cbn [snd] in Hproba.
    rewrite (samme_proba_is_transform _ _ _ _ Hproba HK). cbn [rbind].
    rewrite IH. destruct acc; reflexivity.
Qed.

Lemma gfor_list_map {A B C} (f : B -> result C) (g : A -> B) (l : list A)
    (e : option exn) :
  gfor_list f (map g l) e = gfor_list (fun a => f (g a)) l e.
Proof.
  induction l as [|a l IH]; simpl; [reflexivity|].
  destruct (f (g a)); [|reflexivity]. now rewrite IH.
Qed.

Lemma gfor_list_ext {A B} (f g : A -> result B) (l : list A)
    (e : option exn) :
  (forall a, f a = g a) -> gfor_list f l e = gfor_list g l e.
Proof.
  intro Hfg. induction l as [|a l IH]; simpl; [reflexivity|].
  rewrite Hfg. destruct (g a); [|reflexivity]. now rewrite IH.
Qed.

(** The loop of [staged_predict_proba] yields, at stage [k], the
    probabilities of the sum of the first [k] transforms. *)
Lemma staged_proba_loop_sum (K : nat) (X : list Sample)
    (members : list (Q * Estimator)) (probas : list matrix) :
  K <> 0%nat ->
  Forall2 (fun member proba => est_predict_proba (snd member) X = Ok proba)
          members probas ->
  forall acc,
    staged_proba_loop ln exp K X members acc
    = gfor_list
        (fun k =>
           to_proba exp K
             (match acc with
              | None =>
                  sum_of_contributions
                    (firstn k (map (map (log_probability_transform_spec
                                           ln K)) probas))
              | Some a =>
                  Some (fold_left mat_add
                          (firstn k (map (map (log_probability_transform_spec
                                                 ln K)) probas)) a)
              end))
        (seq 1 (List.length probas)) None.
Proof.
  intros HK Hall.
  induction Hall as [|[w e] proba members probas Hproba Hall IH]; intro acc.
  - reflexivity.
  - cbn [staged_proba_loop]. cbn [snd] in Hproba.
    rewrite (samme_proba_is_transform _ _ _ _ Hproba HK).
    cbn [List.length seq gfor_list map firstn].
    replace (match acc with
             | None =>
                 sum_of_contributions
                   [map (log_probability_transform_spec ln K) proba]
             | Some a =>
                 Some (fold_left mat_add
                         [map (log_probability_transform_spec ln K) proba] a)
             end)
      with (Some (add_proba acc
                    (map (log_probability_transform_spec ln K) proba)))
      by (destruct acc; reflexivity).
    destruct (to_proba exp K _) as [real|ex]; [|reflexivity].
    rewrite IH. f_equal.
    rewrite <- (seq_shift _ 1), gfor_list_map.
    apply gfor_list_ext. intro k. destruct acc; reflexivity.
Qed.
End ProbaFacts.

(** C9.  [predict_proba] and [staged_predict_proba] do not depend on the
    configured algorithm nor on the values of [estimator_weights_] (only on
    how many there are, through [zip]); a member that cannot predict
    probabilities makes [predict_proba] raise, under SAMME too; and,
    whatever the algorithm and the weights, when the members that [zip]
    reaches return their class probabilities, [predict_proba] is the
    probabilities of the sum of their SAMME.R log-probability transforms,
    each counted once and none multiplied by a weight, and stage [k] of
    [staged_predict_proba] those of the first [k] transforms. *)
Theorem predict_proba_ignores_weights_and_algorithm
    {Sample Estimator : Type} {WL : WeakLearner Sample Z Estimator}
    (ln exp : Q -> Q) (self : adaboost Z Estimator) (X : list Sample)
    (alg : string) (estimator_weights estimator_weights' : list Q) :
  estimator_weights_ self = Some estimator_weights ->
  List.length estimator_weights' = List.length estimator_weights ->
  predict_proba ln exp
    (set_algorithm alg
       (set_estimator_weights (Some estimator_weights') self)) X
  = predict_proba ln exp self X
  /\ staged_predict_proba ln exp
       (set_algorithm alg
          (set_estimator_weights (Some estimator_weights') self)) X
     = staged_predict_proba ln exp self X
  /\ (forall K estimator members e,
         n_classes_ self = Some K ->
         estimators_ self = estimator :: members ->
         estimator_weights <> [] ->
         est_predict_proba estimator X = Raise e ->
         predict_proba ln exp (set_algorithm "SAMME" self) X = Raise e)
  /\ (forall K probas,
         n_classes_ self = Some K ->
         K <> 0%nat ->
         Forall2 (fun member proba =>
                    est_predict_proba (snd member) X = Ok proba)
                 (combine estimator_weights (estimators_ self)) probas ->
         predict_proba ln exp
           (set_algorithm alg
              (set_estimator_weights (Some estimator_weights') self)) X
         = to_proba exp K
             (sum_of_contributions
                (map (map (log_probability_transform_spec ln K)) probas))
         /\ staged_predict_proba ln exp
              (set_algorithm alg
                 (set_estimator_weights (Some estimator_weights') self)) X
            = gfor_list
                (fun k =>
                   to_proba exp K
                     (sum_of_contributions
                        (firstn k
                           (map (map (log_probability_transform_spec ln K))
                                probas))))
                (seq 1 (List.length probas)) None).
Proof.
  intros Hw Hlen.
  unfold predict_proba, staged_predict_proba, attr_n_classes, zip_members.
  simpl. rewrite Hw.
  split; [|split; [|split]].
  - destruct (n_classes_ self) as [K|]; [|reflexivity]. simpl.
    now rewrite (proba_loop_ignores_weights ln K X (estimators_ self)
                   estimator_weights estimator_weights').
  - destruct (n_classes_ self) as [K|]; [|reflexivity]. simpl.
    now apply staged_proba_loop_ignores_weights.
  - intros K estimator members e HK Hes Hne Hraise.
    rewrite HK, Hes. simpl.
    destruct estimator_weights as [|a w]; [congruence|].
    simpl. unfold _samme_proba. rewrite Hraise. reflexivity.
  - intros K probas HK HK0 Hall. rewrite HK. simpl. split.
    + rewrite (proba_loop_ignores_weights ln K X (estimators_ self)
                 estimator_weights estimator_weights' None Hlen).
      rewrite (proba_loop_sum ln K X _ _ HK0 Hall None). reflexivity.
    + rewrite (staged_proba_loop_ignores_weights ln exp K X
                 (estimators_ self) estimator_weights estimator_weights'
                 None Hlen).
      apply (staged_proba_loop_sum ln exp K X _ _ HK0 Hall None).
Qed.

Lemma predict_proba_ignores_weights_and_algorithm_witness :
  predict_proba toy_ln toy_exp
    (set_algorithm "SAMME.R"
       (set_estimator_weights (Some [7; 0]) samme_fitted)) X3
  = predict_proba toy_ln toy_exp samme_fitted X3
  /\ staged_predict_proba toy_ln toy_exp
       (set_algorithm "SAMME.R"
          (set_estimator_weights (Some [7; 0]) samme_fitted)) X3
     = staged_predict_proba toy_ln toy_exp samme_fitted X3
  /\ (forall K estimator members e,
         n_classes_ samme_fitted = Some K ->
         estimators_ samme_fitted = estimator :: members ->
         [1; 2] <> [] ->
         est_predict_proba estimator X3 = Raise e ->
         predict_proba toy_ln toy_exp (set_algorithm "SAMME" samme_fitted) X3
         = Raise e)
  /\ (forall K probas,
         n_classes_ samme_fitted = Some K ->
         K <> 0%nat ->
         Forall2 (fun member proba =>
                    est_predict_proba (snd member) X3 = Ok proba)
                 (combine [1; 2] (estimators_ samme_fitted)) probas ->
         predict_proba toy_ln toy_exp
           (set_algorithm "SAMME.R"
              (set_estimator_weights (Some [7; 0]) samme_fitted)) X3
         = to_proba toy_exp K
             (sum_of_contributions
                (map (map (log_probability_transform_spec toy_ln K))
                     probas))
         /\ staged_predict_proba toy_ln toy_exp
              (set_algorithm "SAMME.R"
                 (set_estimator_weights (Some [7; 0]) samme_fitted)) X3
            = gfor_list
                (fun k =>
                   to_proba toy_exp K
                     (sum_of_contributions
                        (firstn k
                           (map (map (log_probability_transform_spec
                                        toy_ln K)) probas))))
                (seq 1 (List.length probas)) None).
Proof.
  apply (@predict_proba_ignores_weights_and_algorithm _ _ _
           toy_ln toy_exp samme_fitted X3 "SAMME.R" [1; 2] [7; 0]).
  - reflexivity.
  - reflexivity.
Defined.

(** A SAMME ensemble of a stump without [predict_proba]: [predict] works,
    [predict_proba] raises. *)
Lemma samme_without_probabilities :
  algorithm samme_hard = "SAMME"%string
  /\ clf_predict toy_ln samme_hard X1 = Ok [0%Z]
  /\ predict_proba toy_ln toy_exp samme_hard X1 = Raise AttributeError.
Proof.
  repeat split; vm_compute; reflexivity.
Qed.

(** ** Counting the members of a classifier run *)

Section LoopCount.
Context {Sample Target Estimator : Type}.
Context {WL : WeakLearner Sample Target Estimator}.
Variable _boost : nat -> list Sample -> list Target -> list Q ->
                  M (adaboost Target Estimator) (option (list Q * Q * Q)).

(** How a pass of the loop that raises nothing relates to what [_boost]
    returned. *)
Lemma fit_iteration_inv (iboost : nat) (X : list Sample) (y : list Target)
    (sw : list Q) (s s' : adaboost Target Estimator) (st : step) :
  fit_iteration _boost iboost X y sw s = (s', Ok st) ->
  exists s1 out,
    _boost iboost X y sw s = (s1, Ok out)
    /\ estimators_ s' = estimators_ s1
    /\ match st with
       | Next _ => out <> None
       | Stop (Sentinel j) => j = iboost /\ out = None
       | Stop (ZeroError j) => j = iboost /\ out <> None
       | Stop (NonPositiveSum j) => j = iboost /\ out <> None
       | Stop Exhausted => False
       end.
Proof.
  intro H.
  destruct (fit_iteration_estimators _ _ _ _ _ _ _ _ H)
    as (s1 & rb & Hb & Hes).
  exists s1. unfold fit_iteration, bind in H. rewrite Hb in H.
  destruct rb as [[[[sw1 ew] ee]|]|e]; [| |discriminate].
  - exists (Some (sw1, ew, ee)). split; [exact Hb|]. split; [exact Hes|].
    destruct (store_weight iboost ew s1) as [s2 [[]|e]]; [|discriminate].
    destruct (store_error iboost ee s2) as [s3 [[]|e]]; [|discriminate].
    unfold get, ret in H.
    destruct (Qeq_bool ee 0);
      [inversion H; subst; split; [reflexivity|discriminate]|].
    destruct (Qle_bool (qsum sw1) 0);
      [inversion H; subst; split; [reflexivity|discriminate]|].
    destruct (iboost <? n_estimators s3 - 1)%nat;
      inversion H; subst; discriminate.
  - exists None. split; [exact Hb|]. split; [exact Hes|].
    unfold ret in H. inversion H; subst. auto.
Qed.

Hypothesis boost_appends_one :
  forall iboost X y sw s s1 out,
    _boost iboost X y sw s = (s1, Ok out) ->
    List.length (estimators_ s1)
    = match out with
      | Some _ => S (List.length (estimators_ s))
      | None => List.length (estimators_ s)
      end.

(** In a run that starts pass [iboost] with [iboost] members, the exit
    tells the number of members left. *)
Lemma fit_loop_member_count (remaining iboost : nat) (X : list Sample)
    (y : list Target) (sw : list Q) (s s' : adaboost Target Estimator)
    (why : loop_exit) :
  List.length (estimators_ s) = iboost ->
  fit_loop _boost remaining iboost X y sw s = (s', Ok why) ->
  List.length (estimators_ s')
  = match why with
    | Exhausted => (iboost + remaining)%nat
    | Sentinel j => j
    | ZeroError j => S j
    | NonPositiveSum j => S j
    end.
Proof.
  revert iboost sw s.
  induction remaining as [|remaining IH]; intros iboost sw s Hlen H.
  - simpl in H. unfold ret in H. inversion H; subst. lia.
  - cbn [fit_loop] in H. unfold bind in H.
    destruct (fit_iteration _boost iboost X y sw s) as [s2 [st|e]] eqn:Hit;
      [|discriminate].
    destruct (fit_iteration_inv _ _ _ _ _ _ _ Hit)
      as (s1 & out & Hb & Hes & Hst).
    apply boost_appends_one in Hb.
    destruct st as [sw'|why'].
    + destruct out as [o|]; [|congruence].
      assert (Hlen2 : List.length (estimators_ s2) = S iboost)
        by (rewrite Hes, Hb, Hlen; reflexivity).
      rewrite (IH (S iboost) sw' s2 Hlen2 H).
      destruct why; lia.
    + unfold ret in H. inversion H; subst.
      rewrite Hes, Hb.
      destruct why as [|j|j|j]; [destruct Hst|..];
        destruct Hst as [-> Hout]; destruct out as [o|]; congruence.
Qed.
End LoopCount.

Section ClassifierRuns.
Context {Sample Estimator : Type}.
Context {WL : WeakLearner Sample Z Estimator}.
Variables ln exp : Q -> Q.

Lemma boost_discrete_appends_one (iboost : nat) (X : list Sample)
    (y : list Z) (sw : list Q) (s s1 : adaboost Z Estimator)
    (out : option (list Q * Q * Q)) :
  _boost_discrete ln exp iboost X y sw s = (s1, Ok out) ->
  List.length (estimators_ s1)
  = match out with
    | Some _ => S (List.length (estimators_ s))
    | None => List.length (estimators_ s)
    end.
Proof.
  unfold _boost_discrete, bind. intro H.
  destruct (discrete_member iboost X y sw s) as [sa [[inc err]|ex]] eqn:Hm;
    [|discriminate].
  destruct (discrete_member_fields _ _ _ _ _ _ _ Hm)
    as (_ & _ & _ & e & Hes).
  assert (Hsa : List.length (estimators_ sa) = S (List.length (estimators_ s)))
    by (rewrite Hes, length_app; simpl; lia).
  simpl in H.
  destruct (Qle_bool err 0);
    [unfold ret in H; inversion H; subst; exact Hsa|].
  unfold read_n_classes in H.
  destruct (n_classes_ sa) as [K|]; [|discriminate].
  destruct (K =? 0)%nat; [discriminate|].
  destruct (Qle_bool (1 - 1 / Qnat K) err).
  - unfold pop_last, modify, ret in H. inversion H; subst. simpl.
    rewrite Hes, removelast_last. reflexivity.
  - unfold get, ret in H. inversion H; subst. exact Hsa.
Qed.

Lemma boost_real_appends_one (iboost : nat) (X : list Sample)
    (y : list Z) (sw : list Q) (s s1 : adaboost Z Estimator)
    (out : option (list Q * Q * Q)) :
  _boost_real ln exp iboost X y sw s = (s1, Ok out) ->
  out <> None
  /\ List.length (estimators_ s1) = S (List.length (estimators_ s)).
Proof.
  unfold _boost_real, bind, lift. intro H.
  destruct (_make_estimator s) as [sa [e|ex]] eqn:Hm;
    [|unfold _make_estimator in Hm; discriminate].
  destruct (train e X y (Some sw) sa) as [sb rb] eqn:Ht.
  destruct (make_then_train _ _ _ _ _ _ _ e _ Hm Ht)
    as (_ & _ & _ & e2 & Hes & _).
  destruct rb as [e'|ex]; [|discriminate].
  destruct (est_predict_proba e' X) as [proba|ex]; [|discriminate].
  destruct (set_classes_from iboost e' sb) as [sc rc] eqn:Hc.
  apply set_classes_from_fields in Hc. destruct Hc as (_ & Hes' & _).
  assert (Hsc : List.length (estimators_ sc)
                = S (List.length (estimators_ s)))
    by (rewrite Hes', Hes, length_app; simpl; lia).
  destruct rc as [[]|ex]; [|discriminate].
  unfold read_classes, read_n_classes, get, ret, raise in H.
  destruct (classes_ sc) as [classes|] eqn:Hcl; [|discriminate].
  destruct (take classes _) as [y_predict|ex]; [|discriminate].
  destruct (average _ sw) as [err|ex]; [|discriminate].
  destruct (Qle_bool err 0);
    [inversion H; subst; split; [discriminate|exact Hsc]|].
  destruct (n_classes_ sc) as [K|]; [|discriminate].
  cbv beta iota zeta in H. rewrite Hcl in H.
  destruct (K =? 1)%nat; [discriminate H|].
  destruct (K =? 0)%nat; [discriminate H|].
  inversion H; subst. split; [discriminate|exact Hsc].
Qed.

Lemma clf_boost_appends_one (iboost : nat) (X : list Sample)
    (y : list Z) (sw : list Q) (s s1 : adaboost Z Estimator)
    (out : option (list Q * Q * Q)) :
  clf_boost ln exp iboost X y sw s = (s1, Ok out) ->
  List.length (estimators_ s1)
  = match out with
    | Some _ => S (List.length (estimators_ s))
    | None => List.length (estimators_ s)
    end.
Proof.
  unfold clf_boost. destruct (String.eqb (algorithm s) "SAMME.R").
  - intro H. apply boost_real_appends_one in H. destruct H as [Hout Hlen].
    destruct out; [exact Hlen|congruence].
  - apply boost_discrete_appends_one.
Qed.

(** A classifier fit that ended on the sentinel of pass [i], after fitting
    [i + 1] learners, has [i] members. *)
Lemma clf_fit_sentinel_member_count (X : list Sample) (y : list Z)
    (sample_weight : option (list Q)) (s sf : adaboost Z Estimator)
    (i : nat) :
  clf_fit ln exp X y sample_weight s = (sf, Ok (Sentinel i)) ->
  List.length (estimators_ sf) = i.
Proof.
  unfold clf_fit, bind, get.
  destruct (negb (is_classifier (base_estimator s))); [discriminate|].
  destruct (negb _ && negb _); [discriminate|].
  destruct (_ && negb _); [discriminate|].
  intro H.
  assert (Hrate : 0 < learning_rate s).
  { unfold base_fit, bind, get in H.
    destruct (Qle_bool (learning_rate s) 0) eqn:E; [discriminate|].
    now apply Qle_bool_false_lt. }
  assert (Hsw : exists sw0, initial_sample_weight X sample_weight = Ok sw0).
  { unfold base_fit, bind, get in H.
    rewrite (Qle_bool_false _ _ Hrate) in H. unfold modify, lift in H.
    destruct (initial_sample_weight X sample_weight); [eauto|discriminate]. }
  destruct Hsw as [sw0 Hsw].
  destruct (base_fit_fields _ _ _ _ _ _ _ _ Hrate Hsw H)
    as (sl & rl & Hloop & Hes & _ & _ & Hrl).
  rewrite (Hrl _ eq_refl) in Hloop. rewrite Hes.
  apply (fit_loop_member_count (clf_boost ln exp) clf_boost_appends_one
           (n_estimators s) 0 X y sw0 (clear_fit (enable_importances s))
           sl (Sentinel i) eq_refl Hloop).
Qed.
End ClassifierRuns.

(** ** Discrete classification: an error at chance level *)

(** C3, as amended.  In a SAMME run, a pass whose member has a weighted
    error that is positive and at least [1 - 1/K] removes the member it has
    just fitted and ends the loop at once, whatever number of iterations is
    left: the ensemble is the one from before the pass, and no weight or
    error is recorded for the member.  A fit that ends this way at pass [i]
    has fitted [i + 1] learners and has [i] members, one fewer. *)
Theorem samme_chance_error_discards_member
    {Sample Estimator : Type} {WL : WeakLearner Sample Z Estimator}
    (ln exp : Q -> Q) (remaining iboost : nat)
    (X : list Sample) (y : list Z) (sample_weight : list Q)
    (self self1 : adaboost Z Estimator)
    (incorrect : list bool) (estimator_error : Q) (K : nat) :
  String.eqb (algorithm self) "SAMME.R" = false ->
  discrete_member iboost X y sample_weight self
    = (self1, Ok (incorrect, estimator_error)) ->
  n_classes_ self1 = Some K ->
  (0 < K)%nat ->
  0 < estimator_error ->
  1 - 1 / Qnat K <= estimator_error ->
  (exists self',
     fit_loop (clf_boost ln exp) (S remaining) iboost X y sample_weight self
       = (self', Ok (Sentinel iboost))
     /\ estimators_ self' = estimators_ self
     /\ estimator_weights_ self' = estimator_weights_ self
     /\ estimator_errors_ self' = estimator_errors_ self)
  /\ (forall sample_weight0 self0 selff i,
        clf_fit ln exp X y sample_weight0 self0 = (selff, Ok (Sentinel i)) ->
        List.length (estimators_ selff) = i).
Proof.
  intros Halg Hmember HK Kpos Hpos Hchance.
  split; [|intros sw0 s0 sf i; apply clf_fit_sentinel_member_count].
  destruct (discrete_member_fields _ _ _ _ _ _ _ Hmember)
    as (_ & Hw & He & e & Hes).
  exists (set_estimators (removelast (estimators_ self1)) self1).
  split.
  - simpl. unfold fit_iteration, bind, clf_boost. rewrite Halg.
    unfold _boost_discrete, bind. rewrite Hmember. simpl.
    rewrite (Qle_bool_false _ _ Hpos).
    unfold read_n_classes. rewrite HK.
    destruct K as [|K']; [lia|]. simpl Nat.eqb. cbv iota.
    rewrite (Qle_bool_true _ _ Hchance).
    reflexivity.
  - simpl. rewrite Hes, removelast_last. auto.
Qed.

Lemma samme_chance_error_discards_member_witness :
  (exists self',
     fit_loop (clf_boost toy_ln toy_exp) 3 0 X3 y_all_wrong thirds
       (clear_fit samme3) = (self', Ok (Sentinel 0))
     /\ estimators_ self' = estimators_ (clear_fit samme3)
     /\ estimator_weights_ self' = estimator_weights_ (clear_fit samme3)
     /\ estimator_errors_ self' = estimator_errors_ (clear_fit samme3))
  /\ (forall sample_weight0 self0 selff i,
        clf_fit toy_ln toy_exp X3 y_all_wrong sample_weight0 self0
          = (selff, Ok (Sentinel i)) ->
        List.length (estimators_ selff) = i).
Proof.
  apply (@samme_chance_error_discards_member _ _ _ toy_ln toy_exp 2 0 X3
           y_all_wrong thirds (clear_fit samme3)
           (fst (discrete_member 0 X3 y_all_wrong thirds (clear_fit samme3)))
           [true; true; true] (729 # 729) 2).
  - vm_compute. reflexivity.
  - vm_compute. reflexivity.
  - vm_compute. reflexivity.
  - lia.
  - reflexivity.
  - apply Qle_bool_iff. vm_compute. reflexivity.
Defined.

(** C3 as stated fails when the training set has one class only: the error
    0 meets the bound [1 - 1/1 = 0], yet the pass is a perfect fit and the
    member stays. *)
Lemma samme_single_class_keeps_member :
  exists incorrect estimator_error,
    snd (discrete_member 0 X3 y_one_class thirds (clear_fit samme_one_class))
      = Ok (incorrect, estimator_error)
    /\ n_classes_
         (fst (discrete_member 0 X3 y_one_class thirds
                 (clear_fit samme_one_class))) = Some 1%nat
    /\ 1 - 1 / Qnat 1 <= estimator_error
    /\ snd (fit_loop (clf_boost toy_ln toy_exp) 3 0 X3 y_one_class thirds
              (clear_fit samme_one_class)) = Ok (ZeroError 0)
    /\ estimators_
         (fst (fit_loop (clf_boost toy_ln toy_exp) 3 0 X3 y_one_class thirds
                 (clear_fit samme_one_class))) = [one_class_stump].
Proof.
  eexists. eexists.
  split; [vm_compute; reflexivity|].
  split; [vm_compute; reflexivity|].
  split; [vm_compute; discriminate|].
  split; vm_compute; reflexivity.
Qed.

(** * Further properties of the module *)

(** ** Rejected configurations *)

(** X1.  A classifier fit that is refused for its configuration (a base
    estimator that is no classifier, an algorithm other than SAMME and
    SAMME.R, SAMME.R over a base estimator without [predict_proba], or a
    learning rate that is not positive) raises a TypeError or a ValueError
    and leaves the object exactly as it was, the previous ensemble
    included; likewise a regressor fit refused for its base estimator, its
    loss or its learning rate. *)
Theorem rejected_configuration_leaves_object_unchanged :
  (forall (Sample Estimator : Type) (WL : WeakLearner Sample Z Estimator)
          (ln exp : Q -> Q) (self : adaboost Z Estimator)
          (X : list Sample) (y : list Z) (sample_weight : option (list Q)),
      is_classifier (base_estimator self) = false
      \/ (String.eqb (algorithm self) "SAMME" = false
          /\ String.eqb (algorithm self) "SAMME.R" = false)
      \/ (String.eqb (algorithm self) "SAMME.R" = true
          /\ has_predict_proba (base_estimator self) = false)
      \/ learning_rate self <= 0 ->
      exists e,
        clf_fit ln exp X y sample_weight self = (self, Raise e)
        /\ (e = TypeError \/ e = ValueError))
  /\ (forall (Sample Estimator : Type) (WL : WeakLearner Sample Q Estimator)
             (ln exp : Q -> Q) (power : Q -> Q -> Q)
             (random_sample : nat -> nat -> list Q)
             (self : adaboost Q Estimator)
             (X : list Sample) (y : list Q) (sample_weight : option (list Q)),
         is_regressor (base_estimator self) = false
         \/ (String.eqb (loss self) "linear" = false
             /\ String.eqb (loss self) "square" = false
             /\ String.eqb (loss self) "exponential" = false)
         \/ learning_rate self <= 0 ->
         exists e,
           reg_fit ln exp power random_sample X y sample_weight self
           = (self, Raise e)
           /\ (e = TypeError \/ e = ValueError)).
Proof.
  split.
  - intros Sample Estimator WL ln exp self X y sw H.
    unfold clf_fit, bind, get, raise.
    destruct (is_classifier (base_estimator self)) eqn:Hc; simpl;
      [|eauto].
    destruct (String.eqb (algorithm self) "SAMME") eqn:Ha,
             (String.eqb (algorithm self) "SAMME.R") eqn:Hr; simpl;
      try (destruct (has_predict_proba (base_estimator self)) eqn:Hp; simpl);
      eauto;
      destruct H as [H|[[H1 H2]|[[H1 H2]|H]]]; try congruence;
      unfold base_fit, bind, get, raise;
      rewrite (Qle_bool_true _ _ H); eauto.
  - intros Sample Estimator WL ln exp power random_sample self X y sw H.
    unfold reg_fit, bind, get, raise.
    destruct (is_regressor (base_estimator self)) eqn:Hc; simpl;
      [|eauto].
    destruct (String.eqb (loss self) "linear") eqn:Hl,
             (String.eqb (loss self) "square") eqn:Hs,
             (String.eqb (loss self) "exponential") eqn:He; simpl;
      eauto;
      destruct H as [H|[[H1 [H2 H3]]|H]]; try congruence;
      unfold base_fit, bind, get, raise;
      rewrite (Qle_bool_true _ _ H); eauto.
Qed.

Lemma rejected_configuration_leaves_object_unchanged_witness :
  exists e,
    clf_fit toy_ln toy_exp X3 y3 None samme_r_hard = (samme_r_hard, Raise e)
    /\ (e = TypeError \/ e = ValueError).
Proof.
  apply (proj1 rejected_configuration_leaves_object_unchanged _ _ _
           toy_ln toy_exp samme_r_hard X3 y3 None).
  right. right. left. split; reflexivity.
Defined.

(** ** Recording a pass *)

Lemma set_item_in_range {A} (l : list A) (i : nat) (v : A) :
  (i < List.length l)%nat ->
  exists l', set_item l i v = Ok l'
             /\ List.length l' = List.length l
             /\ nth_error l' i = Some v
             /\ forall j, j <> i -> nth_error l' j = nth_error l j.
Proof.
  revert i. induction l as [|a l IH]; intros i Hi; simpl in Hi; [lia|].
  destruct i as [|i].
  - exists (v :: l). repeat split. intros [|j] Hj; [congruence|reflexivity].
  - destruct (IH i) as (l' & Hset & Hlen & Hnth & Hother); [lia|].
    exists (a :: l'). simpl. rewrite Hset. simpl.
    repeat split; [now rewrite Hlen|exact Hnth|].
    intros [|j] Hj; [reflexivity|]. simpl. apply Hother. congruence.
Qed.

Lemma set_item_length {A} (l l' : list A) (i : nat) (v : A) :
  set_item l i v = Ok l' -> List.length l' = List.length l.
Proof.
  revert i l'. induction l as [|a l IH]; intros i l' H; simpl in H;
    [discriminate|].
  destruct i as [|i]; [inversion H; reflexivity|].
  destruct (set_item l i v) as [t|e] eqn:Ht; [|discriminate].
  simpl in H. inversion H; subst. simpl. now rewrite (IH _ _ Ht).
Qed.

Section ZeroError.
Context {Sample Target Estimator : Type}.
Context {WL : WeakLearner Sample Target Estimator}.
Variable _boost : nat -> list Sample -> list Target -> list Q ->
                  M (adaboost Target Estimator) (option (list Q * Q * Q)).

(** Lines 128-133: a pass whose booster reports the error 0 is recorded,
    and then the loop ends. *)
Lemma fit_loop_zero_error (remaining iboost : nat) (X : list Sample)
    (y : list Target) (sw sw1 : list Q) (ew ee : Q)
    (s s1 : adaboost Target Estimator) (w er : list Q) :
  _boost iboost X y sw s = (s1, Ok (Some (sw1, ew, ee))) ->
  ee == 0 ->
  estimator_weights_ s1 = Some w ->
  estimator_errors_ s1 = Some er ->
  (iboost < List.length w)%nat ->
  (iboost < List.length er)%nat ->
  exists s' w' er',
    fit_loop _boost (S remaining) iboost X y sw s
      = (s', Ok (ZeroError iboost))
    /\ estimators_ s' = estimators_ s1
    /\ estimator_weights_ s' = Some w' /\ nth_error w' iboost = Some ew
    /\ estimator_errors_ s' = Some er' /\ nth_error er' iboost = Some ee.
Proof.
  intros Hb Hzero Hw He Hiw Hie.
  destruct (set_item_in_range w iboost ew Hiw) as (w' & Hsw & _ & Hnw & _).
  destruct (set_item_in_range er iboost ee Hie) as (er' & Hse & _ & Hne & _).
  exists (set_estimator_errors (Some er')
            (set_estimator_weights (Some w') s1)), w', er'.
  split; [|simpl; auto].
  cbn [fit_loop]. unfold fit_iteration, bind. rewrite Hb.
  unfold store_weight. rewrite Hw, Hsw.
  unfold store_error. simpl. rewrite He, Hse.
  apply Qeq_bool_iff in Hzero. rewrite Hzero. reflexivity.
Qed.
End ZeroError.

(** X2.  Perfect fit under SAMME: a pass whose member has a weighted error
    of 0 or less keeps the member, records the estimator weight 1 and the
    error 0 for it, and ends the loop, whatever number of iterations is
    left. *)
Theorem samme_perfect_fit_is_recorded_and_stops
    {Sample Estimator : Type} {WL : WeakLearner Sample Z Estimator}
    (ln exp : Q -> Q) (remaining iboost : nat)
    (X : list Sample) (y : list Z) (sample_weight : list Q)
    (self self1 : adaboost Z Estimator)
    (incorrect : list bool) (estimator_error : Q) (w er : list Q) :
  String.eqb (algorithm self) "SAMME.R" = false ->
  discrete_member iboost X y sample_weight self
    = (self1, Ok (incorrect, estimator_error)) ->
  estimator_error <= 0 ->
  estimator_weights_ self = Some w ->
  estimator_errors_ self = Some er ->
  (iboost < List.length w)%nat ->
  (iboost < List.length er)%nat ->
  exists self' w' er',
    fit_loop (clf_boost ln exp) (S remaining) iboost X y sample_weight self
      = (self', Ok (ZeroError iboost))
    /\ estimators_ self' = estimators_ self1
    /\ List.length (estimators_ self') = S (List.length (estimators_ self))
    /\ estimator_weights_ self' = Some w' /\ nth_error w' iboost = Some 1
    /\ estimator_errors_ self' = Some er' /\ nth_error er' iboost = Some 0.
Proof.
  intros Halg Hmember Hperfect Hw He Hiw Hie.
  destruct (discrete_member_fields _ _ _ _ _ _ _ Hmember)
    as (_ & Hw1 & He1 & e & Hes).
  assert (Hb : clf_boost ln exp iboost X y sample_weight self
               = (self1, Ok (Some (sample_weight, 1, 0)))).
  { unfold clf_boost. rewrite Halg. unfold _boost_discrete, bind.
    rewrite Hmember. simpl. rewrite (Qle_bool_true _ _ Hperfect).
    reflexivity. }
  rewrite <- Hw1 in Hw. rewrite <- He1 in He.
  destruct (fit_loop_zero_error (clf_boost ln exp) remaining _ _ _ _ _ _ _
              _ _ _ _ Hb (Qeq_refl 0) Hw He Hiw Hie)
    as (s' & w' & er' & Hloop & Hes' & Hrest).
  exists s', w', er'. split; [exact Hloop|]. split; [exact Hes'|].
  split; [|exact Hrest].
  rewrite Hes', Hes, length_app. simpl. lia.
Qed.

Lemma samme_perfect_fit_is_recorded_and_stops_witness :
  exists self' w' er',
    fit_loop (clf_boost toy_ln toy_exp) 3 0 X3 y_one_class thirds
      (clear_fit samme3) = (self', Ok (ZeroError 0))
    /\ estimators_ self'
       = estimators_ (fst (discrete_member 0 X3 y_one_class thirds
                             (clear_fit samme3)))
    /\ List.length (estimators_ self')
       = S (List.length (estimators_ (clear_fit samme3)))
    /\ estimator_weights_ self' = Some w' /\ nth_error w' 0 = Some 1
    /\ estimator_errors_ self' = Some er' /\ nth_error er' 0 = Some 0.
Proof.
  apply (@samme_perfect_fit_is_recorded_and_stops _ _ _ toy_ln toy_exp
           2 0%nat X3 y_one_class thirds (clear_fit samme3)
           (fst (discrete_member 0 X3 y_one_class thirds (clear_fit samme3)))
           [false; false; false] (0 # 729) [0; 0; 0] [1; 1; 1]).
  - reflexivity.
  - vm_compute. reflexivity.
  - apply Qle_bool_iff. vm_compute. reflexivity.
  - reflexivity.
  - reflexivity.
  - simpl. lia.
  - simpl. lia.
Defined.

(** X3.  Perfect fit in regression: a pass whose average loss is 0 or less
    keeps the member, records the estimator weight 1 and the error 0 for
    it, and ends the loop. *)
Theorem regression_perfect_fit_is_recorded_and_stops
    {Sample Estimator : Type} {WL : WeakLearner Sample Q Estimator}
    (ln exp : Q -> Q) (power : Q -> Q -> Q)
    (random_sample : nat -> nat -> list Q) (remaining iboost : nat)
    (X : list Sample) (y : list Q) (sample_weight : list Q)
    (self self1 : adaboost Q Estimator)
    (error_vect : list Q) (estimator_error : Q) (w er : list Q) :
  reg_member exp random_sample iboost X y sample_weight self
    = (self1, Ok (error_vect, estimator_error)) ->
  estimator_error <= 0 ->
  estimator_weights_ self = Some w ->
  estimator_errors_ self = Some er ->
  (iboost < List.length w)%nat ->
  (iboost < List.length er)%nat ->
  exists self' w' er',
    fit_loop (reg_boost ln exp power random_sample) (S remaining) iboost
      X y sample_weight self = (self', Ok (ZeroError iboost))
    /\ estimators_ self' = estimators_ self1
    /\ List.length (estimators_ self') = S (List.length (estimators_ self))
    /\ estimator_weights_ self' = Some w' /\ nth_error w' iboost = Some 1
    /\ estimator_errors_ self' = Some er' /\ nth_error er' iboost = Some 0.
Proof.
  intros Hmember Hperfect Hw He Hiw Hie.
  destruct (reg_member_fields _ _ _ _ _ _ _ _ _ Hmember)
    as (_ & Hw1 & He1 & e & Hes).
  assert (Hb : reg_boost ln exp power random_sample iboost X y
                 sample_weight self
               = (self1, Ok (Some (sample_weight, 1, 0)))).
  { unfold reg_boost, bind. rewrite Hmember. simpl.
    rewrite (Qle_bool_true _ _ Hperfect). reflexivity. }
  rewrite <- Hw1 in Hw. rewrite <- He1 in He.
  destruct (fit_loop_zero_error (reg_boost ln exp power random_sample)
              remaining _ _ _ _ _ _ _ _ _ _ _ Hb (Qeq_refl 0) Hw He Hiw Hie)
    as (s' & w' & er' & Hloop & Hes' & Hrest).
  exists s', w', er'. split; [exact Hloop|]. split; [exact Hes'|].
  split; [|exact Hrest].
  rewrite Hes', Hes, length_app. simpl. lia.
Qed.

Lemma regression_perfect_fit_is_recorded_and_stops_witness :
  exists self' w' er',
    fit_loop (reg_boost toy_ln toy_exp toy_power toy_draws) 1 0
      X2 y2_zero halves (clear_fit r2_one) = (self', Ok (ZeroError 0))
    /\ estimators_ self'
       = estimators_ (fst (reg_member toy_exp toy_draws 0 X2 y2_zero halves
                             (clear_fit r2_one)))
    /\ List.length (estimators_ self')
       = S (List.length (estimators_ (clear_fit r2_one)))
    /\ estimator_weights_ self' = Some w' /\ nth_error w' 0 = Some 1
    /\ estimator_errors_ self' = Some er' /\ nth_error er' 0 = Some 0.
Proof.
  apply (@regression_perfect_fit_is_recorded_and_stops _ _ _
           toy_ln toy_exp toy_power toy_draws 0 0%nat X2 y2_zero halves
           (clear_fit r2_one)
           (fst (reg_member toy_exp toy_draws 0 X2 y2_zero halves
                   (clear_fit r2_one)))
           [0; 0] (0 # 4) [0] [1]).
  - vm_compute. reflexivity.
  - apply Qle_bool_iff. vm_compute. reflexivity.
  - reflexivity.
  - reflexivity.
  - simpl. lia.
  - simpl. lia.
Defined.


(** ** The size of a fitted ensemble *)

Section LoopExit.
Context {Sample Target Estimator : Type}.
Context {WL : WeakLearner Sample Target Estimator}.
Variable _boost : nat -> list Sample -> list Target -> list Q ->
                  M (adaboost Target Estimator) (option (list Q * Q * Q)).

(** An exit other than exhaustion names a pass the loop has run. *)
Lemma fit_loop_exit_index (remaining iboost : nat) (X : list Sample)
    (y : list Target) (sw : list Q) (s s' : adaboost Target Estimator)
    (why : loop_exit) :
  fit_loop _boost remaining iboost X y sw s = (s', Ok why) ->
  match why with
  | Exhausted => True
  | Sentinel j | ZeroError j | NonPositiveSum j =>
      (iboost <= j < iboost + remaining)%nat
  end.
Proof.
  revert iboost sw s.
  induction remaining as [|remaining IH]; intros iboost sw s H.
  - simpl in H. unfold ret in H. inversion H; subst. exact I.
  - cbn [fit_loop] in H. unfold bind in H.
    destruct (fit_iteration _boost iboost X y sw s) as [s2 [st|e]] eqn:Hit;
      [|discriminate].
    destruct (fit_iteration_inv _ _ _ _ _ _ _ _ Hit)
      as (s1 & out & _ & _ & Hst).
    destruct st as [sw'|why'].
    + apply IH in H. destruct why; try exact I; lia.
    + unfold ret in H. inversion H; subst.
      destruct why as [|j|j|j]; [exact I|..]; destruct Hst as [-> _]; lia.
Qed.

Variable kept : nat -> nat.

Hypothesis boost_count :
  forall iboost X y sw s s1 out,
    _boost iboost X y sw s = (s1, Ok out) ->
    List.length (estimators_ s1)
    = match out with
      | Some _ => S (List.length (estimators_ s))
      | None => kept (List.length (estimators_ s))
      end.

(** The member count of a run whose rejected pass leaves [kept k] members
    of the [k] it started with. *)
Lemma fit_loop_member_count_kept (remaining iboost : nat) (X : list Sample)
    (y : list Target) (sw : list Q) (s s' : adaboost Target Estimator)
    (why : loop_exit) :
  List.length (estimators_ s) = iboost ->
  fit_loop _boost remaining iboost X y sw s = (s', Ok why) ->
  List.length (estimators_ s')
  = match why with
    | Exhausted => (iboost + remaining)%nat
    | Sentinel j => kept j
    | ZeroError j => S j
    | NonPositiveSum j => S j
    end.
Proof.
  revert iboost sw s.
  induction remaining as [|remaining IH]; intros iboost sw s Hlen H.
  - simpl in H. unfold ret in H. inversion H; subst. lia.
  - cbn [fit_loop] in H. unfold bind in H.
    destruct (fit_iteration _boost iboost X y sw s) as [s2 [st|e]] eqn:Hit;
      [|discriminate].
    destruct (fit_iteration_inv _ _ _ _ _ _ _ _ Hit)
      as (s1 & out & Hb & Hes & Hst).
    apply boost_count in Hb.
    destruct st as [sw'|why'].
    + destruct out as [o|]; [|congruence].
      assert (Hlen2 : List.length (estimators_ s2) = S iboost)
        by (rewrite Hes, Hb, Hlen; reflexivity).
      rewrite (IH (S iboost) sw' s2 Hlen2 H).
      destruct why; lia.
    + unfold ret in H. inversion H; subst.
      rewrite Hes, Hb.
      destruct why as [|j|j|j]; [destruct Hst|..];
        destruct Hst as [-> Hout]; destruct out as [o|]; congruence.
Qed.
End LoopExit.

Section FitChecks.
Context {Sample Target Estimator : Type}.
Context {WL : WeakLearner Sample Target Estimator}.

(** A [base_fit] that returns has passed the checks of its arguments. *)
Lemma base_fit_ok_checks
    (_boost : nat -> list Sample -> list Target -> list Q ->
              M (adaboost Target Estimator) (option (list Q * Q * Q)))
    (X : list Sample) (y : list Target) (sample_weight : option (list Q))
    (s sf : adaboost Target Estimator) (why : loop_exit) :
  base_fit _boost X y sample_weight s = (sf, Ok why) ->
  0 < learning_rate s
  /\ exists sw0, initial_sample_weight X sample_weight = Ok sw0.
Proof.
  intro H. unfold base_fit, bind, get in H.
  destruct (Qle_bool (learning_rate s) 0) eqn:E; [discriminate|].
  split; [now apply Qle_bool_false_lt|].
  unfold modify, lift in H.
  destruct (initial_sample_weight X sample_weight); [eauto|discriminate].
Qed.

Lemma clear_fit_fields (s : adaboost Target Estimator) :
  estimators_ (clear_fit (enable_importances s)) = []
  /\ estimator_weights_ (clear_fit (enable_importances s))
     = Some (repeat 0 (n_estimators s))
  /\ estimator_errors_ (clear_fit (enable_importances s))
     = Some (repeat 1 (n_estimators s))
  /\ n_estimators (clear_fit (enable_importances s)) = n_estimators s.
Proof.
  unfold clear_fit, enable_importances.
  destruct (compute_importances s); simpl; auto.
Qed.
End FitChecks.

Lemma clf_fit_ok_is_base_fit {Sample Estimator : Type}
    {WL : WeakLearner Sample Z Estimator} (ln exp : Q -> Q)
    (X : list Sample) (y : list Z) (sample_weight : option (list Q))
    (s sf : adaboost Z Estimator) (why : loop_exit) :
  clf_fit ln exp X y sample_weight s = (sf, Ok why) ->
  base_fit (clf_boost ln exp) X y sample_weight s = (sf, Ok why).
Proof.
  unfold clf_fit, bind, get.
  destruct (negb (is_classifier (base_estimator s))); [discriminate|].
  destruct (negb _ && negb _); [discriminate|].
  destruct (_ && negb _); [discriminate|].
  auto.
Qed.

Lemma reg_fit_ok_is_base_fit {Sample Estimator : Type}
    {WL : WeakLearner Sample Q Estimator} (ln exp : Q -> Q)
    (power : Q -> Q -> Q) (random_sample : nat -> nat -> list Q)
    (X : list Sample) (y : list Q) (sample_weight : option (list Q))
    (s sf : adaboost Q Estimator) (why : loop_exit) :
  reg_fit ln exp power random_sample X y sample_weight s = (sf, Ok why) ->
  base_fit (reg_boost ln exp power random_sample) X y sample_weight s
  = (sf, Ok why).
Proof.
  unfold reg_fit, bind, get.
  destruct (negb (is_regressor (base_estimator s))); [discriminate|].
  destruct (negb _); [discriminate|].
  auto.
Qed.

(** X4.  The exit of a classifier fit tells the size of its ensemble:
    [n_estimators] members when every iteration ran, [i + 1] when the loop
    stopped at pass [i] on a zero error or a non-positive weight sum, and
    [i] when pass [i] was rejected; never more than [n_estimators]. *)
Theorem classifier_fit_member_count
    {Sample Estimator : Type} {WL : WeakLearner Sample Z Estimator}
    (ln exp : Q -> Q) (X : list Sample) (y : list Z)
    (sample_weight : option (list Q))
    (self selff : adaboost Z Estimator) (why : loop_exit) :
  clf_fit ln exp X y sample_weight self = (selff, Ok why) ->
  List.length (estimators_ selff)
  = match why with
    | Exhausted => n_estimators self
    | Sentinel i => i
    | ZeroError i => S i
    | NonPositiveSum i => S i
    end
  /\ (List.length (estimators_ selff) <= n_estimators self)%nat.
Proof.
  intro H. apply clf_fit_ok_is_base_fit in H.
  destruct (base_fit_ok_checks _ _ _ _ _ _ _ H) as (Hrate & sw0 & Hsw).
  destruct (base_fit_fields _ _ _ _ _ _ _ _ Hrate Hsw H)
    as (sl & rl & Hloop & Hes & _ & _ & Hrl).
  rewrite (Hrl _ eq_refl) in Hloop. rewrite Hes.
  destruct (clear_fit_fields self) as (Hnil & _).
  assert (Hcount := fit_loop_member_count (clf_boost ln exp)
                      (clf_boost_appends_one ln exp)
                      (n_estimators self) 0 X y sw0
                      (clear_fit (enable_importances self)) sl why
                      (f_equal (@List.length _) Hnil) Hloop).
  assert (Hindex := fit_loop_exit_index _ _ _ _ _ _ _ _ _ Hloop).
  rewrite Hcount. destruct why; simpl in *; split; lia.
Qed.

Lemma classifier_fit_member_count_witness :
  List.length (estimators_ (fst (clf_fit toy_ln toy_exp X3 y3 None samme3)))
  = 1%nat
  /\ (List.length
        (estimators_ (fst (clf_fit toy_ln toy_exp X3 y3 None samme3)))
      <= n_estimators samme3)%nat.
Proof.
  apply (@classifier_fit_member_count _ _ _ toy_ln toy_exp X3 y3 None samme3
           (fst (clf_fit toy_ln toy_exp X3 y3 None samme3)) (Sentinel 1)).
  vm_compute. reflexivity.
Defined.

Lemma reg_boost_count {Sample Estimator : Type}
    {WL : WeakLearner Sample Q Estimator} (ln exp : Q -> Q)
    (power : Q -> Q -> Q) (random_sample : nat -> nat -> list Q)
    (iboost : nat) (X : list Sample) (y : list Q) (sw : list Q)
    (s s1 : adaboost Q Estimator) (out : option (list Q * Q * Q)) :
  reg_boost ln exp power random_sample iboost X y sw s = (s1, Ok out) ->
  List.length (estimators_ s1)
  = match out with
    | Some _ => S (List.length (estimators_ s))
    | None => Nat.max 1 (List.length (estimators_ s))
    end.
Proof.
  unfold reg_boost, bind. intro H.
  destruct (reg_member exp random_sample iboost X y sw s)
    as [sa [[ev err]|ex]] eqn:Hmember; [|discriminate].
  destruct (reg_member_fields _ _ _ _ _ _ _ _ _ Hmember)
    as (_ & _ & _ & e & Hes).
  assert (Hsa : List.length (estimators_ sa) = S (List.length (estimators_ s)))
    by (rewrite Hes, length_app; simpl; lia).
  simpl in H.
  destruct (Qle_bool err 0);
    [unfold ret in H; inversion H; subst; exact Hsa|].
  destruct (Qle_bool (1 # 2) err).
  - destruct (discard_unless_only sa) as [sb r] eqn:Hd.
    destruct (discard_unless_only_fields _ _ _ Hd)
      as (-> & _ & _ & _ & Hes').
    unfold ret in H. inversion H; subst. rewrite Hes'.
    destruct (1 <? List.length (estimators_ sa))%nat eqn:Hlen.
    + apply Nat.ltb_lt in Hlen. rewrite Hes, removelast_last. lia.
    + apply Nat.ltb_ge in Hlen. lia.
  - unfold get, ret in H. inversion H; subst. exact Hsa.
Qed.

(** X5.  The exit of a regressor fit tells the size of its ensemble as for
    the classifier, except that a rejected first pass leaves its member:
    a fit with [n_estimators > 0] that returns has between 1 and
    [n_estimators] members. *)
Theorem regressor_fit_member_count
    {Sample Estimator : Type} {WL : WeakLearner Sample Q Estimator}
    (ln exp : Q -> Q) (power : Q -> Q -> Q)
    (random_sample : nat -> nat -> list Q) (X : list Sample) (y : list Q)
    (sample_weight : option (list Q))
    (self selff : adaboost Q Estimator) (why : loop_exit) :
  (0 < n_estimators self)%nat ->
  reg_fit ln exp power random_sample X y sample_weight self
    = (selff, Ok why) ->
  List.length (estimators_ selff)
  = match why with
    | Exhausted => n_estimators self
    | Sentinel i => Nat.max 1 i
    | ZeroError i => S i
    | NonPositiveSum i => S i
    end
  /\ (1 <= List.length (estimators_ selff) <= n_estimators self)%nat.
Proof.
  intros Hn H. apply reg_fit_ok_is_base_fit in H.
  destruct (base_fit_ok_checks _ _ _ _ _ _ _ H) as (Hrate & sw0 & Hsw).
  destruct (base_fit_fields _ _ _ _ _ _ _ _ Hrate Hsw H)
    as (sl & rl & Hloop & Hes & _ & _ & Hrl).
  rewrite (Hrl _ eq_refl) in Hloop. rewrite Hes.
  destruct (clear_fit_fields self) as (Hnil & _).
  assert (Hcount := fit_loop_member_count_kept
                      (reg_boost ln exp power random_sample) (Nat.max 1)
                      (reg_boost_count ln exp power random_sample)
                      (n_estimators self) 0 X y sw0
                      (clear_fit (enable_importances self)) sl why
                      (f_equal (@List.length _) Hnil) Hloop).
  assert (Hindex := fit_loop_exit_index _ _ _ _ _ _ _ _ _ Hloop).
  rewrite Hcount. destruct why; cbv beta iota in *; split; lia.
Qed.

Lemma regressor_fit_member_count_witness :
  List.length
    (estimators_
       (fst (reg_fit toy_ln toy_exp toy_power toy_draws X2 y2 None r2_one)))
  = Nat.max 1 0
  /\ (1 <= List.length
             (estimators_
                (fst (reg_fit toy_ln toy_exp toy_power toy_draws X2 y2 None
                        r2_one)))
      <= n_estimators r2_one)%nat.
Proof.
  apply (@regressor_fit_member_count _ _ _ toy_ln toy_exp toy_power
           toy_draws X2 y2 None r2_one
           (fst (reg_fit toy_ln toy_exp toy_power toy_draws X2 y2 None
                   r2_one)) (Sentinel 0)).
  - vm_compute. lia.
  - vm_compute. reflexivity.
Defined.

(** ** The recording arrays *)

Section LoopArrays.
Context {Sample Target Estimator : Type}.
Context {WL : WeakLearner Sample Target Estimator}.
Variable _boost : nat -> list Sample -> list Target -> list Q ->
                  M (adaboost Target Estimator) (option (list Q * Q * Q)).

Hypothesis boost_keeps_arrays :
  forall iboost X y sw s s1 r,
    _boost iboost X y sw s = (s1, r) ->
    estimator_weights_ s1 = estimator_weights_ s
    /\ estimator_errors_ s1 = estimator_errors_ s.

Lemma store_weight_arrays (n i : nat) (v : Q)
    (s s' : adaboost Target Estimator) (r : result unit) :
  store_weight i v s = (s', r) -> recorded_arrays n s -> recorded_arrays n s'.
Proof.
  unfold store_weight. intros H (w & er & Hw & He & Hlw & Hle).
  rewrite Hw in H.
  destruct (set_item w i v) as [w'|e] eqn:Hset; inversion H; subst.
  - exists w', er. simpl. rewrite (set_item_length _ _ _ _ Hset). auto.
  - exists w, er. auto.
Qed.

Lemma store_error_arrays (n i : nat) (v : Q)
    (s s' : adaboost Target Estimator) (r : result unit) :
  store_error i v s = (s', r) -> recorded_arrays n s -> recorded_arrays n s'.
Proof.
  unfold store_error. intros H (w & er & Hw & He & Hlw & Hle).
  rewrite He in H.
  destruct (set_item er i v) as [er'|e] eqn:Hset; inversion H; subst.
  - exists w, er'. simpl. rewrite (set_item_length _ _ _ _ Hset). auto.
  - exists w, er. auto.
Qed.

Lemma fit_iteration_arrays (n iboost : nat) (X : list Sample)
    (y : list Target) (sw : list Q) (s s' : adaboost Target Estimator)
    (r : result step) :
  fit_iteration _boost iboost X y sw s = (s', r) ->
  recorded_arrays n s -> recorded_arrays n s'.
Proof.
  unfold fit_iteration, bind. intros H Harr.
  destruct (_boost iboost X y sw s) as [s1 rb] eqn:Hb.
  apply boost_keeps_arrays in Hb. destruct Hb as [Hw1 He1].
  assert (Harr1 : recorded_arrays n s1).
  { destruct Harr as (w & er & Hw & He & Hl). exists w, er.
    rewrite Hw1, He1. auto. }
  destruct rb as [[[[sw1 ew] ee]|]|e];
    [|inversion H; subst; exact Harr1..].
  destruct (store_weight iboost ew s1) as [s2 r2] eqn:Hsw.
  apply (store_weight_arrays n) in Hsw; [|exact Harr1].
  destruct r2 as [[]|e]; [|inversion H; subst; exact Hsw].
  destruct (store_error iboost ee s2) as [s3 r3] eqn:Hse.
  apply (store_error_arrays n) in Hse; [|exact Hsw].
  destruct r3 as [[]|e]; [|inversion H; subst; exact Hse].
  unfold get, ret in H.
  destruct (Qeq_bool ee 0); [inversion H; subst; exact Hse|].
  destruct (Qle_bool (qsum sw1) 0); [inversion H; subst; exact Hse|].
  destruct (iboost <? n_estimators s3 - 1)%nat;
    inversion H; subst; exact Hse.
Qed.

Lemma fit_loop_arrays (n remaining iboost : nat) (X : list Sample)
    (y : list Target) (sw : list Q) (s s' : adaboost Target Estimator)
    (r : result loop_exit) :
  fit_loop _boost remaining iboost X y sw s = (s', r) ->
  recorded_arrays n s -> recorded_arrays n s'.
Proof.
  revert iboost sw s.
  induction remaining as [|remaining IH]; intros iboost sw s H Harr.
  - simpl in H. unfold ret in H. inversion H; subst. exact Harr.
  - cbn [fit_loop] in H. unfold bind in H.
    destruct (fit_iteration _boost iboost X y sw s) as [s2 r2] eqn:Hit.
    apply (fit_iteration_arrays n) in Hit; [|exact Harr].
    destruct r2 as [[sw'|why]|e]; [|inversion H; subst; exact Hit..].
    apply (IH _ _ _ H Hit).
Qed.

(** After a [base_fit] that got past the checks of its arguments, however
    it ended, both arrays hold [n_estimators] entries. *)
Lemma base_fit_arrays (X : list Sample) (y : list Target)
    (sample_weight : option (list Q)) (sw0 : list Q)
    (s sf : adaboost Target Estimator) (r : result loop_exit) :
  0 < learning_rate s ->
  initial_sample_weight X sample_weight = Ok sw0 ->
  base_fit _boost X y sample_weight s = (sf, r) ->
  recorded_arrays (n_estimators s) sf.
Proof.
  intros Hrate Hsw H.
  destruct (base_fit_fields _ _ _ _ _ _ _ _ Hrate Hsw H)
    as (sl & rl & Hloop & _ & Hw & He & _).
  apply (fit_loop_arrays (n_estimators s)) in Hloop.
  - destruct Hloop as (w & er & Hw' & He' & Hl). exists w, er.
    rewrite Hw, He. auto.
  - destruct (clear_fit_fields s) as (_ & Hw0 & He0 & _).
    exists (repeat 0 (n_estimators s)), (repeat 1 (n_estimators s)).
    rewrite !repeat_length. auto.
Qed.
End LoopArrays.

Section BoostArrays.
Context {Sample Estimator : Type}.

Lemma boost_discrete_keeps_arrays {WL : WeakLearner Sample Z Estimator}
    (ln exp : Q -> Q) (iboost : nat) (X : list Sample) (y : list Z)
    (sw : list Q) (s s1 : adaboost Z Estimator)
    (r : result (option (list Q * Q * Q))) :
  _boost_discrete ln exp iboost X y sw s = (s1, r) ->
  estimator_weights_ s1 = estimator_weights_ s
  /\ estimator_errors_ s1 = estimator_errors_ s.
Proof.
  unfold _boost_discrete, bind. intro H.
  destruct (discrete_member iboost X y sw s) as [sa ra] eqn:Hm.
  destruct (discrete_member_fields _ _ _ _ _ _ _ Hm) as (_ & Hw & He & _).
  destruct ra as [[inc err]|ex]; [|inversion H; subst; auto].
  simpl in H.
  destruct (Qle_bool err 0); [unfold ret in H; inversion H; subst; auto|].
  unfold read_n_classes in H.
  destruct (n_classes_ sa) as [K|]; [|inversion H; subst; auto].
  destruct (K =? 0)%nat; [unfold raise in H; inversion H; subst; auto|].
  destruct (Qle_bool (1 - 1 / Qnat K) err).
  - unfold pop_last, modify, ret in H. inversion H; subst. simpl. auto.
  - unfold get, ret in H. inversion H; subst. auto.
Qed.

Lemma boost_real_keeps_arrays {WL : WeakLearner Sample Z Estimator}
    (ln exp : Q -> Q) (iboost : nat) (X : list Sample) (y : list Z)
    (sw : list Q) (s s1 : adaboost Z Estimator)
    (r : result (option (list Q * Q * Q))) :
  _boost_real ln exp iboost X y sw s = (s1, r) ->
  estimator_weights_ s1 = estimator_weights_ s
  /\ estimator_errors_ s1 = estimator_errors_ s.
Proof.
  unfold _boost_real, bind, lift. intro H.
  destruct (_make_estimator s) as [sa [e|ex]] eqn:Hm;
    [|unfold _make_estimator in Hm; discriminate].
  destruct (train e X y (Some sw) sa) as [sb rb] eqn:Ht.
  destruct (make_then_train _ _ _ _ _ _ _ e _ Hm Ht)
    as (_ & Hw & He & _).
  destruct rb as [e'|ex]; [|inversion H; subst; auto].
  destruct (est_predict_proba e' X) as [proba|ex];
    [|inversion H; subst; auto].
  destruct (set_classes_from iboost e' sb) as [sc rc] eqn:Hc.
  apply set_classes_from_fields in Hc. destruct Hc as (_ & _ & Hw' & He').
  assert (Hsc : estimator_weights_ sc = estimator_weights_ s
                /\ estimator_errors_ sc = estimator_errors_ s)
    by (split; congruence).
  destruct rc as [[]|ex]; [|inversion H; subst; exact Hsc].
  unfold read_classes, read_n_classes, get, ret, raise in H.
  destruct (classes_ sc) as [classes|] eqn:Hcl;
    [|inversion H; subst; exact Hsc].
  destruct (take classes _) as [y_predict|ex];
    [|inversion H; subst; exact Hsc].
  destruct (average _ sw) as [err|ex]; [|inversion H; subst; exact Hsc].
  destruct (Qle_bool err 0); [inversion H; subst; exact Hsc|].
  destruct (n_classes_ sc) as [K|]; [|inversion H; subst; exact Hsc].
  cbv beta iota zeta in H. rewrite Hcl in H.
  destruct (K =? 1)%nat; [inversion H; subst; exact Hsc|].
  destruct (K =? 0)%nat; inversion H; subst; exact Hsc.
Qed.

Lemma clf_boost_keeps_arrays {WL : WeakLearner Sample Z Estimator}
    (ln exp : Q -> Q) (iboost : nat) (X : list Sample) (y : list Z)
    (sw : list Q) (s s1 : adaboost Z Estimator)
    (r : result (option (list Q * Q * Q))) :
  clf_boost ln exp iboost X y sw s = (s1, r) ->
  estimator_weights_ s1 = estimator_weights_ s
  /\ estimator_errors_ s1 = estimator_errors_ s.
Proof.
  unfold clf_boost. destruct (String.eqb (algorithm s) "SAMME.R").
  - apply boost_real_keeps_arrays.
  - apply boost_discrete_keeps_arrays.
Qed.

Lemma reg_boost_keeps_arrays {WL : WeakLearner Sample Q Estimator}
    (ln exp : Q -> Q) (power : Q -> Q -> Q)
    (random_sample : nat -> nat -> list Q)
    (iboost : nat) (X : list Sample) (y : list Q)
    (sw : list Q) (s s1 : adaboost Q Estimator)
    (r : result (option (list Q * Q * Q))) :
  reg_boost ln exp power random_sample iboost X y sw s = (s1, r) ->
  estimator_weights_ s1 = estimator_weights_ s
  /\ estimator_errors_ s1 = estimator_errors_ s.
Proof.
  unfold reg_boost, bind. intro H.
  destruct (reg_member exp random_sample iboost X y sw s)
    as [sa ra] eqn:Hmember.
  destruct (reg_member_fields _ _ _ _ _ _ _ _ _ Hmember)
    as (_ & Hw & He & _).
  destruct ra as [[ev err]|ex]; [|inversion H; subst; auto].
  simpl in H.
  destruct (Qle_bool err 0); [unfold ret in H; inversion H; subst; auto|].
  destruct (Qle_bool (1 # 2) err).
  - destruct (discard_unless_only sa) as [sb rd] eqn:Hd.
    destruct (discard_unless_only_fields _ _ _ Hd)
      as (-> & _ & Hw' & He' & _).
    unfold ret in H. inversion H; subst. split; congruence.
  - unfold get, ret in H. inversion H; subst. auto.
Qed.
End BoostArrays.

(** X6.  After a classifier fit or a regressor fit that returns,
    [estimator_weights_] and [estimator_errors_] hold [n_estimators] entries
    each, and there are no more members than that: the
    [zip(estimator_weights_, estimators_)] of the predictors leaves no
    member out. *)
Theorem fitted_arrays_cover_members :
  (forall (Sample Estimator : Type) (WL : WeakLearner Sample Z Estimator)
          (ln exp : Q -> Q) (X : list Sample) (y : list Z)
          (sample_weight : option (list Q))
          (self selff : adaboost Z Estimator) (why : loop_exit),
      clf_fit ln exp X y sample_weight self = (selff, Ok why) ->
      recorded_arrays (n_estimators self) selff
      /\ (List.length (estimators_ selff) <= n_estimators self)%nat)
  /\ (forall (Sample Estimator : Type) (WL : WeakLearner Sample Q Estimator)
             (ln exp : Q -> Q) (power : Q -> Q -> Q)
             (random_sample : nat -> nat -> list Q)
             (X : list Sample) (y : list Q)
             (sample_weight : option (list Q))
             (self selff : adaboost Q Estimator) (why : loop_exit),
         reg_fit ln exp power random_sample X y sample_weight self
           = (selff, Ok why) ->
         recorded_arrays (n_estimators self) selff
         /\ (List.length (estimators_ selff) <= n_estimators self)%nat).
Proof.
  split.
  - intros Sample Estimator WL ln exp X y sw self sf why H.
    apply clf_fit_ok_is_base_fit in H.
    destruct (base_fit_ok_checks _ _ _ _ _ _ _ H) as (Hrate & sw0 & Hsw).
    split.
    + apply (base_fit_arrays (clf_boost ln exp)
               (clf_boost_keeps_arrays ln exp) _ _ _ _ _ _ _ Hrate Hsw H).
    + destruct (base_fit_fields _ _ _ _ _ _ _ _ Hrate Hsw H)
        as (sl & rl & Hloop & Hes & _ & _ & Hrl).
      rewrite (Hrl _ eq_refl) in Hloop. rewrite Hes.
      destruct (clear_fit_fields self) as (Hnil & _).
      assert (Hcount := fit_loop_member_count (clf_boost ln exp)
                          (clf_boost_appends_one ln exp)
                          (n_estimators self) 0 X y sw0
                          (clear_fit (enable_importances self)) sl why
                          (f_equal (@List.length _) Hnil) Hloop).
      assert (Hindex := fit_loop_exit_index _ _ _ _ _ _ _ _ _ Hloop).
      rewrite Hcount. destruct why; cbv beta iota in *; lia.
  - intros Sample Estimator WL ln exp power random_sample X y sw self sf
      why H.
    apply reg_fit_ok_is_base_fit in H.
    destruct (base_fit_ok_checks _ _ _ _ _ _ _ H) as (Hrate & sw0 & Hsw).
    split.
    + apply (base_fit_arrays (reg_boost ln exp power random_sample)
               (reg_boost_keeps_arrays ln exp power random_sample)
               _ _ _ _ _ _ _ Hrate Hsw H).
    + destruct (base_fit_fields _ _ _ _ _ _ _ _ Hrate Hsw H)
        as (sl & rl & Hloop & Hes & _ & _ & Hrl).
      rewrite (Hrl _ eq_refl) in Hloop. rewrite Hes.
      destruct (clear_fit_fields self) as (Hnil & _).
      assert (Hcount := fit_loop_member_count_kept
                          (reg_boost ln exp power random_sample) (Nat.max 1)
                          (reg_boost_count ln exp power random_sample)
                          (n_estimators self) 0 X y sw0
                          (clear_fit (enable_importances self)) sl why
                          (f_equal (@List.length _) Hnil) Hloop).
      assert (Hindex := fit_loop_exit_index _ _ _ _ _ _ _ _ _ Hloop).
      rewrite Hcount. destruct why; cbv beta iota in *; lia.
Qed.

Lemma fitted_arrays_cover_members_witness :
  recorded_arrays (n_estimators samme3)
    (fst (clf_fit toy_ln toy_exp X3 y3 None samme3))
  /\ (List.length
        (estimators_ (fst (clf_fit toy_ln toy_exp X3 y3 None samme3)))
      <= n_estimators samme3)%nat.
Proof.
  apply (proj1 fitted_arrays_cover_members _ _ _ toy_ln toy_exp X3 y3 None
           samme3 (fst (clf_fit toy_ln toy_exp X3 y3 None samme3))
           (Sentinel 1)).
  vm_compute. reflexivity.
Defined.


(** ** Class scores and probabilities *)

Lemma Qnat_succ (n : nat) : Qnat (S n) == Qnat n + 1.
Proof.
  unfold Qnat. rewrite Nat2Z.inj_succ. unfold Z.succ.
  rewrite inject_Z_plus. reflexivity.
Qed.

Lemma qsum_scaled_shift (a c : Q) (l : list Q) :
  qsum (map (fun x => a * (x - c)) l)
  == a * (qsum l - Qnat (List.length l) * c).
Proof.
  induction l as [|x l IH].
  - simpl. unfold Qnat. simpl. ring.
  - cbn [map qsum fold_right List.length]. fold (qsum l).
    fold (qsum (map (fun x => a * (x - c)) l)).
    rewrite IH, Qnat_succ. ring.
Qed.

Lemma Qnat_nonzero (n : nat) : n <> O -> ~ Qnat n == 0.
Proof.
  intros Hn Hz. apply Hn.
  assert (Hz' : inject_Z (Z.of_nat n) == inject_Z 0) by exact Hz.
  rewrite inject_Z_injective in Hz'. lia.
Qed.

(** X7.  When the member's [predict_proba] has one column per class, every
    row of [_samme_proba] sums to 0: the scores are the symmetric code of
    the log-probabilities. *)
Theorem samme_proba_rows_sum_to_zero
    {Sample Estimator : Type} {WL : WeakLearner Sample Z Estimator}
    (ln : Q -> Q) (estimator : Estimator) (n_classes : nat)
    (X : list Sample) (proba scores : matrix) :
  est_predict_proba estimator X = Ok proba ->
  Forall (fun row => List.length row = n_classes) proba ->
  _samme_proba ln estimator n_classes X = Ok scores ->
  Forall (fun row => qsum row == 0) scores.
Proof.
  intros Hproba Hshape. unfold _samme_proba. rewrite Hproba. simpl.
  destruct (n_classes =? 0)%nat eqn:HK; [discriminate|].
  apply Nat.eqb_neq in HK. intro H. inversion H; subst; clear H.
  unfold displace. rewrite !Forall_map.
  apply Forall_impl with (2 := Hshape). intros row Hrow.
  rewrite qsum_scaled_shift, !length_map, Hrow.
  set (S := qsum (map ln (map _ row))).
  field. now apply Qnat_nonzero.
Qed.

Lemma samme_proba_rows_sum_to_zero_witness :
  Forall (fun row => qsum row == 0)
    (match _samme_proba toy_ln (two_class_stump 0) 2 X3 with
     | Ok scores => scores
     | Raise _ => []
     end).
Proof.
  apply (@samme_proba_rows_sum_to_zero _ _ _ toy_ln (two_class_stump 0) 2 X3
           [[1 # 2; 1 # 2]; [1 # 2; 1 # 2]; [1 # 2; 1 # 2]]).
  - reflexivity.
  - repeat constructor.
  - vm_compute. reflexivity.
Defined.

Lemma qsum_positive (l : list Q) :
  l <> [] -> Forall (fun p => 0 < p) l -> 0 < qsum l.
Proof.
  intros Hne Hpos. destruct l as [|x l]; [congruence|]. clear Hne.
  inversion Hpos as [|? ? Hx Hl]; subst. simpl.
  assert (Hge : 0 <= qsum l).
  { clear Hpos Hx. induction l as [|a l IH]; simpl; [apply Qle_refl|].
    inversion Hl; subst.
    apply Qle_trans with (0 + 0); [apply Qle_refl|].
    apply Qplus_le_compat; [now apply Qlt_le_weak|now apply IH]. }
  apply Qlt_le_trans with (x + 0); [now rewrite Qplus_0_r|].
  apply Qplus_le_compat; [apply Qle_refl|exact Hge].
Qed.

Section ProbaRows.
Context {Sample Estimator : Type}.
Context {WL : WeakLearner Sample Z Estimator}.
Variables ln exp : Q -> Q.

Lemma predict_proba_ok (s : adaboost Z Estimator) (X : list Sample)
    (out : matrix) :
  predict_proba ln exp s X = Ok out ->
  exists K proba, to_proba exp K proba = Ok out.
Proof.
  unfold predict_proba. intro H.
  destruct (attr_n_classes s) as [K|e]; [|discriminate].
  destruct (zip_members s) as [members|e]; [|discriminate].
  simpl in H.
  destruct (proba_loop ln K X members None) as [proba|e]; [|discriminate].
  simpl in H. eauto.
Qed.

Hypothesis exp_positive : forall x, 0 < exp x.

Lemma to_proba_rows (K : nat) (proba : option matrix) (out : matrix) :
  to_proba exp K proba = Ok out ->
  Forall (fun row =>
            row = [] \/ (qsum row == 1 /\ Forall (fun p => 0 < p) row)) out.
Proof.
  unfold to_proba. destruct (K =? 1)%nat; [discriminate|].
  destruct proba as [p|]; [|discriminate].
  intro H. inversion H; subst; clear H.
  rewrite !Forall_map. apply Forall_forall. intros row _.
  destruct row as [|x row]; [now left|]. right.
  set (r := map (fun p0 => exp (1 / (Qnat K - 1) * p0)) (x :: row)).
  assert (Hpos : Forall (fun p0 => 0 < p0) r)
    by (unfold r; rewrite Forall_map; apply Forall_forall; auto).
  assert (Hsum : 0 < qsum r)
    by (apply qsum_positive; [unfold r; discriminate|exact Hpos]).
  assert (Hnz : ~ qsum r == 0)
    by (intro Hz; rewrite Hz in Hsum; exact (Qlt_irrefl 0 Hsum)).
  replace (Qeq_bool (qsum r) 0) with false.
  - split; [now apply qsum_normalized|].
    rewrite Forall_map. apply Forall_impl with (2 := Hpos).
    intros a Ha. apply Qlt_shift_div_l; [exact Hsum|].
    now rewrite Qmult_0_l.
  - symmetry. destruct (Qeq_bool (qsum r) 0) eqn:E; [|reflexivity].
    apply Qeq_bool_iff in E. contradiction.
Qed.
End ProbaRows.

(** X8.  With an exponential that is positive everywhere, every row that
    [predict_proba] returns is a probability vector: its entries are
    positive and sum to 1 (a row without any class stays empty). *)
Theorem predict_proba_rows_are_distributions
    {Sample Estimator : Type} {WL : WeakLearner Sample Z Estimator}
    (ln exp : Q -> Q) (self : adaboost Z Estimator) (X : list Sample)
    (proba : matrix) :
  (forall x, 0 < exp x) ->
  predict_proba ln exp self X = Ok proba ->
  Forall (fun row =>
            row = [] \/ (qsum row == 1 /\ Forall (fun p => 0 < p) row))
         proba.
Proof.
  intros Hexp H. apply predict_proba_ok in H.
  destruct H as (K & p & H). now apply (to_proba_rows exp Hexp K p).
Qed.

Lemma toy_exp_positive (x : Q) : 0 < toy_exp x.
Proof.
  unfold toy_exp.
  assert (H : 0 <= x * x).
  { destruct (Qlt_le_dec x 0) as [Hneg|Hpos].
    - setoid_replace (x * x) with ((- x) * (- x)) by ring.
      apply Qmult_le_0_compat; lra.
    - now apply Qmult_le_0_compat. }
  lra.
Qed.

Lemma predict_proba_rows_are_distributions_witness :
  Forall (fun row =>
            row = [] \/ (qsum row == 1 /\ Forall (fun p => 0 < p) row))
         (match predict_proba toy_ln toy_exp samme_fitted X3 with
          | Ok proba => proba
          | Raise _ => []
          end).
Proof.
  apply (@predict_proba_rows_are_distributions _ _ _ toy_ln toy_exp
           samme_fitted X3).
  - exact toy_exp_positive.
  - vm_compute. reflexivity.
Defined.

Section StagedScores.
Context {Sample Estimator : Type}.
Context {WL : WeakLearner Sample Z Estimator}.
Variables ln exp : Q -> Q.

Lemma staged_proba_loop_nil (K : nat) (X : list Sample)
    (members : list (Q * Estimator)) (proba : option matrix) :
  staged_proba_loop ln exp K X members proba = ([], None) -> members = [].
Proof.
  destruct members as [|[w e] members]; [reflexivity|]. simpl.
  destruct (_samme_proba ln e K X) as [cur|ex]; [|discriminate].
  destruct (to_proba exp K _); unfold gyield; simpl; discriminate.
Qed.

Lemma staged_proba_loop_final (K : nat) (X : list Sample)
    (members : list (Q * Estimator)) (proba : option matrix)
    (ps : list matrix) (p : matrix) :
  staged_proba_loop ln exp K X members proba = (ps, None) ->
  final ps = Some p ->
  exists acc,
    proba_loop ln K X members proba = Ok (Some acc)
    /\ to_proba exp K (Some acc) = Ok p.
Proof.
  revert proba ps.
  induction members as [|[w e] members IH]; intros proba ps H Hfin;
    simpl in H.
  - inversion H; subst. discriminate.
  - simpl. destruct (_samme_proba ln e K X) as [cur|ex];
      [|inversion H; subst; discriminate].
    simpl.
    destruct (to_proba exp K (Some (add_proba proba cur))) as [real|ex]
      eqn:Hreal; [|inversion H; subst; discriminate].
    destruct (staged_proba_loop ln exp K X members
                (Some (add_proba proba cur))) as [rs re] eqn:Hrest.
    unfold gyield in H. simpl in H. inversion H; subst.
    destruct rs as [|r rs].
    + apply staged_proba_loop_nil in Hrest. subst members. simpl.
      simpl in Hfin. inversion Hfin; subst. eauto.
    + apply (IH _ _ Hrest Hfin).
Qed.
End StagedScores.

(** X9.  When [staged_predict_proba] runs to its end, its last element is
    exactly what [predict_proba] returns on the same input. *)
Theorem staged_predict_proba_ends_with_predict_proba
    {Sample Estimator : Type} {WL : WeakLearner Sample Z Estimator}
    (ln exp : Q -> Q) (self : adaboost Z Estimator) (X : list Sample)
    (stages : list matrix) (proba : matrix) :
  staged_predict_proba ln exp self X = (stages, None) ->
  final stages = Some proba ->
  predict_proba ln exp self X = Ok proba.
Proof.
  unfold staged_predict_proba, predict_proba. intros H Hfin.
  destruct (attr_n_classes self) as [K|e];
    [|simpl in H; inversion H; subst; discriminate].
  destruct (zip_members self) as [members|e];
    [|simpl in H; inversion H; subst; discriminate].
  simpl in *.
  destruct (staged_proba_loop_final ln exp K X members None _ _ H Hfin)
    as (acc & Hloop & Hto).
  rewrite Hloop. simpl. exact Hto.
Qed.

Lemma staged_predict_proba_ends_with_predict_proba_witness :
  predict_proba toy_ln toy_exp samme_fitted X1
  = Ok (match final (fst (staged_predict_proba toy_ln toy_exp samme_fitted
                            X1)) with
        | Some p => p
        | None => []
        end).
Proof.
  apply (@staged_predict_proba_ends_with_predict_proba _ _ _ toy_ln toy_exp
           samme_fitted X1
           (fst (staged_predict_proba toy_ln toy_exp samme_fitted X1))).
  - vm_compute. reflexivity.
  - vm_compute. reflexivity.
Defined.

(** X10.  When [staged_decision_function] runs to its end, its last score
    is exactly what [decision_function] returns on the same input, in the
    binary shape and in the multi-class shape. *)
Theorem staged_decision_function_ends_with_decision_function
    {Sample Estimator : Type} {WL : WeakLearner Sample Z Estimator}
    (ln : Q -> Q) (self : adaboost Z Estimator) (X : list Sample)
    (stages : list score) (pred : score) :
  staged_decision_function ln self X = (stages, None) ->
  final stages = Some pred ->
  decision_function ln self X = Ok pred.
Proof.
  unfold staged_decision_function, decision_function. intros H Hfin.
  destruct (estimators_ self) as [|e0 es];
    [inversion H; subst; discriminate|].
  destruct (attr_n_classes self) as [K|e];
    [|simpl in H; inversion H; subst; discriminate].
  destruct (attr_classes self) as [classes|e];
    [|simpl in H; inversion H; subst; discriminate].
  destruct (zip_members self) as [members|e];
    [|simpl in H; inversion H; subst; discriminate].
  simpl in *.
  destruct (staged_decision_loop_final ln _ _ _ _ _ _ _ _ _ H Hfin)
    as (pred' & norm' & Hdl & Hout).
  rewrite Hdl. simpl. exact Hout.
Qed.

Lemma staged_decision_function_ends_with_decision_function_witness :
  decision_function toy_ln samme_fitted X1
  = Ok (match final (fst (staged_decision_function toy_ln samme_fitted X1))
        with
        | Some p => p
        | None => Vec []
        end).
Proof.
  apply (@staged_decision_function_ends_with_decision_function _ _ _ toy_ln
           samme_fitted X1
           (fst (staged_decision_function toy_ln samme_fitted X1))).
  - vm_compute. reflexivity.
  - vm_compute. reflexivity.
Defined.

(** ** Regression predictions *)

Lemma rmap_ok_forall2 {A B} (f : A -> result B) (l : list A) (bs : list B) :
  rmap f l = Ok bs -> Forall2 (fun a b => f a = Ok b) l bs.
Proof.
  revert bs. induction l as [|a l IH]; intros bs H; simpl in H.
  - inversion H. constructor.
  - destruct (f a) as [b|e] eqn:Hb; [|discriminate]. simpl in H.
    destruct (rmap f l) as [bs'|e]; [|discriminate]. simpl in H.
    inversion H; subst. constructor; auto.
Qed.

Lemma item_in {A} (l : list A) (i : nat) (a : A) : item l i = Ok a -> In a l.
Proof.
  unfold item. destruct (nth_error l i) as [b|] eqn:H; [|discriminate].
  intro E. inversion E; subst. now apply nth_error_In in H.
Qed.

Lemma median_row_in (w row : list Q) (v : Q) :
  median_row w row = Ok v -> In v row.
Proof.
  unfold median_row. intro H.
  destruct (take w (argsort row)) as [ws|e]; [|discriminate]. simpl in H.
  destruct (last_item (cumsum ws)) as [total|e]; [|discriminate].
  simpl in H.
  destruct (item (argsort row) _) as [i|e]; [|discriminate]. simpl in H.
  now apply item_in in H.
Qed.

(** X11.  Whatever the weights, the value regression [predict] returns for
    a sample is one of the values the members predict for that sample: the
    weighted median never blends predictions. *)
Theorem regression_predict_selects_a_member_prediction
    {Sample Estimator : Type} {WL : WeakLearner Sample Q Estimator}
    (self : adaboost Q Estimator) (X : list Sample) (y : list Q) :
  reg_predict self X = Ok y ->
  Forall2 (fun row v => In v row) (predictions_of (estimators_ self) X) y.
Proof.
  unfold reg_predict, _get_median_predict. intro H.
  destruct (estimators_ self) as [|e es] eqn:Hes; [discriminate|].
  replace (-1 <? 1)%Z with true in H by reflexivity.
  rewrite firstn_all in H.
  destruct (estimator_weights_ self) as [w|]; [|discriminate].
  apply rmap_ok_forall2 in H.
  eapply Forall2_impl; [|exact H].
  intros row v Hrow. now apply median_row_in in Hrow.
Qed.

Lemma regression_predict_selects_a_member_prediction_witness :
  Forall2 (fun row v => In v row)
    (predictions_of (estimators_ r2_fitted) X1) [2].
Proof.
  apply (@regression_predict_selects_a_member_prediction _ _ _ r2_fitted X1).
  vm_compute. reflexivity.
Defined.

Lemma map_nth_positions {A} (l : list A) (d : A) :
  map (fun j => nth j l d) (seq 0 (List.length l)) = l.
Proof.
  apply nth_ext with (d := d) (d' := d).
  - now rewrite length_map, length_seq.
  - intros n Hn. rewrite length_map, length_seq in Hn.
    rewrite (nth_indep _ d (nth 0 l d))
      by (now rewrite length_map, length_seq).
    rewrite (map_nth (fun j => nth j l d) (seq 0 (List.length l)) 0%nat n).
    now rewrite seq_nth.
Qed.

Lemma median_row_single (w0 : Q) (ws : list Q) (v : Q) :
  median_row (w0 :: ws) [v] = Ok v.
Proof.
  unfold median_row, argsort, cumsum, argmax_bool. simpl.
  destruct (Qle_bool ((1 # 2) * (0 + w0)) (0 + w0)); reflexivity.
Qed.

(** X12.  An ensemble of one member predicts exactly what its member
    predicts, whatever weight is recorded for it: also the weight 0 that a
    rejected first pass leaves. *)
Theorem single_member_regression_predicts_its_member
    {Sample Estimator : Type} {WL : WeakLearner Sample Q Estimator}
    (self : adaboost Q Estimator) (X : list Sample)
    (estimator : Estimator) (weight : Q) (weights : list Q) :
  estimators_ self = [estimator] ->
  estimator_weights_ self = Some (weight :: weights) ->
  List.length (est_predict estimator X) = List.length X ->
  reg_predict self X = Ok (est_predict estimator X).
Proof.
  intros Hes Hw Hlen. unfold reg_predict, _get_median_predict.
  rewrite Hes, Hw. replace (-1 <? 1)%Z with true by reflexivity.
  cbn [List.length firstn]. unfold predictions_of. cbn [map].
  rewrite <- Hlen.
  rewrite <- (map_nth_positions (est_predict estimator X) 0) at 2.
  induction (seq 0 (List.length (est_predict estimator X))) as [|j js IH];
    [reflexivity|].
  cbn [map rmap]. rewrite median_row_single. simpl. rewrite IH. reflexivity.
Qed.

Lemma single_member_regression_predicts_its_member_witness :
  reg_predict r2_sole X2 = Ok (est_predict (mkConstReg 7) X2).
Proof.
  apply (@single_member_regression_predicts_its_member _ _ _ r2_sole X2
           (mkConstReg 7) 0 []).
  - reflexivity.
  - reflexivity.
  - reflexivity.
Defined.

(** ** The regression loss and the bootstrap *)

Lemma fold_max_upper (t : list Q) (x : Q) :
  x <= fold_left (fun m v => if Qltb m v then v else m) t x
  /\ Forall (fun v => v <= fold_left (fun m v => if Qltb m v then v else m)
                                     t x) t.
Proof.
  revert x. induction t as [|a t IH]; intro x; simpl.
  - split; [apply Qle_refl|constructor].
  - destruct (Qltb x a) eqn:Hlt.
    + destruct (IH a) as [Ha Ht]. split; [|now constructor].
      apply Qle_trans with a; [|exact Ha].
      unfold Qltb in Hlt. apply negb_true_iff in Hlt.
      apply Qlt_le_weak. now apply Qle_bool_false_lt.
    + destruct (IH x) as [Hx Ht]. split; [exact Hx|].
      constructor; [|exact Ht].
      apply Qle_trans with x; [|exact Hx].
      unfold Qltb in Hlt. apply negb_false_iff in Hlt.
      now apply Qle_bool_iff.
Qed.

Lemma qmax_upper (l : list Q) (m : Q) :
  qmax l = Ok m -> Forall (fun v => v <= m) l.
Proof.
  destruct l as [|x t]; [discriminate|]. simpl. intro H.
  inversion H; subst. destruct (fold_max_upper t x). now constructor.
Qed.

Lemma map2_forall {A B C} (f : A -> B -> C) (P : C -> Prop)
    (l : list A) (l' : list B) :
  (forall a b, P (f a b)) -> Forall P (map2 f l l').
Proof.
  intro H. revert l'. induction l as [|a l IH]; intros [|b l']; simpl;
    constructor; auto.
Qed.

(** X13.  For the linear and the square loss, every entry of the loss
    vector of a regression pass lies between 0 and 1. *)
Theorem regression_loss_is_between_zero_and_one
    (exp : Q -> Q) (loss : string) (y_predict y error_vect : list Q) :
  String.eqb loss "exponential" = false ->
  loss_vect exp loss y_predict y = Ok error_vect ->
  Forall (fun e => 0 <= e <= 1) error_vect.
Proof.
  intros Hloss. unfold loss_vect.
  set (ev := map2 (fun p t => Qabs (p - t)) y_predict y).
  assert (Hpos : Forall (fun e => 0 <= e) ev)
    by (apply map2_forall; intros; apply Qabs_nonneg).
  destruct (qmax ev) as [m|e] eqn:Hqmax; [|discriminate]. simpl.
  assert (Hmax := qmax_upper _ _ Hqmax).
  assert (Hunit : Forall (fun e => 0 <= e <= 1)
                    (if negb (Qeq_bool m 0)
                     then map (fun e => e / m) ev else ev)).
  { destruct (Qeq_bool m 0) eqn:Hm; simpl.
    - apply Qeq_bool_iff in Hm.
      apply Forall_forall. intros e He.
      rewrite Forall_forall in Hpos, Hmax.
      specialize (Hpos e He). specialize (Hmax e He).
      rewrite Hm in Hmax. split; [exact Hpos|]. lra.
    - apply Qeq_bool_neq in Hm.
      assert (Hmpos : 0 < m).
      { destruct ev as [|e0 ev']; [discriminate Hqmax|].
        inversion Hpos as [|? ? He0 _]; subst.
        inversion Hmax as [|? ? Hem _]; subst.
        assert (Hm0 : 0 <= m) by lra.
        destruct (Qle_lt_or_eq 0 m Hm0) as [Hlt|Heq]; [exact Hlt|].
        exfalso. apply Hm. now symmetry. }
      rewrite Forall_map. apply Forall_forall. intros e He.
      rewrite Forall_forall in Hpos, Hmax.
      specialize (Hpos e He). specialize (Hmax e He). split.
      + apply Qle_shift_div_l; [exact Hmpos|]. now rewrite Qmult_0_l.
      + apply Qle_shift_div_r; [exact Hmpos|]. now rewrite Qmult_1_l. }
  intro H. inversion H; subst; clear H. rewrite Hloss.
  destruct (String.eqb loss "square"); [|exact Hunit].
  rewrite Forall_map. apply Forall_impl with (2 := Hunit).
  intros e [He0 He1]. split.
  - now apply Qmult_le_0_compat.
  - apply Qle_trans with (1 * 1); [|apply Qle_refl].
    apply Qmult_le_compat_nonneg; split; assumption.
Qed.

Lemma regression_loss_is_between_zero_and_one_witness :
  Forall (fun e => 0 <= e <= 1)
    (match loss_vect toy_exp "square" [0; 0] y2 with
     | Ok ev => ev
     | Raise _ => []
     end).
Proof.
  apply (@regression_loss_is_between_zero_and_one toy_exp "square" [0; 0] y2).
  - reflexivity.
  - vm_compute. reflexivity.
Defined.

Lemma searchsorted_right_below (cdf : list Q) (v c : Q) :
  In c cdf -> v < c ->
  (searchsorted_right cdf v < List.length cdf)%nat.
Proof.
  induction cdf as [|a t IH]; intros Hin Hlt; [destruct Hin|].
  simpl. destruct (Qle_bool a v) eqn:Ha; [|lia].
  destruct Hin as [->|Hin].
  - apply Qle_bool_iff in Ha. exfalso. exact (Qlt_not_le _ _ Hlt Ha).
  - specialize (IH Hin Hlt). lia.
Qed.

Lemma take_ok {A} (l : list A) (idx : list nat) :
  Forall (fun i => (i < List.length l)%nat) idx ->
  exists out, take l idx = Ok out.
Proof.
  unfold take. induction idx as [|i idx IH]; intro H; simpl; [eauto|].
  inversion H as [|? ? Hi Hidx]; subst.
  destruct (nth_error l i) as [a|] eqn:Ha.
  - simpl. destruct (IH Hidx) as [out ->]. simpl. eauto.
  - apply nth_error_None in Ha. lia.
Qed.

(** X14.  With sample weights that are not negative and have a positive
    sum, and uniform draws below 1, the bootstrap of a regression pass
    yields valid sample positions only: indexing the training set with them
    raises nothing. *)
Theorem bootstrap_indices_are_valid
    {Sample : Type} (random_sample : nat -> nat -> list Q)
    (iboost : nat) (X : list Sample) (y : list Q) (sample_weight : list Q) :
  Forall (fun w => 0 <= w) sample_weight ->
  0 < qsum sample_weight ->
  Forall (fun u => u < 1) (random_sample iboost (List.length X)) ->
  List.length X = List.length sample_weight ->
  List.length y = List.length sample_weight ->
  exists bootstrap_idx Xb yb,
    bootstrap random_sample iboost (List.length X) sample_weight
      = Ok bootstrap_idx
    /\ Forall (fun i => (i < List.length sample_weight)%nat) bootstrap_idx
    /\ take X bootstrap_idx = Ok Xb
    /\ take y bootstrap_idx = Ok yb.
Proof.
  intros _ Hsum Hdraws HX Hy. unfold bootstrap, cumsum.
  assert (Hne : sample_weight <> [])
    by (intro Hnil; rewrite Hnil in Hsum; exact (Qlt_irrefl 0 Hsum)).
  destruct (last_item_cumsum_from sample_weight 0 Hne)
    as (total & Hlast & Htotal).
  rewrite Hlast. simpl.
  assert (Htotal_pos : 0 < total) by (rewrite Htotal; lra).
  set (cdf := map (fun c => c / total) (cumsum_from 0 sample_weight)).
  assert (Hone : In (total / total) cdf)
    by (unfold cdf; apply (in_map (fun c => c / total));
        now apply last_item_in).
  assert (Hsize : List.length cdf = List.length sample_weight)
    by (unfold cdf; now rewrite length_map, cumsum_from_length).
  assert (Hidx : Forall (fun i => (i < List.length sample_weight)%nat)
                   (map (searchsorted_right cdf)
                        (random_sample iboost (List.length X)))).
  { rewrite Forall_map. apply Forall_impl with (2 := Hdraws).
    intros u Hu. rewrite <- Hsize.
    apply searchsorted_right_below with (c := total / total);
      [exact Hone|].
    setoid_replace (total / total) with 1; [exact Hu|].
    field. intro Hz. rewrite Hz in Htotal_pos.
    exact (Qlt_irrefl 0 Htotal_pos). }
  destruct (take_ok X _ ltac:(rewrite HX; exact Hidx)) as [Xb HXb].
  destruct (take_ok y _ ltac:(rewrite Hy; exact Hidx)) as [yb Hyb].
  eauto 8.
Qed.

Lemma bootstrap_indices_are_valid_witness :
  exists bootstrap_idx Xb yb,
    bootstrap spread_draws 0 (List.length X3) quarters = Ok bootstrap_idx
    /\ Forall (fun i => (i < List.length quarters)%nat) bootstrap_idx
    /\ take X3 bootstrap_idx = Ok Xb
    /\ take [1; 2; 3] bootstrap_idx = Ok yb.
Proof.
  apply (@bootstrap_indices_are_valid _ spread_draws 0 X3 [1; 2; 3] quarters).
  - repeat constructor; apply Qle_bool_iff; reflexivity.
  - reflexivity.
  - repeat constructor.
  - reflexivity.
  - reflexivity.
Defined.

(** ** Staged sequences *)

Lemma gfor_list_length {A B} (f : A -> result B) (l : list A)
    (e : option exn) (ys : list B) :
  gfor_list f l e = (ys, None) -> List.length ys = List.length l /\ e = None.
Proof.
  revert ys. induction l as [|a l IH]; intros ys H; simpl in H.
  - inversion H; subst. auto.
  - destruct (f a) as [b|ex]; [|discriminate].
    destruct (gfor_list f l e) as [zs re] eqn:Hrest.
    unfold gyield in H. simpl in H. inversion H; subst.
    destruct (IH _ eq_refl) as [Hlen He]. simpl. auto.
Qed.

Lemma reg_staged_loop_length {Sample Estimator : Type}
    {WL : WeakLearner Sample Q Estimator}
    (s : adaboost Q Estimator) (X : list Sample) (stages : list nat)
    (ys : list (list Q)) :
  reg_staged_loop s X stages = (ys, None) ->
  List.length ys = List.length stages.
Proof.
  revert ys. induction stages as [|i stages IH]; intros ys H; simpl in H.
  - inversion H; subst. reflexivity.
  - destruct (_get_median_predict s X (Z.of_nat i + 1)); [|discriminate].
    destruct (reg_staged_loop s X stages) as [zs re] eqn:Hrest.
    unfold gyield in H. simpl in H. inversion H; subst.
    simpl. now rewrite (IH _ eq_refl).
Qed.

Lemma staged_decision_loop_length {Sample Estimator : Type}
    {WL : WeakLearner Sample Z Estimator} (ln : Q -> Q)
    (s : adaboost Z Estimator) (K : nat) (classes : list Z)
    (X : list Sample) (members : list (Q * Estimator))
    (pred : option matrix) (norm : Q) (ss : list score) :
  staged_decision_loop ln s K classes X members pred norm = (ss, None) ->
  List.length ss = List.length members.
Proof.
  revert pred norm ss.
  induction members as [|[w e] members IH]; intros pred norm ss H;
    simpl in H.
  - inversion H; subst. reflexivity.
  - destruct (accumulate ln s K classes X pred norm w e) as [[p n]|ex];
      [|discriminate].
    destruct (staged_decision_loop ln s K classes X members (Some p) n)
      as [rs re] eqn:Hrest.
    destruct (K =? 2)%nat.
    + destruct (neg_col0 p); [|discriminate].
      unfold gyield in H. simpl in H. inversion H; subst.
      simpl. now rewrite (IH _ _ _ Hrest).
    + unfold gyield in H. simpl in H. inversion H; subst.
      simpl. now rewrite (IH _ _ _ Hrest).
Qed.

(** X15.  A staged prediction sequence that runs to its end has one
    element per member: as many as [estimators_] for the regressor, as many
    as the pairs of [zip(estimator_weights_, estimators_)] for the
    classifier. *)
Theorem staged_predict_yields_one_prediction_per_member :
  (forall (Sample Estimator : Type) (WL : WeakLearner Sample Q Estimator)
          (self : adaboost Q Estimator) (X : list Sample)
          (stages : list (list Q)),
      reg_staged_predict self X = (stages, None) ->
      List.length stages = List.length (estimators_ self))
  /\ (forall (Sample Estimator : Type) (WL : WeakLearner Sample Z Estimator)
             (ln : Q -> Q) (self : adaboost Z Estimator) (X : list Sample)
             (stages : list (list Z)) (estimator_weights : list Q),
         clf_staged_predict ln self X = (stages, None) ->
         estimator_weights_ self = Some estimator_weights ->
         List.length stages
         = Nat.min (List.length estimator_weights)
                   (List.length (estimators_ self))).
Proof.
  split.
  - intros Sample Estimator WL self X stages H.
    unfold reg_staged_predict in H.
    apply reg_staged_loop_length in H. now rewrite length_seq in H.
  - intros Sample Estimator WL ln self X stages w H Hw.
    unfold clf_staged_predict, gfor in H.
    destruct (attr_n_classes self) as [K|e] eqn:HK; [|discriminate].
    destruct (attr_classes self) as [classes|e] eqn:Hc; [|discriminate].
    simpl in H. apply gfor_list_length in H. destruct H as [Hlen Hend].
    rewrite Hlen. unfold staged_decision_function, zip_members in *.
    rewrite HK, Hc, Hw in *.
    destruct (estimators_ self) as [|e0 es]; [discriminate|].
    simpl in Hend |- *.
    destruct (staged_decision_loop ln self K classes X
                (combine w (e0 :: es)) None 0) as [ss re] eqn:Hloop.
    simpl in Hend. subst re.
    apply staged_decision_loop_length in Hloop. simpl.
    now rewrite Hloop, length_combine.
Qed.

Lemma staged_predict_yields_one_prediction_per_member_witness :
  List.length (fst (reg_staged_predict r2_fitted X1))
  = List.length (estimators_ r2_fitted)
  /\ List.length (fst (clf_staged_predict toy_ln samme_fitted X3))
     = Nat.min (List.length [1; 2]) (List.length (estimators_ samme_fitted)).
Proof.
  split.
  - apply (proj1 staged_predict_yields_one_prediction_per_member _ _ _
             r2_fitted X1).
    vm_compute. reflexivity.
  - apply (proj2 staged_predict_yields_one_prediction_per_member _ _ _
             toy_ln samme_fitted X3).
    + vm_compute. reflexivity.
    + reflexivity.
Defined.

(** X16.  When [staged_score] runs to its end, its last score is the
    metric applied to what [predict] returns: the accuracy of the whole
    classifier, the R2 of the whole regressor. *)
Theorem staged_score_ends_with_score_of_predict :
  (forall (Sample Estimator : Type) (WL : WeakLearner Sample Z Estimator)
          (ln : Q -> Q) (accuracy_score : list Z -> list Z -> result Q)
          (self : adaboost Z Estimator) (X : list Sample) (y : list Z)
          (scores : list Q) (last_score : Q),
      clf_staged_score ln accuracy_score self X y = (scores, None) ->
      final scores = Some last_score ->
      exists y_pred,
        clf_predict ln self X = Ok y_pred
        /\ accuracy_score y y_pred = Ok last_score)
  /\ (forall (Sample Estimator : Type) (WL : WeakLearner Sample Q Estimator)
             (r2_score : list Q -> list Q -> result Q)
             (self : adaboost Q Estimator) (X : list Sample) (y : list Q)
             (scores : list Q) (last_score : Q),
         reg_staged_score r2_score self X y = (scores, None) ->
         final scores = Some last_score ->
         exists y_pred,
           reg_predict self X = Ok y_pred
           /\ r2_score y y_pred = Ok last_score).
Proof.
  split.
  - intros Sample Estimator WL ln acc self X y scores v H Hfin.
    unfold clf_staged_score, gfor in H.
    destruct (gfor_list_final _ _ _ _ _ H Hfin) as (p & Hp & Hacc & Hend).
    exists p. split; [|exact Hacc].
    apply clf_staged_predict_final with (ys := fst (clf_staged_predict ln self X));
      [|exact Hp].
    destruct (clf_staged_predict ln self X) as [ys e]. simpl in *.
    now subst e.
  - intros Sample Estimator WL r2 self X y scores v H Hfin.
    unfold reg_staged_score, gfor in H.
    destruct (gfor_list_final _ _ _ _ _ H Hfin) as (p & Hp & Hr2 & Hend).
    exists p. split; [|exact Hr2].
    apply reg_staged_predict_final with (ys := fst (reg_staged_predict self X));
      [|exact Hp].
    destruct (reg_staged_predict self X) as [ys e]. simpl in *.
    now subst e.
Qed.

Lemma staged_score_ends_with_score_of_predict_witness :
  (exists y_pred,
      clf_predict toy_ln samme_fitted X3 = Ok y_pred
      /\ toy_accuracy y3 y_pred = Ok 1)
  /\ (exists y_pred,
         reg_predict r2_fitted X1 = Ok y_pred
         /\ toy_r2 [5] y_pred = Ok 9).
Proof.
  split.
  - apply (proj1 staged_score_ends_with_score_of_predict _ _ _ toy_ln
             toy_accuracy samme_fitted X3 y3 [2; 1]).
    + vm_compute. reflexivity.
    + reflexivity.
  - apply (proj2 staged_score_ends_with_score_of_predict _ _ _
             toy_r2 r2_fitted X1 [5] [16; 9; 9]).
    + vm_compute. reflexivity.
    + reflexivity.
Defined.

(** ** The class labels of a classifier *)

Section ClassesFacts.
Context {Sample Estimator : Type}.
Context {WL : WeakLearner Sample Z Estimator}.
Variables ln exp : Q -> Q.

Lemma store_weight_classes (i : nat) (v : Q) (s s' : adaboost Z Estimator)
    (r : result unit) :
  store_weight i v s = (s', r) ->
  classes_ s' = classes_ s /\ n_classes_ s' = n_classes_ s.
Proof.
  unfold store_weight. intro H.
  destruct (estimator_weights_ s) as [w|]; [|inversion H; subst; auto].
  destruct (set_item w i v); inversion H; subst; auto.
Qed.

Lemma store_error_classes (i : nat) (v : Q) (s s' : adaboost Z Estimator)
    (r : result unit) :
  store_error i v s = (s', r) ->
  classes_ s' = classes_ s /\ n_classes_ s' = n_classes_ s.
Proof.
  unfold store_error. intro H.
  destruct (estimator_errors_ s) as [w|]; [|inversion H; subst; auto].
  destruct (set_item w i v); inversion H; subst; auto.
Qed.

(** The loop body touches the class labels through [_boost] only. *)
Lemma fit_iteration_classes
    (_boost : nat -> list Sample -> list Z -> list Q ->
              M (adaboost Z Estimator) (option (list Q * Q * Q)))
    (iboost : nat) (X : list Sample) (y : list Z) (sw : list Q)
    (s s' : adaboost Z Estimator) (r : result step) :
  fit_iteration _boost iboost X y sw s = (s', r) ->
  exists s1 rb,
    _boost iboost X y sw s = (s1, rb)
    /\ classes_ s' = classes_ s1 /\ n_classes_ s' = n_classes_ s1.
Proof.
  unfold fit_iteration, bind. intro H.
  destruct (_boost iboost X y sw s) as [s1 rb] eqn:Hb.
  exists s1, rb. split; [reflexivity|].
  destruct rb as [[[[sw1 ew] ee]|]|e];
    [|inversion H; subst; auto..].
  destruct (store_weight iboost ew s1) as [s2 r2] eqn:Hw.
  apply store_weight_classes in Hw. destruct Hw as [Hc2 Hn2].
  destruct r2 as [[]|e]; [|inversion H; subst; auto].
  destruct (store_error iboost ee s2) as [s3 r3] eqn:He.
  apply store_error_classes in He. destruct He as [Hc3 Hn3].
  assert (Hgoal : classes_ s3 = classes_ s1 /\ n_classes_ s3 = n_classes_ s1)
    by (split; congruence).
  destruct r3 as [[]|e]; [|inversion H; subst; exact Hgoal].
  unfold get, ret in H.
  destruct (Qeq_bool ee 0); [inversion H; subst; exact Hgoal|].
  destruct (Qle_bool (qsum sw1) 0); [inversion H; subst; exact Hgoal|].
  destruct (iboost <? n_estimators s3 - 1)%nat;
    inversion H; subst; exact Hgoal.
Qed.

Lemma make_train_classes (X : list Sample) (y : list Z)
    (w : option (list Q)) (s sa sb : adaboost Z Estimator)
    (e : Estimator) (r : result Estimator) :
  _make_estimator s = (sa, Ok e) ->
  train e X y w sa = (sb, r) ->
  e = clone (base_estimator s)
  /\ r = est_fit e X y w
  /\ classes_ sb = classes_ s /\ n_classes_ sb = n_classes_ s.
Proof.
  unfold _make_estimator, train. intros Hm Ht.
  inversion Hm; subst; clear Hm.
  destruct (est_fit _ X y w) as [e2|ex]; inversion Ht; subst; simpl; auto.
Qed.

(** After the first pass a booster only reads the class labels. *)
Lemma clf_boost_later_keeps_classes (iboost : nat) (X : list Sample)
    (y : list Z) (sw : list Q) (s s1 : adaboost Z Estimator)
    (r : result (option (list Q * Q * Q))) :
  iboost <> O ->
  clf_boost ln exp iboost X y sw s = (s1, r) ->
  classes_ s1 = classes_ s /\ n_classes_ s1 = n_classes_ s.
Proof.
  intros Hi H. apply Nat.eqb_neq in Hi.
  unfold clf_boost in H.
  destruct (String.eqb (algorithm s) "SAMME.R").
  - unfold _boost_real, bind, lift in H.
    destruct (_make_estimator s) as [sa [e|ex]] eqn:Hm;
      [|unfold _make_estimator in Hm; discriminate].
    destruct (train e X y (Some sw) sa) as [sb rb] eqn:Ht.
    destruct (make_train_classes _ _ _ _ _ _ _ _ Hm Ht)
      as (_ & _ & Hc & Hn).
    destruct rb as [e'|ex]; [|inversion H; subst; split; congruence].
    destruct (est_predict_proba e' X) as [proba|ex];
      [|inversion H; subst; split; congruence].
    unfold set_classes_from in H. rewrite Hi in H.
    unfold read_classes, read_n_classes, get, ret, raise in H.
    cbv beta iota zeta in H.
    destruct (classes_ sb) as [classes|] eqn:Hcl;
      [|inversion H; subst; split; congruence].
    destruct (take classes _) as [y_predict|ex];
      [|inversion H; subst; split; congruence].
    destruct (average _ sw) as [err|ex]; [|inversion H; subst; split; congruence].
    destruct (Qle_bool err 0); [inversion H; subst; split; congruence|].
    destruct (n_classes_ sb) as [K|] eqn:Hncl; [|inversion H; subst; split; congruence].
    cbv beta iota zeta in H. rewrite Hcl in H.
    destruct (K =? 1)%nat; [inversion H; subst; split; congruence|].
    destruct (K =? 0)%nat; inversion H; subst; split; congruence.
  - unfold _boost_discrete, discrete_member, bind, lift in H.
    destruct (_make_estimator s) as [sa [e|ex]] eqn:Hm;
      [|unfold _make_estimator in Hm; discriminate].
    destruct (train e X y (Some sw) sa) as [sb rb] eqn:Ht.
    destruct (make_train_classes _ _ _ _ _ _ _ _ Hm Ht)
      as (_ & _ & Hc & Hn).
    destruct rb as [e'|ex]; [|inversion H; subst; split; congruence].
    unfold set_classes_from in H. rewrite Hi in H.
    unfold read_n_classes, get, ret, raise, pop_last, modify in H.
    cbv beta iota zeta in H.
    destruct (average _ sw) as [err|ex]; [|inversion H; subst; split; congruence].
    cbv beta iota zeta in H. cbn [fst snd] in H.
    destruct (Qle_bool err 0); [inversion H; subst; split; congruence|].
    destruct (n_classes_ sb) as [K|] eqn:Hncl; [|inversion H; subst; split; congruence].
    destruct (K =? 0)%nat; [inversion H; subst; split; congruence|].
    destruct (Qle_bool (1 - 1 / Qnat K) err);
      inversion H; subst; simpl; split; congruence.
Qed.

(** The first pass takes the class labels from the member it has
    trained. *)
Lemma clf_boost_first_sets_classes (X : list Sample) (y : list Z)
    (sw : list Q) (s s1 : adaboost Z Estimator)
    (out : option (list Q * Q * Q)) :
  clf_boost ln exp 0 X y sw s = (s1, Ok out) ->
  exists e c,
    est_fit (clone (base_estimator s)) X y (Some sw) = Ok e
    /\ est_classes e = Some c
    /\ classes_ s1 = Some c
    /\ n_classes_ s1 = Some (List.length c).
Proof.
  intro H. unfold clf_boost in H.
  destruct (String.eqb (algorithm s) "SAMME.R").
  - unfold _boost_real, bind, lift in H.
    destruct (_make_estimator s) as [sa [e|ex]] eqn:Hm;
      [|unfold _make_estimator in Hm; discriminate].
    destruct (train e X y (Some sw) sa) as [sb rb] eqn:Ht.
    destruct (make_train_classes _ _ _ _ _ _ _ _ Hm Ht)
      as (-> & -> & _ & _).
    destruct (est_fit _ X y (Some sw)) as [e'|ex]; [|discriminate].
    destruct (est_predict_proba e' X) as [proba|ex]; [|discriminate].
    unfold set_classes_from in H. simpl Nat.eqb in H. cbv iota in H.
    destruct (est_classes e') as [c|] eqn:Hc; [|discriminate].
    exists e', c. split; [reflexivity|]. split; [exact Hc|].
    unfold read_classes, read_n_classes, get, ret, raise in H.
    simpl in H.
    destruct (take c _) as [y_predict|ex]; [|discriminate].
    destruct (average _ sw) as [err|ex]; [|discriminate].
    destruct (Qle_bool err 0); [inversion H; subst; simpl; auto|].
    simpl in H.
    destruct (List.length c =? 1)%nat; [discriminate|].
    destruct (List.length c =? 0)%nat; [discriminate|].
    inversion H; subst; simpl; auto.
  - unfold _boost_discrete, discrete_member, bind, lift in H.
    destruct (_make_estimator s) as [sa [e|ex]] eqn:Hm;
      [|unfold _make_estimator in Hm; discriminate].
    destruct (train e X y (Some sw) sa) as [sb rb] eqn:Ht.
    destruct (make_train_classes _ _ _ _ _ _ _ _ Hm Ht)
      as (-> & -> & _ & _).
    destruct (est_fit _ X y (Some sw)) as [e'|ex]; [|discriminate].
    unfold set_classes_from in H. simpl Nat.eqb in H. cbv iota in H.
    destruct (est_classes e') as [c|] eqn:Hc; [|discriminate].
    exists e', c. split; [reflexivity|]. split; [exact Hc|].
    unfold read_n_classes, get, ret, raise, pop_last, modify in H.
    simpl in H.
    destruct (average _ sw) as [err|ex]; [|discriminate].
    simpl in H.
    destruct (Qle_bool err 0); [inversion H; subst; simpl; auto|].
    simpl in H.
    destruct (List.length c =? 0)%nat; [discriminate|].
    destruct (Qle_bool (1 - 1 / Qnat (List.length c)) err);
      inversion H; subst; simpl; auto.
Qed.

Lemma fit_loop_later_keeps_classes (remaining iboost : nat)
    (X : list Sample) (y : list Z) (sw : list Q)
    (s s' : adaboost Z Estimator) (r : result loop_exit) :
  iboost <> O ->
  fit_loop (clf_boost ln exp) remaining iboost X y sw s = (s', r) ->
  classes_ s' = classes_ s /\ n_classes_ s' = n_classes_ s.
Proof.
  revert iboost sw s.
  induction remaining as [|remaining IH]; intros iboost sw s Hi H.
  - simpl in H. unfold ret in H. inversion H; subst. auto.
  - cbn [fit_loop] in H. unfold bind in H.
    destruct (fit_iteration (clf_boost ln exp) iboost X y sw s)
      as [s2 r2] eqn:Hit.
    destruct (fit_iteration_classes _ _ _ _ _ _ _ _ Hit)
      as (s1 & rb & Hb & Hc & Hn).
    destruct (clf_boost_later_keeps_classes _ _ _ _ _ _ _ Hi Hb)
      as [Hc1 Hn1].
    assert (Hgoal : classes_ s2 = classes_ s /\ n_classes_ s2 = n_classes_ s)
      by (split; congruence).
    destruct r2 as [[sw'|why]|e]; [|inversion H; subst; exact Hgoal..].
    destruct (IH (S iboost) sw' s2 ltac:(lia) H) as [Hc' Hn'].
    split; congruence.
Qed.
End ClassesFacts.

Lemma sum_importances_classes {Sample Estimator : Type}
    {WL : WeakLearner Sample Z Estimator}
    (s s' : adaboost Z Estimator) (r : result unit) :
  sum_importances s = (s', r) ->
  classes_ s' = classes_ s /\ n_classes_ s' = n_classes_ s.
Proof.
  unfold sum_importances. intro H.
  destruct (compute_importances s); [|inversion H; subst; auto].
  destruct (estimator_weights_ s) as [w|]; [|inversion H; subst; auto].
  destruct (rmap _ _); inversion H; subst; simpl; auto.
Qed.

(** X17.  The class labels are fixed at the first pass: after a classifier
    fit that returns, [classes_] are the classes of the member trained at
    pass 0 on the initial sample weights, and [n_classes_] is their number,
    whatever later passes did and even if that member was rejected. *)
Theorem classes_are_those_of_the_first_member
    {Sample Estimator : Type} {WL : WeakLearner Sample Z Estimator}
    (ln exp : Q -> Q) (X : list Sample) (y : list Z)
    (sample_weight : option (list Q))
    (self selff : adaboost Z Estimator) (why : loop_exit) :
  (0 < n_estimators self)%nat ->
  clf_fit ln exp X y sample_weight self = (selff, Ok why) ->
  exists sample_weight0 estimator classes,
    initial_sample_weight X sample_weight = Ok sample_weight0
    /\ est_fit (clone (base_estimator (enable_importances self))) X y
         (Some sample_weight0) = Ok estimator
    /\ est_classes estimator = Some classes
    /\ classes_ selff = Some classes
    /\ n_classes_ selff = Some (List.length classes).
Proof.
  intros Hn H. apply clf_fit_ok_is_base_fit in H.
  destruct (base_fit_ok_checks _ _ _ _ _ _ _ H) as (Hrate & sw0 & Hsw).
  exists sw0.
  unfold base_fit, bind, get, modify, lift in H.
  rewrite (Qle_bool_false _ _ Hrate), Hsw in H.
  set (s0 := clear_fit (enable_importances self)) in *.
  destruct (fit_loop (clf_boost ln exp) (n_estimators self) 0 X y sw0 s0)
    as [sl [why'|e]] eqn:Hloop; [|discriminate].
  destruct (sum_importances sl) as [s2 r2] eqn:Hsum.
  apply sum_importances_classes in Hsum. destruct Hsum as [Hcf Hnf].
  assert (Hsf : classes_ selff = classes_ sl
                /\ n_classes_ selff = n_classes_ sl).
  { destruct r2 as [[]|e]; [|discriminate].
    unfold ret in H. inversion H; subst. auto. }
  destruct Hsf as [-> ->]. clear H Hcf Hnf s2 r2.
  destruct (n_estimators self) as [|n']; [lia|].
  cbn [fit_loop] in Hloop. unfold bind in Hloop.
  destruct (fit_iteration (clf_boost ln exp) 0 X y sw0 s0)
    as [sa [st|e]] eqn:Hit; [|discriminate].
  destruct (fit_iteration_inv _ _ _ _ _ _ _ _ Hit)
    as (s1 & out & Hb & _ & _).
  destruct (fit_iteration_classes _ _ _ _ _ _ _ _ Hit)
    as (s1' & rb & Hb' & Hca & Hna).
  rewrite Hb in Hb'. inversion Hb'; subst s1' rb. clear Hb'.
  destruct (clf_boost_first_sets_classes ln exp _ _ _ _ _ _ Hb)
    as (e & c & Hfit & Hc & Hc1 & Hn1).
  exists e, c.
  assert (Hbase : base_estimator s0 = base_estimator (enable_importances self))
    by reflexivity.
  rewrite Hbase in Hfit.
  split; [exact Hsw|]. split; [exact Hfit|]. split; [exact Hc|].
  destruct st as [sw'|why''].
  - destruct (fit_loop_later_keeps_classes ln exp _ _ _ _ _ _ _ _
                (Nat.neq_succ_0 0) Hloop) as [Hcl Hnl].
    split; congruence.
  - unfold ret in Hloop. inversion Hloop; subst. split; congruence.
Qed.

Lemma classes_are_those_of_the_first_member_witness :
  exists sample_weight0 estimator classes,
    initial_sample_weight X3 None = Ok sample_weight0
    /\ est_fit (clone (base_estimator (enable_importances samme3))) X3
         y_all_wrong (Some sample_weight0) = Ok estimator
    /\ est_classes estimator = Some classes
    /\ classes_ samme_emptied = Some classes
    /\ n_classes_ samme_emptied = Some (List.length classes).
Proof.
  apply (@classes_are_those_of_the_first_member _ _ _ toy_ln toy_exp X3
           y_all_wrong None samme3 samme_emptied (Sentinel 0)).
  - simpl. lia.
  - vm_compute. reflexivity.
Defined.

(** ** The configuration during a fit *)

Lemma same_config_refl {Target Estimator} (s : adaboost Target Estimator) :
  same_config s s.
Proof. unfold same_config. auto 7. Qed.

Lemma same_config_trans {Target Estimator}
    (s s' s'' : adaboost Target Estimator) :
  same_config s s' -> same_config s' s'' -> same_config s s''.
Proof.
  unfold same_config. intros (A & B & C & D & E & F) (A' & B' & C' & D' & E' & F').
  repeat split; congruence.
Qed.

Section ConfigFacts.
Context {Sample Target Estimator : Type}.
Context {WL : WeakLearner Sample Target Estimator}.

Lemma make_estimator_config (s s' : adaboost Target Estimator)
    (r : result Estimator) :
  _make_estimator s = (s', r) -> same_config s s'.
Proof.
  unfold _make_estimator. intro H. inversion H; subst.
  unfold same_config. simpl. auto 7.
Qed.

Lemma train_config (e : Estimator) (X : list Sample) (y : list Target)
    (w : option (list Q)) (s s' : adaboost Target Estimator)
    (r : result Estimator) :
  train e X y w s = (s', r) -> same_config s s'.
Proof.
  unfold train. intro H.
  destruct (est_fit e X y w); inversion H; subst;
    unfold same_config; simpl; auto 7.
Qed.

Lemma store_weight_config (i : nat) (v : Q)
    (s s' : adaboost Target Estimator) (r : result unit) :
  store_weight i v s = (s', r) -> same_config s s'.
Proof.
  unfold store_weight. intro H.
  destruct (estimator_weights_ s) as [w|];
    [destruct (set_item w i v)|]; inversion H; subst;
    unfold same_config; simpl; auto 7.
Qed.

Lemma store_error_config (i : nat) (v : Q)
    (s s' : adaboost Target Estimator) (r : result unit) :
  store_error i v s = (s', r) -> same_config s s'.
Proof.
  unfold store_error. intro H.
  destruct (estimator_errors_ s) as [w|];
    [destruct (set_item w i v)|]; inversion H; subst;
    unfold same_config; simpl; auto 7.
Qed.

Variable _boost : nat -> list Sample -> list Target -> list Q ->
                  M (adaboost Target Estimator) (option (list Q * Q * Q)).
Hypothesis boost_config :
  forall iboost X y sw s s1 r,
    _boost iboost X y sw s = (s1, r) -> same_config s s1.

Lemma fit_iteration_config (iboost : nat) (X : list Sample)
    (y : list Target) (sw : list Q) (s s' : adaboost Target Estimator)
    (r : result step) :
  fit_iteration _boost iboost X y sw s = (s', r) -> same_config s s'.
Proof.
  unfold fit_iteration, bind. intro H.
  destruct (_boost iboost X y sw s) as [s1 rb] eqn:Hb.
  apply boost_config in Hb.
  destruct rb as [[[[sw1 ew] ee]|]|e];
    [|inversion H; subst; exact Hb..].
  destruct (store_weight iboost ew s1) as [s2 r2] eqn:Hw.
  apply store_weight_config in Hw.
  assert (H2 := same_config_trans _ _ _ Hb Hw).
  destruct r2 as [[]|e]; [|inversion H; subst; exact H2].
  destruct (store_error iboost ee s2) as [s3 r3] eqn:He.
  apply store_error_config in He.
  assert (H3 := same_config_trans _ _ _ H2 He).
  destruct r3 as [[]|e]; [|inversion H; subst; exact H3].
  unfold get, ret in H.
  destruct (Qeq_bool ee 0); [inversion H; subst; exact H3|].
  destruct (Qle_bool (qsum sw1) 0); [inversion H; subst; exact H3|].
  destruct (iboost <? n_estimators s3 - 1)%nat;
    inversion H; subst; exact H3.
Qed.

(** Every call of the booster in a whole run gets sample weights that sum
    to 1, when the first one does. *)
Lemma boost_inputs_sum_to_one (remaining iboost : nat) (X : list Sample)
    (y : list Target) (sw : list Q) (s : adaboost Target Estimator) :
  (iboost + remaining = n_estimators s)%nat ->
  qsum sw == 1 ->
  Forall (fun w => qsum w == 1) (boost_inputs _boost remaining iboost X y sw s).
Proof.
  revert iboost sw s.
  induction remaining as [|remaining IH]; intros iboost sw s Hn Hsum;
    cbn [boost_inputs]; [constructor|].
  constructor; [exact Hsum|].
  destruct (fit_iteration _boost iboost X y sw s) as [s' [[sw'|why]|e]]
    eqn:Hit; try constructor.
  destruct remaining as [|remaining']; [constructor|].
  assert (Hcfg := fit_iteration_config _ _ _ _ _ _ _ Hit).
  destruct Hcfg as (_ & Hn' & _).
  apply IH.
  - rewrite Hn'. lia.
  - destruct (fit_iteration_next _ _ _ _ _ _ _ _ Hit)
      as (s1 & sw1 & ew & ee & _ & _ & _ & Hpos & ->).
    replace (iboost <? n_estimators s' - 1)%nat with true
      by (symmetry; apply Nat.ltb_lt; lia).
    apply qsum_normalized. intro Hz. rewrite Hz in Hpos.
    exact (Qlt_irrefl 0 Hpos).
Qed.
End ConfigFacts.

Section BoostConfig.
Context {Sample Estimator : Type}.

Lemma set_classes_from_config {WL : WeakLearner Sample Z Estimator}
    (iboost : nat) (e : Estimator) (s s' : adaboost Z Estimator)
    (r : result unit) :
  set_classes_from iboost e s = (s', r) -> same_config s s'.
Proof.
  unfold set_classes_from. intro H.
  destruct (iboost =? 0)%nat.
  - destruct (est_classes e); inversion H; subst;
      unfold same_config; simpl; auto 7.
  - inversion H; subst. apply same_config_refl.
Qed.

Lemma make_train_config {Target : Type}
    {WL : WeakLearner Sample Target Estimator}
    (X : list Sample) (y : list Target) (w : option (list Q))
    (s sa sb : adaboost Target Estimator) (e : Estimator)
    (r : result Estimator) :
  _make_estimator s = (sa, Ok e) ->
  train e X y w sa = (sb, r) ->
  same_config s sa /\ same_config s sb.
Proof.
  intros Hm Ht. apply make_estimator_config in Hm. apply train_config in Ht.
  split; [exact Hm|]. eapply same_config_trans; eassumption.
Qed.

Lemma discrete_member_config {WL : WeakLearner Sample Z Estimator}
    (iboost : nat) (X : list Sample) (y : list Z) (sw : list Q)
    (s s1 : adaboost Z Estimator) (r : result (list bool * Q)) :
  discrete_member iboost X y sw s = (s1, r) -> same_config s s1.
Proof.
  unfold discrete_member, bind. intro H.
  destruct (_make_estimator s) as [sa [e|ex]] eqn:Hm;
    [|unfold _make_estimator in Hm; discriminate].
  destruct (train e X y (Some sw) sa) as [sb rb] eqn:Ht.
  destruct (make_train_config _ _ _ _ _ _ _ _ Hm Ht) as [_ Hsb].
  destruct rb as [e'|ex]; [|inversion H; subst; exact Hsb].
  destruct (set_classes_from iboost e' sb) as [sc rc] eqn:Hc.
  apply set_classes_from_config in Hc.
  assert (Hsc := same_config_trans _ _ _ Hsb Hc).
  destruct rc as [[]|ex]; [|inversion H; subst; exact Hsc].
  unfold lift, ret in H.
  destruct (average _ sw); inversion H; subst; exact Hsc.
Qed.

Lemma clf_boost_config {WL : WeakLearner Sample Z Estimator}
    (ln exp : Q -> Q) (iboost : nat) (X : list Sample) (y : list Z)
    (sw : list Q) (s s1 : adaboost Z Estimator)
    (r : result (option (list Q * Q * Q))) :
  clf_boost ln exp iboost X y sw s = (s1, r) -> same_config s s1.
Proof.
  unfold clf_boost. destruct (String.eqb (algorithm s) "SAMME.R").
  - unfold _boost_real, bind, lift. intro H.
    destruct (_make_estimator s) as [sa [e|ex]] eqn:Hm;
      [|unfold _make_estimator in Hm; discriminate].
    destruct (train e X y (Some sw) sa) as [sb rb] eqn:Ht.
    destruct (make_train_config _ _ _ _ _ _ _ _ Hm Ht) as [_ Hsb].
    destruct rb as [e'|ex]; [|inversion H; subst; exact Hsb].
    destruct (est_predict_proba e' X) as [proba|ex];
      [|inversion H; subst; exact Hsb].
    destruct (set_classes_from iboost e' sb) as [sc rc] eqn:Hc.
    apply set_classes_from_config in Hc.
    assert (Hsc := same_config_trans _ _ _ Hsb Hc).
    destruct rc as [[]|ex]; [|inversion H; subst; exact Hsc].
    unfold read_classes, read_n_classes, get, ret, raise in H.
    destruct (classes_ sc) as [classes|] eqn:Hcl;
      [|inversion H; subst; exact Hsc].
    destruct (take classes _) as [y_predict|ex];
      [|inversion H; subst; exact Hsc].
    destruct (average _ sw) as [err|ex]; [|inversion H; subst; exact Hsc].
    destruct (Qle_bool err 0); [inversion H; subst; exact Hsc|].
    destruct (n_classes_ sc) as [K|]; [|inversion H; subst; exact Hsc].
    cbv beta iota zeta in H. rewrite Hcl in H.
    destruct (K =? 1)%nat; [inversion H; subst; exact Hsc|].
    destruct (K =? 0)%nat; inversion H; subst; exact Hsc.
  - unfold _boost_discrete, bind. intro H.
    destruct (discrete_member iboost X y sw s) as [sa ra] eqn:Hm.
    apply discrete_member_config in Hm.
    destruct ra as [[inc err]|ex]; [|inversion H; subst; exact Hm].
    simpl in H.
    destruct (Qle_bool err 0); [unfold ret in H; inversion H; subst; exact Hm|].
    unfold read_n_classes in H.
    destruct (n_classes_ sa) as [K|]; [|inversion H; subst; exact Hm].
    destruct (K =? 0)%nat; [unfold raise in H; inversion H; subst; exact Hm|].
    destruct (Qle_bool (1 - 1 / Qnat K) err).
    + unfold pop_last, modify, ret in H. inversion H; subst.
      eapply same_config_trans; [exact Hm|].
      unfold same_config. simpl. auto 7.
    + unfold get, ret in H. inversion H; subst. exact Hm.
Qed.

Lemma reg_boost_config {WL : WeakLearner Sample Q Estimator}
    (ln exp : Q -> Q) (power : Q -> Q -> Q)
    (random_sample : nat -> nat -> list Q)
    (iboost : nat) (X : list Sample) (y : list Q)
    (sw : list Q) (s s1 : adaboost Q Estimator)
    (r : result (option (list Q * Q * Q))) :
  reg_boost ln exp power random_sample iboost X y sw s = (s1, r) ->
  same_config s s1.
Proof.
  unfold reg_boost, bind. intro H.
  assert (Hmember : forall sa ra,
             reg_member exp random_sample iboost X y sw s = (sa, ra) ->
             same_config s sa).
  { clear H. unfold reg_member, bind, lift. intros sa ra H.
    destruct (_make_estimator s) as [sm [e|ex]] eqn:Hm;
      [|unfold _make_estimator in Hm; discriminate].
    assert (Hsm := make_estimator_config _ _ _ Hm).
    destruct (bootstrap random_sample iboost (List.length X) sw);
      [|inversion H; subst; exact Hsm].
    destruct (take X _); [|inversion H; subst; exact Hsm].
    destruct (take y _); [|inversion H; subst; exact Hsm].
    destruct (train e _ _ None sm) as [sb rb] eqn:Ht.
    destruct (make_train_config _ _ _ _ _ _ _ _ Hm Ht) as [_ Hsb].
    destruct rb as [e'|ex]; [|inversion H; subst; exact Hsb].
    unfold get, ret in H.
    destruct (loss_vect exp (loss sb) (est_predict e' X) y);
      inversion H; subst; exact Hsb. }
  destruct (reg_member exp random_sample iboost X y sw s) as [sa ra] eqn:Hm.
  specialize (Hmember _ _ eq_refl).
  destruct ra as [[ev err]|ex]; [|inversion H; subst; exact Hmember].
  simpl in H.
  destruct (Qle_bool err 0);
    [unfold ret in H; inversion H; subst; exact Hmember|].
  destruct (Qle_bool (1 # 2) err).
  - unfold discard_unless_only, ret in H.
    destruct (1 <? List.length (estimators_ sa))%nat;
      inversion H; subst; [|exact Hmember].
    eapply same_config_trans; [exact Hmember|].
    unfold same_config. simpl. auto 7.
  - unfold get, ret in H. inversion H; subst. exact Hmember.
Qed.
End BoostConfig.

(** ** Sample weights over a whole run *)

(** X18.  With default sample weights, or supplied ones whose sum is not
    zero, every call of the booster in a fit, classifier or regressor, gets
    sample weights that sum to 1: the initial ones do, and the weights are
    renormalized after every pass that another pass follows. *)
Theorem every_pass_receives_weights_summing_to_one :
  (forall (Sample Estimator : Type) (WL : WeakLearner Sample Z Estimator)
          (ln exp : Q -> Q) (X : list Sample) (y : list Z)
          (sample_weight : option (list Q)) (sample_weight0 : list Q)
          (self : adaboost Z Estimator),
      match sample_weight with
      | None => True
      | Some sw => ~ qsum sw == 0
      end ->
      initial_sample_weight X sample_weight = Ok sample_weight0 ->
      Forall (fun w => qsum w == 1)
        (boost_inputs (clf_boost ln exp) (n_estimators self) 0 X y
           sample_weight0 (clear_fit (enable_importances self))))
  /\ (forall (Sample Estimator : Type) (WL : WeakLearner Sample Q Estimator)
             (ln exp : Q -> Q) (power : Q -> Q -> Q)
             (random_sample : nat -> nat -> list Q)
             (X : list Sample) (y : list Q)
             (sample_weight : option (list Q)) (sample_weight0 : list Q)
             (self : adaboost Q Estimator),
         match sample_weight with
         | None => True
         | Some sw => ~ qsum sw == 0
         end ->
         initial_sample_weight X sample_weight = Ok sample_weight0 ->
         Forall (fun w => qsum w == 1)
           (boost_inputs (reg_boost ln exp power random_sample)
              (n_estimators self) 0 X y sample_weight0
              (clear_fit (enable_importances self)))).
Proof.
  split.
  - intros Sample Estimator WL ln exp X y sw sw0 self Hvalid Hsw.
    apply boost_inputs_sum_to_one.
    + apply clf_boost_config.
    + destruct (clear_fit_fields self) as (_ & _ & _ & Hn). rewrite Hn. lia.
    + exact (initial_sample_weight_sums_to_one X sw sw0 Hvalid Hsw).
  - intros Sample Estimator WL ln exp power random_sample X y sw sw0 self
      Hvalid Hsw.
    apply boost_inputs_sum_to_one.
    + apply reg_boost_config.
    + destruct (clear_fit_fields self) as (_ & _ & _ & Hn). rewrite Hn. lia.
    + exact (initial_sample_weight_sums_to_one X sw sw0 Hvalid Hsw).
Qed.

Lemma every_pass_receives_weights_summing_to_one_witness :
  Forall (fun w => qsum w == 1)
    (boost_inputs (clf_boost toy_ln toy_exp) (n_estimators samme3) 0 X3 y3
       thirds (clear_fit (enable_importances samme3))).
Proof.
  apply (proj1 every_pass_receives_weights_summing_to_one _ _ _
           toy_ln toy_exp X3 y3 None thirds samme3).
  - exact I.
  - reflexivity.
Defined.

(** ** SAMME.R keeps every member *)

Section RealRuns.
Context {Sample Estimator : Type}.
Context {WL : WeakLearner Sample Z Estimator}.
Variables ln exp : Q -> Q.

Lemma fit_loop_real_never_sentinel (remaining iboost : nat)
    (X : list Sample) (y : list Z) (sw : list Q)
    (s s' : adaboost Z Estimator) (why : loop_exit) :
  String.eqb (algorithm s) "SAMME.R" = true ->
  fit_loop (clf_boost ln exp) remaining iboost X y sw s = (s', Ok why) ->
  forall i, why <> Sentinel i.
Proof.
  revert iboost sw s.
  induction remaining as [|remaining IH]; intros iboost sw s Halg H i.
  - simpl in H. unfold ret in H. inversion H; subst. discriminate.
  - cbn [fit_loop] in H. unfold bind in H.
    destruct (fit_iteration (clf_boost ln exp) iboost X y sw s)
      as [s2 [st|e]] eqn:Hit; [|discriminate].
    assert (Hcfg := fit_iteration_config (clf_boost ln exp)
                      (clf_boost_config ln exp) _ _ _ _ _ _ _ Hit).
    destruct Hcfg as (_ & _ & _ & _ & Ha & _).
    destruct (fit_iteration_inv _ _ _ _ _ _ _ _ Hit)
      as (s1 & out & Hb & _ & Hst).
    unfold clf_boost in Hb. rewrite Halg in Hb.
    apply boost_real_appends_one in Hb. destruct Hb as [Hout _].
    destruct st as [sw'|why'].
    + apply (IH _ _ _ ltac:(rewrite Ha; exact Halg) H).
    + unfold ret in H. inversion H; subst.
      destruct why as [|j|j|j]; try discriminate.
      destruct Hst as [_ Hnone]. contradiction.
Qed.
End RealRuns.

(** X19.  Under SAMME.R no pass is ever rejected: a fit that returns never
    ended on the termination sentinel, so it has one member for every pass
    it ran, [n_estimators] of them unless it stopped on a zero error or a
    non-positive weight sum. *)
Theorem samme_r_never_discards_a_member
    {Sample Estimator : Type} {WL : WeakLearner Sample Z Estimator}
    (ln exp : Q -> Q) (X : list Sample) (y : list Z)
    (sample_weight : option (list Q))
    (self selff : adaboost Z Estimator) (why : loop_exit) :
  String.eqb (algorithm self) "SAMME.R" = true ->
  clf_fit ln exp X y sample_weight self = (selff, Ok why) ->
  (forall i, why <> Sentinel i)
  /\ List.length (estimators_ selff)
     = match why with
       | Exhausted => n_estimators self
       | Sentinel i => i
       | ZeroError i => S i
       | NonPositiveSum i => S i
       end.
Proof.
  intros Halg H. apply clf_fit_ok_is_base_fit in H.
  destruct (base_fit_ok_checks _ _ _ _ _ _ _ H) as (Hrate & sw0 & Hsw).
  destruct (base_fit_fields _ _ _ _ _ _ _ _ Hrate Hsw H)
    as (sl & rl & Hloop & Hes & _ & _ & Hrl).
  rewrite (Hrl _ eq_refl) in Hloop.
  assert (Halg0 : String.eqb
                    (algorithm (clear_fit (enable_importances self)))
                    "SAMME.R" = true).
  { unfold clear_fit, enable_importances.
    destruct (compute_importances self); exact Halg. }
  split.
  - apply (fit_loop_real_never_sentinel ln exp _ _ _ _ _ _ _ _ Halg0 Hloop).
  - rewrite Hes. destruct (clear_fit_fields self) as (Hnil & _).
    rewrite (fit_loop_member_count (clf_boost ln exp)
               (clf_boost_appends_one ln exp)
               (n_estimators self) 0 X y sw0
               (clear_fit (enable_importances self)) sl why
               (f_equal (@List.length _) Hnil) Hloop).
    destruct why; reflexivity.
Qed.

Lemma samme_r_never_discards_a_member_witness :
  (forall i, Exhausted <> Sentinel i)
  /\ List.length
       (estimators_ (fst (clf_fit toy_ln toy_exp X3 y3 None samme_r3)))
     = n_estimators samme_r3.
Proof.
  apply (@samme_r_never_discards_a_member _ _ _ toy_ln toy_exp X3 y3 None
           samme_r3 (fst (clf_fit toy_ln toy_exp X3 y3 None samme_r3))
           Exhausted).
  - reflexivity.
  - vm_compute. reflexivity.
Defined.

(** ** Feature importances *)

Lemma qsum_map2_plus (u v : list Q) :
  List.length u = List.length v ->
  List.length (map2 Qplus u v) = List.length u
  /\ qsum (map2 Qplus u v) == qsum u + qsum v.
Proof.
  revert v. induction u as [|a u IH]; intros [|b v] Hlen; simpl in Hlen;
    try discriminate.
  - split; [reflexivity|]. simpl. ring.
  - destruct (IH v ltac:(lia)) as [Hl Hs]. simpl. split; [now rewrite Hl|].
    fold (qsum (map2 Qplus u v)). fold (qsum u). fold (qsum v).
    rewrite Hs. ring.
Qed.

Lemma fold_vectors_sum (d : nat) (vs : list (list Q)) (acc : list Q) :
  List.length acc = d ->
  Forall (fun v => List.length v = d) vs ->
  List.length (fold_left (map2 Qplus) vs acc) = d
  /\ qsum (fold_left (map2 Qplus) vs acc)
     == qsum acc + qsum (map qsum vs).
Proof.
  revert acc. induction vs as [|v vs IH]; intros acc Hacc Hvs; simpl.
  - split; [exact Hacc|]. ring.
  - inversion Hvs as [|? ? Hv Hrest]; subst.
    destruct (qsum_map2_plus acc v ltac:(congruence)) as [Hl Hs].
    destruct (IH (map2 Qplus acc v) ltac:(congruence) Hrest)
      as [Hl' Hs'].
    split; [exact Hl'|].
    fold (qsum (map qsum vs)). rewrite Hs', Hs. ring.
Qed.

Lemma py_sum_sum (d : nat) (vs : list (list Q)) :
  vs <> [] ->
  Forall (fun v => List.length v = d) vs ->
  List.length (py_sum vs) = d /\ qsum (py_sum vs) == qsum (map qsum vs).
Proof.
  intros Hne Hvs. destruct vs as [|v vs]; [congruence|].
  inversion Hvs as [|? ? Hv Hrest]; subst. unfold py_sum.
  destruct (fold_vectors_sum (List.length v) vs v eq_refl Hrest)
    as [Hl Hs].
  split; [exact Hl|]. rewrite Hs. simpl. reflexivity.
Qed.

Lemma qsum_scaled (a : Q) (l : list Q) :
  qsum (map (Qmult a) l) == a * qsum l.
Proof.
  induction l as [|x l IH]; simpl; [ring|].
  fold (qsum (map (Qmult a) l)). fold (qsum l). rewrite IH. ring.
Qed.

Section Importances.
Context {Sample Target Estimator : Type}.
Context {WL : WeakLearner Sample Target Estimator}.

Lemma weighted_importances (d : nat) (pairs : list (Q * Estimator)) :
  Forall (fun p => exists fi,
              est_feature_importances (snd p) = Some fi
              /\ List.length fi = d /\ qsum fi == 1) pairs ->
  exists vs,
    rmap (fun wc : Q * Estimator =>
            match est_feature_importances (snd wc) with
            | Some fi => Ok (map (Qmult (fst wc)) fi)
            | None => Raise AttributeError
            end) pairs = Ok vs
    /\ List.length vs = List.length pairs
    /\ Forall (fun v => List.length v = d) vs
    /\ qsum (map qsum vs) == qsum (map fst pairs).
Proof.
  induction pairs as [|[w e] pairs IH]; intro H.
  - exists []. simpl. split; [reflexivity|]. split; [reflexivity|].
    split; [constructor|reflexivity].
  - inversion H as [|? ? (fi & Hfi & Hlen & Hsum) Hrest]; subst.
    destruct (IH Hrest) as (vs & Hvs & Hl & Hd & Hs).
    exists (map (Qmult w) fi :: vs). simpl in *. rewrite Hfi. simpl.
    rewrite Hvs. simpl. split; [reflexivity|]. split; [|split].
    + now rewrite Hl.
    + constructor; [now rewrite length_map|exact Hd].
    + fold (qsum (map qsum vs)). fold (qsum (map fst pairs)).
      rewrite Hs, qsum_scaled, Hsum. ring.
Qed.
Lemma missing_importances_raise (pairs : list (Q * Estimator)) :
  Exists (fun p => est_feature_importances (snd p) = None) pairs ->
  rmap (fun wc : Q * Estimator =>
          match est_feature_importances (snd wc) with
          | Some fi => Ok (map (Qmult (fst wc)) fi)
          | None => Raise AttributeError
          end) pairs = Raise AttributeError.
Proof.
  induction 1 as [[w e] pairs Hnone|[w e] pairs Hex IH]; simpl in *.
  - rewrite Hnone. reflexivity.
  - destruct (est_feature_importances e); [|reflexivity].
    simpl. rewrite IH. reflexivity.
Qed.
End Importances.

Lemma np_divide_finite (norm : Q) (v : list Q) :
  ~ norm == 0 ->
  map (fun x => np_divide x norm) v = map Finite (map (fun x => x / norm) v).
Proof.
  intro Hnorm. rewrite map_map. apply map_ext. intro x. unfold np_divide.
  destruct (Qeq_bool norm 0) eqn:E; [|reflexivity].
  apply Qeq_bool_eq in E. contradiction.
Qed.

Lemma np_divide_by_zero (norm : Q) (v : list Q) :
  norm == 0 ->
  Forall (fun f => forall q, f <> Finite q)
         (map (fun x => np_divide x norm) v).
Proof.
  intro Hnorm. apply Forall_map, Forall_forall. intros x _ q.
  unfold np_divide. rewrite (Qeq_eq_bool _ _ Hnorm).
  destruct (Qeq_bool x 0); [discriminate|].
  destruct (Qltb 0 x); discriminate.
Qed.

(** X20.  With [compute_importances] set and members that all expose
    importances over the same features summing to 1: when
    [estimator_weights_] does not sum to zero, the aggregation at the end of
    [fit] stores finite entries over those features that sum to the weight
    of the members divided by the sum of all of [estimator_weights_]; when
    it sums to zero, the division stores no finite entry at all (nan or an
    infinity).  When some member exposes no importances, the aggregation
    raises AttributeError and stores nothing. *)
Theorem feature_importances_are_a_weighted_average :
  forall (Sample Target Estimator : Type)
         (WL : WeakLearner Sample Target Estimator)
         (self : adaboost Target Estimator) (estimator_weights : list Q)
         (d : nat),
    compute_importances self = true ->
    estimator_weights_ self = Some estimator_weights ->
    combine estimator_weights (estimators_ self) <> [] ->
    (Forall (fun p => exists fi,
                 est_feature_importances (snd p) = Some fi
                 /\ List.length fi = d /\ qsum fi == 1)
            (combine estimator_weights (estimators_ self)) ->
     (~ qsum estimator_weights == 0 ->
      exists importances,
        sum_importances self
        = (set_feature_importances (Some (map Finite importances)) self,
           Ok tt)
        /\ List.length importances = d
        /\ qsum importances
           == qsum (map fst (combine estimator_weights (estimators_ self)))
              / qsum estimator_weights)
     /\ (qsum estimator_weights == 0 ->
         exists importances,
           sum_importances self
           = (set_feature_importances (Some importances) self, Ok tt)
           /\ List.length importances = d
           /\ Forall (fun f => forall q, f <> Finite q) importances))
    /\ (Exists (fun p => est_feature_importances (snd p) = None)
               (combine estimator_weights (estimators_ self)) ->
        sum_importances self = (self, Raise AttributeError)).
Proof.
  intros Sample Target Estimator WL self w d Hci Hw Hne. split.
  - intro Hall. unfold sum_importances. rewrite Hci, Hw.
    destruct (weighted_importances d _ Hall) as (vs & Hvs & Hl & Hd & Hs).
    rewrite Hvs.
    assert (Hvne : vs <> []).
    { intro Hnil. rewrite Hnil in Hl. simpl in Hl.
      destruct (combine w (estimators_ self)); [congruence|discriminate]. }
    destruct (py_sum_sum d vs Hvne Hd) as [Hpl Hps].
    split; intro Hnorm.
    + exists (map (fun v => v / qsum w) (py_sum vs)).
      rewrite (np_divide_finite _ _ Hnorm).
      split; [reflexivity|]. split.
      * now rewrite length_map.
      * rewrite qsum_div, Hps, Hs. reflexivity.
    + eexists. split; [reflexivity|]. split.
      * now rewrite length_map.
      * now apply np_divide_by_zero.
  - intro Hex. unfold sum_importances. rewrite Hci, Hw.
    rewrite (missing_importances_raise _ Hex). reflexivity.
Qed.

Lemma feature_importances_are_a_weighted_average_witness :
  exists importances,
    sum_importances samme_important
    = (set_feature_importances (Some (map Finite importances))
         samme_important, Ok tt)
    /\ List.length importances = 2%nat
    /\ qsum importances
       == qsum (map fst (combine [1; 3; 0] (estimators_ samme_important)))
          / qsum [1; 3; 0].
Proof.
  apply (proj1 (feature_importances_are_a_weighted_average _ _ _ _
                  samme_important [1; 3; 0] 2 eq_refl eq_refl
                  ltac:(discriminate))).
  - repeat constructor; simpl; eexists; repeat split; reflexivity.
  - apply Qeq_bool_neq. reflexivity.
Defined.

(** ** Stages as truncated ensembles *)

Lemma gfor_list_nth {A B} (f : A -> result B) (l : list A) (e : option exn)
    (i : nat) (b : B) :
  nth_error (fst (gfor_list f l e)) i = Some b ->
  exists a, nth_error l i = Some a /\ f a = Ok b.
Proof.
  revert i. induction l as [|a l IH]; intros i H; simpl in H.
  - destruct i; discriminate.
  - destruct (f a) as [b0|ex] eqn:Hf; [|destruct i; discriminate].
    destruct i as [|i]; simpl in H.
    + inversion H; subst. exists a. split; [reflexivity|exact Hf].
    + destruct (IH _ H) as (a' & Ha & Hfa). exists a'. split; assumption.
Qed.

Lemma combine_firstn_r {A B} (n : nat) (l : list A) (l' : list B) :
  combine l (firstn n l') = firstn n (combine l l').
Proof.
  revert l l'. induction n as [|n IH]; intros l l'.
  - simpl. destruct l; reflexivity.
  - destruct l as [|a l]; [reflexivity|].
    destruct l' as [|b l']; [reflexivity|]. simpl. now rewrite IH.
Qed.

Section ClassifierPrefixes.
Context {Sample Estimator : Type}.
Context {WL : WeakLearner Sample Z Estimator}.
Variable ln : Q -> Q.

Lemma decision_loop_algorithm (s s' : adaboost Z Estimator) (K : nat)
    (classes : list Z) (X : list Sample) (members : list (Q * Estimator))
    (pred : option matrix) (norm : Q) :
  algorithm s' = algorithm s ->
  decision_loop ln s' K classes X members pred norm
  = decision_loop ln s K classes X members pred norm.
Proof.
  intro Halg. revert pred norm.
  induction members as [|[w e] members IH]; intros pred norm; simpl.
  - reflexivity.
  - unfold accumulate. rewrite Halg.
    destruct (if String.eqb (algorithm s) "SAMME.R"
              then _samme_proba ln e K X
              else Ok (map (fun p => map (fun c => b2q (Z.eqb p c) * w)
                                         classes)
                           (est_predict e X))) as [cur|ex];
      [|reflexivity].
    simpl. destruct pred; simpl; apply IH.
Qed.

(** The score yielded at stage [i] is the one [decision_function] builds
    from the first [i + 1] members. *)
Lemma staged_decision_loop_nth (s : adaboost Z Estimator) (K : nat)
    (classes : list Z) (X : list Sample) (members : list (Q * Estimator))
    (pred : option matrix) (norm : Q) (i : nat) (sc : score) :
  nth_error
    (fst (staged_decision_loop ln s K classes X members pred norm)) i
  = Some sc ->
  exists pred' norm',
    decision_loop ln s K classes X (firstn (S i) members) pred norm
      = Ok (Some pred', norm')
    /\ (if (K =? 2)%nat
        then rbind (neg_col0 (mat_div pred' norm'))
               (fun t => Ok (Vec (map qsum t)))
        else Ok (Mat (mat_div pred' norm'))) = Ok sc.
Proof.
  revert pred norm i.
  induction members as [|[w e] members IH]; intros pred norm i H.
  - destruct i; discriminate.
  - cbn [staged_decision_loop] in H.
    cbn [firstn decision_loop].
    destruct (accumulate ln s K classes X pred norm w e) as [[p n]|ex];
      [|destruct i; discriminate].
    cbn [rbind fst snd]. cbv beta iota zeta in H.
    destruct (K =? 2)%nat eqn:HK2.
    + destruct (neg_col0 p) as [tmp|ex] eqn:Hneg;
        [|destruct i; discriminate].
      destruct i as [|i]; simpl in H.
      * inversion H; subst. exists p, n.
        split; [destruct members; reflexivity|].
        rewrite (neg_col0_div _ _ _ Hneg). reflexivity.
      * exact (IH _ _ _ H).
    + destruct i as [|i]; simpl in H.
      * inversion H; subst. exists p, n.
        split; [destruct members; reflexivity|reflexivity].
      * exact (IH _ _ _ H).
Qed.

Lemma staged_decision_function_nth (s : adaboost Z Estimator)
    (X : list Sample) (i : nat) (sc : score) :
  nth_error (fst (staged_decision_function ln s X)) i = Some sc ->
  decision_function ln (set_estimators (firstn (S i) (estimators_ s)) s) X
  = Ok sc.
Proof.
  unfold staged_decision_function, decision_function. intro H.
  cbn [estimators_ set_estimators n_classes_ classes_ estimator_weights_
       attr_n_classes attr_classes zip_members].
  unfold attr_n_classes, attr_classes, zip_members in *.
  cbn [estimators_ set_estimators n_classes_ classes_ estimator_weights_].
  destruct (estimators_ s) as [|e0 es] eqn:Hes; [destruct i; discriminate|].
  cbn [firstn].
  destruct (n_classes_ s) as [K|]; [|destruct i; discriminate].
  destruct (classes_ s) as [classes|]; [|destruct i; discriminate].
  destruct (estimator_weights_ s) as [w|]; [|destruct i; discriminate].
  cbn [rbind] in *.
  destruct (staged_decision_loop_nth _ _ _ _ _ _ _ _ _ H)
    as (pred' & norm' & Hloop & Hfin).
  change (e0 :: firstn i es) with (firstn (S i) (e0 :: es)).
  rewrite combine_firstn_r.
  rewrite decision_loop_algorithm with (s := s) by reflexivity.
  rewrite Hloop. cbn [rbind fst snd]. exact Hfin.
Qed.

Lemma clf_staged_predict_nth (s : adaboost Z Estimator) (X : list Sample)
    (i : nat) (p : list Z) :
  nth_error (fst (clf_staged_predict ln s X)) i = Some p ->
  clf_predict ln (set_estimators (firstn (S i) (estimators_ s)) s) X = Ok p.
Proof.
  unfold clf_staged_predict, clf_predict, gfor. intro H.
  unfold attr_n_classes, attr_classes in *.
  cbn [n_classes_ classes_ set_estimators].
  destruct (n_classes_ s) as [K|] eqn:HK; [|destruct i; discriminate].
  destruct (classes_ s) as [classes|] eqn:Hc; [|destruct i; discriminate].
  cbn [rbind] in H.
  destruct (gfor_list_nth _ _ _ _ _ H) as (sc & Hsc & Hlab).
  rewrite (staged_decision_function_nth _ _ _ _ Hsc).
  cbn [rbind]. exact Hlab.
Qed.
End ClassifierPrefixes.

Section RegressorPrefixes.
Context {Sample Estimator : Type}.
Context {WL : WeakLearner Sample Q Estimator}.

Lemma reg_staged_loop_nth (s : adaboost Q Estimator) (X : list Sample)
    (stages : list nat) (k : nat) (p : list Q) :
  nth_error (fst (reg_staged_loop s X stages)) k = Some p ->
  exists i, nth_error stages k = Some i
            /\ _get_median_predict s X (Z.of_nat i + 1) = Ok p.
Proof.
  revert k. induction stages as [|i stages IH]; intros k H; simpl in H.
  - destruct k; discriminate.
  - destruct (_get_median_predict s X (Z.of_nat i + 1)) as [q|ex] eqn:Hq;
      [|destruct k; discriminate].
    destruct k as [|k]; simpl in H.
    + inversion H; subst. exists i. split; [reflexivity|exact Hq].
    + destruct (IH _ H) as (i' & Hi & Hp). exists i'. split; assumption.
Qed.

Lemma reg_staged_predict_nth (s : adaboost Q Estimator) (X : list Sample)
    (i : nat) (p : list Q) :
  nth_error (fst (reg_staged_predict s X)) i = Some p ->
  reg_predict (set_estimators (firstn (S i) (estimators_ s)) s) X = Ok p.
Proof.
  unfold reg_staged_predict, reg_predict. intro H.
  destruct (reg_staged_loop_nth _ _ _ _ _ H) as (j & Hj & Hp).
  assert (Hlt : (i < List.length (estimators_ s))%nat).
  { assert (Hk : nth_error (seq 0 (List.length (estimators_ s))) i <> None)
      by congruence.
    apply nth_error_Some in Hk. now rewrite length_seq in Hk. }
  assert (j = i).
  { rewrite nth_error_seq in Hj.
    destruct (Nat.ltb_spec i (List.length (estimators_ s)));
      [inversion Hj; reflexivity|lia]. }
  subst j. rewrite <- Hp. unfold _get_median_predict.
  cbn [estimators_ set_estimators estimator_weights_].
  destruct (estimators_ s) as [|e0 es] eqn:Hes; [simpl in Hlt; lia|].
  cbn [firstn].
  change (e0 :: firstn i es) with (firstn (S i) (e0 :: es)).
  replace (Z.of_nat i + 1 <? 1)%Z with false by (symmetry; lia).
  change (-1 <? 1)%Z with true. cbv beta iota zeta.
  rewrite firstn_all.
  replace (Z.to_nat (Z.of_nat i + 1)) with (S i) by lia.
  reflexivity.
Qed.
End RegressorPrefixes.

Section ProbaPrefixes.
Context {Sample Estimator : Type}.
Context {WL : WeakLearner Sample Z Estimator}.
Variables ln exp : Q -> Q.

Lemma staged_proba_loop_nth (K : nat) (X : list Sample)
    (members : list (Q * Estimator)) (proba : option matrix)
    (i : nat) (p : matrix) :
  nth_error (fst (staged_proba_loop ln exp K X members proba)) i = Some p ->
  exists acc,
    proba_loop ln K X (firstn (S i) members) proba = Ok (Some acc)
    /\ to_proba exp K (Some acc) = Ok p.
Proof.
  revert proba i.
  induction members as [|[w e] members IH]; intros proba i H.
  - destruct i; discriminate.
  - cbn [staged_proba_loop] in H. cbn [firstn proba_loop].
    destruct (_samme_proba ln e K X) as [cur|ex];
      [|destruct i; discriminate].
    cbn [rbind]. cbv beta iota zeta in H.
    destruct (to_proba exp K (Some (add_proba proba cur))) as [real|ex]
      eqn:Hreal; [|destruct i; discriminate].
    destruct i as [|i]; simpl in H.
    + inversion H; subst. exists (add_proba proba cur).
      split; [destruct members; reflexivity|exact Hreal].
    + exact (IH _ _ H).
Qed.

Lemma staged_predict_proba_nth (s : adaboost Z Estimator) (X : list Sample)
    (i : nat) (p : matrix) :
  nth_error (fst (staged_predict_proba ln exp s X)) i = Some p ->
  predict_proba ln exp (set_estimators (firstn (S i) (estimators_ s)) s) X
  = Ok p.
Proof.
  unfold staged_predict_proba, predict_proba. intro H.
  unfold attr_n_classes, zip_members in *.
  cbn [estimators_ set_estimators n_classes_ estimator_weights_].
  destruct (n_classes_ s) as [K|]; [|destruct i; discriminate].
  destruct (estimator_weights_ s) as [w|]; [|destruct i; discriminate].
  cbn [rbind] in *.
  destruct (staged_proba_loop_nth _ _ _ _ _ _ H) as (acc & Hloop & Hto).
  rewrite combine_firstn_r, Hloop. cbn [rbind]. exact Hto.
Qed.
End ProbaPrefixes.

(** X21.  Stage [i] of [staged_predict], for the classifier and for the
    regressor, is what [predict] returns on the same object with
    [estimators_] cut down to its first [i + 1] members: a stage shows the
    ensemble as if boosting had stopped there. *)
Theorem staged_predict_stage_is_predict_of_prefix :
  (forall (Sample Estimator : Type) (WL : WeakLearner Sample Z Estimator)
          (ln : Q -> Q) (self : adaboost Z Estimator) (X : list Sample)
          (i : nat) (y : list Z),
      nth_error (fst (clf_staged_predict ln self X)) i = Some y ->
      clf_predict ln
        (set_estimators (firstn (S i) (estimators_ self)) self) X = Ok y)
  /\ (forall (Sample Estimator : Type) (WL : WeakLearner Sample Q Estimator)
             (self : adaboost Q Estimator) (X : list Sample)
             (i : nat) (y : list Q),
         nth_error (fst (reg_staged_predict self X)) i = Some y ->
         reg_predict
           (set_estimators (firstn (S i) (estimators_ self)) self) X = Ok y).
Proof.
  split.
  - intros. now apply clf_staged_predict_nth.
  - intros. now apply reg_staged_predict_nth.
Qed.

Lemma staged_predict_stage_is_predict_of_prefix_witness :
  clf_predict toy_ln
    (set_estimators (firstn 1 (estimators_ samme_fitted)) samme_fitted) X3
  = Ok [0%Z; 0%Z; 0%Z]
  /\ reg_predict
       (set_estimators (firstn 2 (estimators_ r2_fitted)) r2_fitted) X1
     = Ok [2].
Proof.
  split.
  - apply (proj1 staged_predict_stage_is_predict_of_prefix _ _ _ toy_ln
             samme_fitted X3 0%nat). reflexivity.
  - apply (proj2 staged_predict_stage_is_predict_of_prefix _ _ _
             r2_fitted X1 1%nat). reflexivity.
Defined.

(** X22.  Stage [i] of [staged_decision_function] and of
    [staged_predict_proba] is what [decision_function], respectively
    [predict_proba], returns on the same object with [estimators_] cut down
    to its first [i + 1] members; a stage that was yielded stands even if
    a later member makes the sequence end with an error. *)
Theorem staged_scores_stage_is_score_of_prefix :
  forall (Sample Estimator : Type) (WL : WeakLearner Sample Z Estimator)
         (ln exp : Q -> Q) (self : adaboost Z Estimator) (X : list Sample)
         (i : nat),
    (forall decision,
        nth_error (fst (staged_decision_function ln self X)) i
        = Some decision ->
        decision_function ln
          (set_estimators (firstn (S i) (estimators_ self)) self) X
        = Ok decision)
    /\ (forall proba,
           nth_error (fst (staged_predict_proba ln exp self X)) i
           = Some proba ->
           predict_proba ln exp
             (set_estimators (firstn (S i) (estimators_ self)) self) X
           = Ok proba).
Proof.
  intros. split; intros.
  - now apply staged_decision_function_nth.
  - now apply staged_predict_proba_nth.
Qed.

Lemma staged_scores_stage_is_score_of_prefix_witness :
  decision_function toy_ln
    (set_estimators (firstn 1 (estimators_ samme_fitted)) samme_fitted) X3
  = Ok (Vec [-1; -1; -1])
  /\ predict_proba toy_ln toy_exp
       (set_estimators (firstn 1 (estimators_ samme_fitted)) samme_fitted) X3
     = Ok [[16777216 # 33554432; 16777216 # 33554432];
           [16777216 # 33554432; 16777216 # 33554432];
           [16777216 # 33554432; 16777216 # 33554432]].
Proof.
  split.
  - apply (proj1 (staged_scores_stage_is_score_of_prefix _ _ _ toy_ln
                    toy_exp samme_fitted X3 0%nat)).
    vm_compute. reflexivity.
  - apply (proj2 (staged_scores_stage_is_score_of_prefix _ _ _ toy_ln
                    toy_exp samme_fitted X3 0%nat)).
    vm_compute. reflexivity.
Defined.

(** ** Slots of the recording arrays that no pass filled *)

Lemma set_item_other {A} (l l' : list A) (i j : nat) (v : A) :
  set_item l i v = Ok l' -> j <> i -> nth_error l' j = nth_error l j.
Proof.
  revert i j l'. induction l as [|a l IH]; intros i j l' H Hj; simpl in H.
  - discriminate.
  - destruct i as [|i].
    + inversion H; subst. destruct j; [congruence|reflexivity].
    + destruct (set_item l i v) as [t|e] eqn:Hset; [|discriminate].
      simpl in H. inversion H; subst.
      destruct j as [|j]; [reflexivity|]. simpl.
      apply (IH _ _ _ Hset). congruence.
Qed.

Section LoopSlots.
Context {Sample Target Estimator : Type}.
Context {WL : WeakLearner Sample Target Estimator}.
Variable _boost : nat -> list Sample -> list Target -> list Q ->
                  M (adaboost Target Estimator) (option (list Q * Q * Q)).

Hypothesis boost_keeps_arrays :
  forall iboost X y sw s s1 r,
    _boost iboost X y sw s = (s1, r) ->
    estimator_weights_ s1 = estimator_weights_ s
    /\ estimator_errors_ s1 = estimator_errors_ s.

Lemma untouched_from_later (n i k : nat) (s : adaboost Target Estimator) :
  (i <= k)%nat -> untouched_from n i s -> untouched_from n k s.
Proof.
  intros Hik (w & er & Hw & He & Hslots). exists w, er.
  split; [exact Hw|]. split; [exact He|]. intros j Hj. apply Hslots. lia.
Qed.

Lemma store_weight_slots (n i : nat) (v : Q)
    (s s' : adaboost Target Estimator) :
  store_weight i v s = (s', Ok tt) ->
  untouched_from n i s -> untouched_from n (S i) s'.
Proof.
  unfold store_weight. intros H (w & er & Hw & He & Hslots).
  rewrite Hw in H.
  destruct (set_item w i v) as [w'|e] eqn:Hset; inversion H; subst.
  exists w', er. simpl. split; [reflexivity|]. split; [exact He|].
  intros j Hj. rewrite (set_item_other _ _ _ _ _ Hset) by lia.
  apply Hslots. lia.
Qed.

Lemma store_error_slots (n i : nat) (v : Q)
    (s s' : adaboost Target Estimator) :
  store_error i v s = (s', Ok tt) ->
  untouched_from n (S i) s -> untouched_from n (S i) s'.
Proof.
  unfold store_error. intros H (w & er & Hw & He & Hslots).
  rewrite He in H.
  destruct (set_item er i v) as [er'|e] eqn:Hset; inversion H; subst.
  exists w, er'. simpl. split; [exact Hw|]. split; [reflexivity|].
  intros j Hj. rewrite (set_item_other _ _ _ _ _ Hset) by lia.
  apply Hslots. lia.
Qed.

(** A pass fills slot [iboost] at most; a rejected pass fills none. *)
Lemma fit_iteration_slots (n iboost : nat) (X : list Sample)
    (y : list Target) (sw : list Q) (s s' : adaboost Target Estimator)
    (st : step) :
  fit_iteration _boost iboost X y sw s = (s', Ok st) ->
  untouched_from n iboost s ->
  untouched_from n
    (match st with Stop (Sentinel _) => iboost | _ => S iboost end) s'.
Proof.
  unfold fit_iteration, bind. intros H Hslots.
  destruct (_boost iboost X y sw s) as [s1 rb] eqn:Hb.
  apply boost_keeps_arrays in Hb. destruct Hb as [Hw1 He1].
  assert (Hslots1 : untouched_from n iboost s1).
  { destruct Hslots as (w & er & Hw & He & Hl). exists w, er.
    rewrite Hw1, He1. auto. }
  destruct rb as [[[[sw1 ew] ee]|]|e]; [| |discriminate].
  - destruct (store_weight iboost ew s1) as [s2 [[]|e]] eqn:Hsw;
      [|discriminate].
    apply (store_weight_slots n) in Hsw; [|exact Hslots1].
    destruct (store_error iboost ee s2) as [s3 [[]|e]] eqn:Hse;
      [|discriminate].
    apply (store_error_slots n) in Hse; [|exact Hsw].
    unfold get, ret in H.
    destruct (Qeq_bool ee 0); [inversion H; subst; exact Hse|].
    destruct (Qle_bool (qsum sw1) 0); [inversion H; subst; exact Hse|].
    destruct (iboost <? n_estimators s3 - 1)%nat;
      inversion H; subst; exact Hse.
  - unfold ret in H. inversion H; subst. exact Hslots1.
Qed.

Lemma fit_loop_slots (n remaining iboost : nat) (X : list Sample)
    (y : list Target) (sw : list Q) (s s' : adaboost Target Estimator)
    (why : loop_exit) :
  fit_loop _boost remaining iboost X y sw s = (s', Ok why) ->
  untouched_from n iboost s ->
  untouched_from n
    (match why with
     | Exhausted => iboost + remaining
     | Sentinel j => j
     | ZeroError j | NonPositiveSum j => S j
     end)%nat s'.
Proof.
  revert iboost sw s.
  induction remaining as [|remaining IH]; intros iboost sw s H Hslots.
  - simpl in H. unfold ret in H. inversion H; subst.
    now rewrite Nat.add_0_r.
  - cbn [fit_loop] in H. unfold bind in H.
    destruct (fit_iteration _boost iboost X y sw s) as [s2 [st|e]] eqn:Hit;
      [|discriminate].
    assert (Hst := fit_iteration_inv _ _ _ _ _ _ _ _ Hit).
    destruct Hst as (s1 & out & _ & _ & Hst).
    apply (fit_iteration_slots n) in Hit; [|exact Hslots].
    destruct st as [sw'|why'].
    + apply (IH _ _ _ H) in Hit.
      destruct why; try exact Hit.
      replace (iboost + S remaining)%nat with (S iboost + remaining)%nat
        by lia.
      exact Hit.
    + unfold ret in H. inversion H; subst.
      destruct why as [|j|j|j]; [destruct Hst|..];
        destruct Hst as [-> _]; exact Hit.
Qed.

Lemma base_fit_slots (X : list Sample) (y : list Target)
    (sample_weight : option (list Q))
    (s sf : adaboost Target Estimator) (why : loop_exit) :
  base_fit _boost X y sample_weight s = (sf, Ok why) ->
  untouched_from (n_estimators s)
    (match why with
     | Exhausted => n_estimators s
     | Sentinel j => j
     | ZeroError j | NonPositiveSum j => S j
     end) sf.
Proof.
  intro H.
  destruct (base_fit_ok_checks _ _ _ _ _ _ _ H) as (Hrate & sw0 & Hsw).
  destruct (base_fit_fields _ _ _ _ _ _ _ _ Hrate Hsw H)
    as (sl & rl & Hloop & _ & Hw & He & Hrl).
  rewrite (Hrl _ eq_refl) in Hloop.
  apply (fit_loop_slots (n_estimators s)) in Hloop.
  - destruct Hloop as (w & er & Hwl & Hel & Hslots).
    exists w, er. rewrite Hw, He. auto.
  - destruct (clear_fit_fields s) as (_ & Hw0 & He0 & _).
    exists (repeat 0 (n_estimators s)), (repeat 1 (n_estimators s)).
    split; [exact Hw0|]. split; [exact He0|].
    intros j Hj. split; apply nth_error_repeat; lia.
Qed.
End LoopSlots.

Lemma qsum_all_zero (w : list Q) :
  (forall j, (j < List.length w)%nat -> nth_error w j = Some 0) ->
  qsum w == 0.
Proof.
  induction w as [|a w IH]; intro H; simpl; [reflexivity|].
  fold (qsum w).
  assert (Ha : a = 0).
  { specialize (H 0%nat ltac:(simpl; lia)). simpl in H. congruence. }
  rewrite IH, Ha; [reflexivity|].
  intros j Hj. apply (H (S j)). simpl. lia.
Qed.

Lemma qsum_zipped_weights {E} (w : list Q) (es : list E) :
  (forall j, (List.length es <= j < List.length w)%nat ->
             nth_error w j = Some 0) ->
  qsum (map fst (combine w es)) == qsum w.
Proof.
  revert es. induction w as [|a w IH]; intros es H; [reflexivity|].
  destruct es as [|e es].
  - simpl combine. simpl map. symmetry. apply qsum_all_zero.
    intros j Hj. apply H. simpl. simpl in Hj. lia.
  - simpl. fold (qsum w). fold (qsum (map fst (combine w es))).
    rewrite IH; [reflexivity|].
    intros j Hj. apply (H (S j)). simpl. lia.
Qed.

Lemma untouched_slots_and_sum {Target Estimator}
    (n k : nat) (s : adaboost Target Estimator) :
  recorded_arrays n s ->
  untouched_from n k s ->
  (k <= List.length (estimators_ s))%nat ->
  exists w er,
    estimator_weights_ s = Some w /\ estimator_errors_ s = Some er
    /\ (forall j, (List.length (estimators_ s) <= j < n)%nat ->
                  nth_error w j = Some 0 /\ nth_error er j = Some 1)
    /\ qsum (map fst (combine w (estimators_ s))) == qsum w.
Proof.
  intros (w & er & Hw & He & Hlw & Hle) (w' & er' & Hw' & He' & Hslots) Hk.
  rewrite Hw in Hw'. rewrite He in He'.
  inversion Hw'; inversion He'; subst w' er'.
  exists w, er. split; [exact Hw|]. split; [exact He|]. split.
  - intros j Hj. apply Hslots. lia.
  - apply qsum_zipped_weights. intros j Hj. apply Hslots. lia.
Qed.

(** X23.  After a fit that returns, of a classifier or of a regressor, the
    slots of [estimator_weights_] and [estimator_errors_] from the number
    of members on still hold the initial 0 and 1, so the weights paired
    with the members by [zip] sum to the same as the whole of
    [estimator_weights_]. *)
Theorem slots_beyond_the_ensemble_keep_initial_values :
  (forall (Sample Estimator : Type) (WL : WeakLearner Sample Z Estimator)
          (ln exp : Q -> Q) (X : list Sample) (y : list Z)
          (sample_weight : option (list Q))
          (self selff : adaboost Z Estimator) (why : loop_exit),
      clf_fit ln exp X y sample_weight self = (selff, Ok why) ->
      exists weights errors,
        estimator_weights_ selff = Some weights
        /\ estimator_errors_ selff = Some errors
        /\ (forall j,
               (List.length (estimators_ selff) <= j < n_estimators self)%nat
               -> nth_error weights j = Some 0
                  /\ nth_error errors j = Some 1)
        /\ qsum (map fst (combine weights (estimators_ selff)))
           == qsum weights)
  /\ (forall (Sample Estimator : Type) (WL : WeakLearner Sample Q Estimator)
             (ln exp : Q -> Q) (power : Q -> Q -> Q)
             (random_sample : nat -> nat -> list Q)
             (X : list Sample) (y : list Q)
             (sample_weight : option (list Q))
             (self selff : adaboost Q Estimator) (why : loop_exit),
         reg_fit ln exp power random_sample X y sample_weight self
         = (selff, Ok why) ->
         exists weights errors,
           estimator_weights_ selff = Some weights
           /\ estimator_errors_ selff = Some errors
           /\ (forall j,
                  (List.length (estimators_ selff) <= j
                   < n_estimators self)%nat
                  -> nth_error weights j = Some 0
                     /\ nth_error errors j = Some 1)
           /\ qsum (map fst (combine weights (estimators_ selff)))
              == qsum weights).
Proof.
  split.
  - intros Sample Estimator WL ln exp X y sample_weight self selff why H.
    apply clf_fit_ok_is_base_fit in H.
    assert (Hslots := base_fit_slots (clf_boost ln exp)
                        (clf_boost_keeps_arrays ln exp) _ _ _ _ _ _ H).
    destruct (base_fit_ok_checks _ _ _ _ _ _ _ H) as (Hrate & sw0 & Hsw).
    assert (Harr := base_fit_arrays (clf_boost ln exp)
                      (clf_boost_keeps_arrays ln exp) _ _ _ _ _ _ _
                      Hrate Hsw H).
    destruct (base_fit_fields _ _ _ _ _ _ _ _ Hrate Hsw H)
      as (sl & rl & Hloop & Hes & _ & _ & Hrl).
    rewrite (Hrl _ eq_refl) in Hloop.
    destruct (clear_fit_fields self) as (Hnil & _).
    assert (Hcount := fit_loop_member_count (clf_boost ln exp)
                        (clf_boost_appends_one ln exp)
                        (n_estimators self) 0 X y sw0
                        (clear_fit (enable_importances self)) sl why
                        (f_equal (@List.length _) Hnil) Hloop).
    rewrite <- Hes in Hcount.
    apply (untouched_slots_and_sum _ _ _ Harr Hslots).
    rewrite Hcount. destruct why; simpl; lia.
  - intros Sample Estimator WL ln exp power random_sample X y sample_weight
           self selff why H.
    apply reg_fit_ok_is_base_fit in H.
    assert (Hslots := base_fit_slots (reg_boost ln exp power random_sample)
                        (reg_boost_keeps_arrays ln exp power random_sample)
                        _ _ _ _ _ _ H).
    destruct (base_fit_ok_checks _ _ _ _ _ _ _ H) as (Hrate & sw0 & Hsw).
    assert (Harr := base_fit_arrays (reg_boost ln exp power random_sample)
                      (reg_boost_keeps_arrays ln exp power random_sample)
                      _ _ _ _ _ _ _ Hrate Hsw H).
    destruct (base_fit_fields _ _ _ _ _ _ _ _ Hrate Hsw H)
      as (sl & rl & Hloop & Hes & _ & _ & Hrl).
    rewrite (Hrl _ eq_refl) in Hloop.
    destruct (clear_fit_fields self) as (Hnil & _).
    assert (Hcount := fit_loop_member_count_kept
                        (reg_boost ln exp power random_sample) (Nat.max 1)
                        (reg_boost_count ln exp power random_sample)
                        (n_estimators self) 0 X y sw0
                        (clear_fit (enable_importances self)) sl why
                        (f_equal (@List.length _) Hnil) Hloop).
    rewrite <- Hes in Hcount.
    apply (untouched_slots_and_sum _ _ _ Harr Hslots).
    rewrite Hcount. destruct why; cbv beta iota; lia.
Qed.

Lemma slots_beyond_the_ensemble_keep_initial_values_witness :
  exists weights errors,
    estimator_weights_ (fst (clf_fit toy_ln toy_exp X3 y3 None samme3))
    = Some weights
    /\ estimator_errors_ (fst (clf_fit toy_ln toy_exp X3 y3 None samme3))
       = Some errors
    /\ (forall j,
           (List.length
              (estimators_ (fst (clf_fit toy_ln toy_exp X3 y3 None samme3)))
            <= j < n_estimators samme3)%nat
           -> nth_error weights j = Some 0 /\ nth_error errors j = Some 1)
    /\ qsum (map fst
               (combine weights
                  (estimators_
                     (fst (clf_fit toy_ln toy_exp X3 y3 None samme3)))))
       == qsum weights.
Proof.
  apply (proj1 slots_beyond_the_ensemble_keep_initial_values _ _ _
           toy_ln toy_exp X3 y3 None samme3
           (fst (clf_fit toy_ln toy_exp X3 y3 None samme3)) (Sentinel 1)).
  vm_compute. reflexivity.
Defined.
